(** * CenterStage: the framing engine, the detection cache and the face tracker

    A shallow embedding of [src/core/center_stage.py], [src/core/detector.py]
    and [src/core/tracker.py], with the frame-rate counter of
    [src/utils/performance.py] and the crop functions of the stand-alone
    scripts.

    Conventions of the embedding.
    - Python [float] values are modelled twice.
      - The exact layer (the modules [CropRegion], [DetectionResult],
        [CenterStageEngine], ...) takes every float operation without its
        rounding: a float is a rational ([Q]) and equality of two floats is
        [Qeq] ([==]).  It carries the theorems that hold for every input.  A
        theorem over it is worded so that it does not lean on the exactness:
        it compares values through [min], [max] and the order, or it names the
        value the program itself computes ("the height is the quotient
        [width / aspect_ratio]").  NaN and the infinities are outside this
        layer.
      - The binary64 layer (the module [Binary64], on the primitives of
        [F64]) is the same code on IEEE 754 binary64 numbers with rounding to
        nearest even, which is what CPython computes with.  It gives what the
        program returns at a given input, rounding included, and it is where
        the two layers are seen to part.
    - Python [int] values are [Z].  A computation on ints that goes through
      floats (the height of the detector frame) is done in binary64.
    - A Python exception is a value of [exn]; a call that may raise returns
      [result A].
    - A [dict] is an association list in insertion order (iteration order and
      the order of [values()] matter to the tracker).
    - OpenCV and the clock are collaborators outside the repository; they are
      taken as parameters of the functions that call them. *)

From Stdlib Require Import ZArith QArith Qabs Lqa Lia List Bool Sorted.
From Stdlib Require Import Floats.
Import ListNotations.

Set Warnings "-inexact-float".

Local Open Scope Q_scope.

(** ** Python primitives *)

Module Py.

Inductive exn : Type :=
| ZeroDivisionError
| ValueError
| KeyError
| Cv2Error
| OverflowError.

Inductive result (A : Type) : Type :=
| Ok (a : A)
| Raise (e : exn).
Arguments Ok {A} a.
Arguments Raise {A} e.

Definition bind {A B : Type} (m : result A) (k : A -> result B) : result B :=
  match m with
  | Ok a => k a
  | Raise e => Raise e
  end.

(** [max(a, b)] keeps its first argument unless the second is greater. *)
Definition max (a b : Q) : Q := if Qlt_le_dec a b then b else a.

(** [min(a, b)] keeps its first argument unless the second is smaller. *)
Definition min (a b : Q) : Q := if Qlt_le_dec b a then b else a.

Definition maxZ (a b : Z) : Z := if (a <? b)%Z then b else a.
Definition minZ (a b : Z) : Z := if (b <? a)%Z then b else a.

(** [min(g)] and [max(g)] over a generator: [ValueError] on no item. *)
Definition min_of (l : list Q) : result Q :=
  match l with
  | [] => Raise ValueError
  | a :: t => Ok (fold_left min t a)
  end.

Definition max_of (l : list Q) : result Q :=
  match l with
  | [] => Raise ValueError
  | a :: t => Ok (fold_left max t a)
  end.

(** [a / b] on floats. *)
Definition div (a b : Q) : result Q :=
  if Qeq_bool b 0 then Raise ZeroDivisionError else Ok (a / b).

(** [a % b] on ints: the sign of the result follows the divisor. *)
Definition mod_ (a b : Z) : result Z :=
  if (b =? 0)%Z then Raise ZeroDivisionError else Ok (a mod b)%Z.

(** [int(q)]: truncation toward zero. *)
Definition int (q : Q) : Z := Z.quot (Qnum q) (Zpos (Qden q)).

Definition abs (q : Q) : Q := Qabs q.

(** A slice bound [i] of a sequence of length [n], as [seq[i:...]] reads
    it: a negative bound counts from the end, and the result is clipped to
    [0..n]. *)
Definition slice_bound (n i : Z) : Z :=
  if (i <? 0)%Z then Z.max 0 (n + i) else Z.min i n.

(** [l[:n]] *)
Definition take {A : Type} (n : Z) (l : list A) : list A :=
  firstn (Z.to_nat (slice_bound (Z.of_nat (length l)) n)) l.

End Py.

(** ** Python floats as they are: binary64

    Rocq's primitive floats are the IEEE 754 binary64 numbers, and their
    operations round to nearest, ties to even, as CPython's do. *)

Module F64.

Local Open Scope float_scope.

(** [max(a, b)] keeps its first argument unless the second is greater; a
    comparison with NaN is false. *)
Definition max (a b : float) : float := if a <? b then b else a.

(** [min(a, b)] keeps its first argument unless the second is smaller. *)
Definition min (a b : float) : float := if b <? a then b else a.

(** [min(g)] and [max(g)] over a generator: [ValueError] on no item. *)
Definition min_of (l : list float) : Py.result float :=
  match l with
  | [] => Py.Raise Py.ValueError
  | a :: t => Py.Ok (fold_left min t a)
  end.

Definition max_of (l : list float) : Py.result float :=
  match l with
  | [] => Py.Raise Py.ValueError
  | a :: t => Py.Ok (fold_left max t a)
  end.

(** [a / b] on floats: a zero divisor of either sign raises. *)
Definition div (a b : float) : Py.result float :=
  if b =? 0 then Py.Raise Py.ZeroDivisionError else Py.Ok (a / b).

Definition abs (a : float) : float := PrimFloat.abs a.

(** The float of an int, as in [int * float] and [int / int]: the nearest
    float (the int itself below [2^53]). *)
Definition of_Z (z : Z) : float :=
  SF2Prim (binary_normalize prec emax z 0 false).

(** [int(f)]: truncation toward zero; NaN is a [ValueError] and an infinity
    an [OverflowError]. *)
Definition int (f : float) : Py.result Z :=
  match Prim2SF f with
  | S754_zero _ => Py.Ok 0%Z
  | S754_finite s m e =>
      let a := match e with
               | Z0 => Zpos m
               | Zpos k => (Zpos m * 2 ^ Zpos k)%Z
               | Zneg k => (Zpos m / 2 ^ Zpos k)%Z
               end in
      Py.Ok (if s then (- a)%Z else a)
  | S754_infinity _ => Py.Raise Py.OverflowError
  | S754_nan => Py.Raise Py.ValueError
  end.

End F64.

Import Py.

Declare Scope py_scope.
Delimit Scope py_scope with py.
Notation "x <- m ;; k" := (Py.bind m (fun x => k))
  (at level 61, m at next level, right associativity) : py_scope.
Local Open Scope py_scope.

(** ** [CropRegion] ([center_stage.py], lines 27-88) *)

Module CropRegion.

Record t : Type := mk {
  x : Q;
  y : Q;
  width : Q;
  height : Q
}.

Definition center (r : t) : Q * Q :=
  (x r + width r / 2, y r + height r / 2).

Definition right (r : t) : Q := x r + width r.

Definition bottom (r : t) : Q := y r + height r.

Definition to_pixels (r : t) (frame_width frame_height : Z) : Z * Z * Z * Z :=
  (Py.int (x r * inject_Z frame_width),
   Py.int (y r * inject_Z frame_height),
   Py.int (width r * inject_Z frame_width),
   Py.int (height r * inject_Z frame_height)).

Definition full_frame : t := mk 0 0 1 1.

Definition clamp (r : t) : t :=
  let x' := Py.max 0 (Py.min (x r) (1 - width r)) in
  let y' := Py.max 0 (Py.min (y r) (1 - height r)) in
  let width' := Py.min (width r) (1 - x') in
  let height' := Py.min (height r) (1 - y') in
  mk x' y' width' height'.

Definition lerp (r target : t) (factor : Q) : t :=
  mk (x r + (x target - x r) * factor)
     (y r + (y target - y r) * factor)
     (width r + (width target - width r) * factor)
     (height r + (height target - height r) * factor).

(** The region lies inside the unit square. *)
Definition within_unit (r : t) : Prop :=
  0 <= x r /\ 0 <= y r /\ x r + width r <= 1 /\ y r + height r <= 1.

End CropRegion.

(** ** [FaceDetection] and [DetectionResult] ([detector.py], lines 18-74) *)

Module FaceDetection.

Record t : Type := mk {
  x : Q;
  y : Q;
  width : Q;
  height : Q;
  confidence : Q;
  tracking_id : option Z
}.

Definition center (f : t) : Q * Q :=
  (x f + width f / 2, y f + height f / 2).

Definition area (f : t) : Q := width f * height f.

Definition to_pixels (f : t) (frame_width frame_height : Z)
    : Z * Z * Z * Z :=
  (Py.int (x f * inject_Z frame_width),
   Py.int (y f * inject_Z frame_height),
   Py.int (width f * inject_Z frame_width),
   Py.int (height f * inject_Z frame_height)).

End FaceDetection.

Module DetectionResult.

Record t : Type := mk {
  faces : list FaceDetection.t;
  processing_time_ms : Q
}.

Definition face_count (r : t) : Z := Z.of_nat (length (faces r)).

Definition has_faces (r : t) : bool := (0 <? Z.of_nat (length (faces r)))%Z.

(** [max(self.faces, key=lambda f: f.area)]: the first face of largest
    area. *)
Definition primary_face (r : t) : option FaceDetection.t :=
  match faces r with
  | [] => None
  | f :: rest =>
      Some (fold_left
              (fun best g =>
                 if Qlt_le_dec (FaceDetection.area best) (FaceDetection.area g)
                 then g else best)
              rest f)
  end.

(** [get_bounding_box]: [(min_x, min_y, width, height)] of the box around
    all faces, [None] without faces. *)
Definition get_bounding_box (r : t) : option (Q * Q * Q * Q) :=
  match faces r with
  | [] => None
  | f :: rest =>
      let min_x := fold_left Py.min (map FaceDetection.x rest) (FaceDetection.x f) in
      let min_y := fold_left Py.min (map FaceDetection.y rest) (FaceDetection.y f) in
      let max_x :=
        fold_left Py.max
          (map (fun g => FaceDetection.x g + FaceDetection.width g) rest)
          (FaceDetection.x f + FaceDetection.width f) in
      let max_y :=
        fold_left Py.max
          (map (fun g => FaceDetection.y g + FaceDetection.height g) rest)
          (FaceDetection.y f + FaceDetection.height f) in
      Some (min_x, min_y, max_x - min_x, max_y - min_y)
  end.

End DetectionResult.

(** ** The framing engine ([center_stage.py], lines 20-25 and 91-428) *)

Inductive FramingMode : Type := SINGLE | ALL | CLOSEST.

Definition FramingMode_eqb (a b : FramingMode) : bool :=
  match a, b with
  | SINGLE, SINGLE | ALL, ALL | CLOSEST, CLOSEST => true
  | _, _ => false
  end.

Module CenterStageConfig.

Record t : Type := mk {
  smoothing : Q;
  dead_zone : Q;
  min_zoom : Q;
  max_zoom : Q;
  face_padding : Q;
  aspect_ratio : Q;
  framing_mode : FramingMode;
  frames_until_reset : Z;
  enabled : bool
}.

Definition default : t :=
  mk (8 # 100) (15 # 1000) 1 (25 # 10) (35 # 100) (16 # 9) ALL 60 true.

Definition with_enabled (c : t) (b : bool) : t :=
  mk (smoothing c) (dead_zone c) (min_zoom c) (max_zoom c) (face_padding c)
     (aspect_ratio c) (framing_mode c) (frames_until_reset c) b.

Definition with_zoom (c : t) (lo hi : Q) : t :=
  mk (smoothing c) (dead_zone c) lo hi (face_padding c)
     (aspect_ratio c) (framing_mode c) (frames_until_reset c) (enabled c).

Definition with_smoothing (c : t) (v : Q) : t :=
  mk v (dead_zone c) (min_zoom c) (max_zoom c) (face_padding c)
     (aspect_ratio c) (framing_mode c) (frames_until_reset c) (enabled c).

Definition with_framing_mode (c : t) (m : FramingMode) : t :=
  mk (smoothing c) (dead_zone c) (min_zoom c) (max_zoom c) (face_padding c)
     (aspect_ratio c) m (frames_until_reset c) (enabled c).

End CenterStageConfig.

Module CenterStageState.

Record t : Type := mk {
  current_crop : CropRegion.t;
  target_crop : CropRegion.t;
  frames_without_face : Z;
  is_tracking : bool
}.

Definition init : t :=
  mk CropRegion.full_frame CropRegion.full_frame 0 false.

End CenterStageState.

(** A frame: a [numpy] array read through its first two dimensions
    ([shape[:2]] is [(rows, cols)]) and its pixels. *)
Module ndarray.

Record t : Type := mk {
  rows : Z;
  cols : Z;
  at_ : Z -> Z -> Z
}.

Definition shape (a : t) : Z * Z := (rows a, cols a).

(** [a[y0:y1, x0:x1]] *)
Definition slice (a : t) (y0 y1 x0 x1 : Z) : t :=
  let r0 := Py.slice_bound (rows a) y0 in
  let r1 := Py.slice_bound (rows a) y1 in
  let c0 := Py.slice_bound (cols a) x0 in
  let c1 := Py.slice_bound (cols a) x1 in
  mk (Z.max 0 (r1 - r0)) (Z.max 0 (c1 - c0))
     (fun i j => at_ a (r0 + i)%Z (c0 + j)%Z).

Definition is_empty (a : t) : bool := ((rows a <=? 0) || (cols a <=? 0))%Z.

End ndarray.

Module CenterStageEngine.

Import CenterStageConfig CenterStageState.

Record t : Type := mk {
  config : CenterStageConfig.t;
  _state : CenterStageState.t
}.

(** [__init__] *)
Definition init (cfg : option CenterStageConfig.t) : t :=
  mk (match cfg with Some c => c | None => CenterStageConfig.default end)
     CenterStageState.init.

Definition is_tracking (e : t) : bool := CenterStageState.is_tracking (_state e).

Definition current_crop (e : t) : CropRegion.t :=
  CenterStageState.current_crop (_state e).

Definition zoom_level (e : t) : result Q :=
  Py.div 1 (CropRegion.width (current_crop e)).

Definition reset (e : t) : t := mk (config e) CenterStageState.init.

(** Lines 224-232: the faces to frame; [None] is the early return of
    line 228. *)
Definition _faces_to_frame (cfg : CenterStageConfig.t)
    (result : DetectionResult.t) : option (list FaceDetection.t) :=
  if FramingMode_eqb (framing_mode cfg) SINGLE then
    match DetectionResult.primary_face result with
    | None => None
    | Some primary => Some [primary]
    end
  else Some (DetectionResult.faces result).

(** Lines 234-293: the crop before the final [clamp]. *)
Definition _target_before_clamp (cfg : CenterStageConfig.t)
    (faces : list FaceDetection.t) : Py.result CropRegion.t :=
  min_x <- Py.min_of (map FaceDetection.x faces) ;;
  min_y <- Py.min_of (map FaceDetection.y faces) ;;
  max_x <- Py.max_of
             (map (fun f => FaceDetection.x f + FaceDetection.width f) faces) ;;
  max_y <- Py.max_of
             (map (fun f => FaceDetection.y f + FaceDetection.height f) faces) ;;
  let face_width := max_x - min_x in
  let face_height := max_y - min_y in
  let padding_x := face_width * face_padding cfg in
  let padding_y := face_height * face_padding cfg in
  let min_x := Py.max 0 (min_x - padding_x) in
  let min_y := Py.max 0 (min_y - padding_y) in
  let max_x := Py.min 1 (max_x + padding_x) in
  let max_y := Py.min 1 (max_y + padding_y) in
  let region_width := max_x - min_x in
  let region_height := max_y - min_y in
  let target_ratio := aspect_ratio cfg in
  current_ratio <-
    (if Qlt_le_dec 0 region_height
     then Py.div region_width region_height
     else Ok target_ratio) ;;
  adjusted <-
    (if Qlt_le_dec target_ratio current_ratio then
       new_height <- Py.div region_width target_ratio ;;
       let height_increase := new_height - region_height in
       Ok (min_x, Py.max 0 (min_y - height_increase / 2),
           region_width, new_height)
     else
       let new_width := region_height * target_ratio in
       let width_increase := new_width - region_width in
       Ok (Py.max 0 (min_x - width_increase / 2), min_y,
           new_width, region_height)) ;;
  let '(min_x, min_y, region_width, region_height) := adjusted in
  max_size <- Py.div 1 (min_zoom cfg) ;;
  min_size <- Py.div 1 (max_zoom cfg) ;;
  let region_width := Py.max min_size (Py.min max_size region_width) in
  region_height <- Py.div region_width target_ratio ;;
  let face_center_x := (min_x + max_x) / 2 in
  let face_center_y := (min_y + max_y) / 2 in
  let crop_x := face_center_x - region_width / 2 in
  let crop_y := face_center_y - region_height / 2 in
  Ok (CropRegion.mk crop_x crop_y region_width region_height).

Definition _calculate_target_crop (e : t) (result : DetectionResult.t)
    : Py.result CropRegion.t :=
  match _faces_to_frame (config e) result with
  | None => Ok CropRegion.full_frame
  | Some faces =>
      crop <- _target_before_clamp (config e) faces ;;
      Ok (CropRegion.clamp crop)
  end.

Definition _smooth_transition (e : t) (current target : CropRegion.t)
    : CropRegion.t :=
  let dx := Py.abs (fst (CropRegion.center target) - fst (CropRegion.center current)) in
  let dy := Py.abs (snd (CropRegion.center target) - snd (CropRegion.center current)) in
  let dw := Py.abs (CropRegion.width target - CropRegion.width current) in
  let total_delta := dx + dy + dw in
  if Qlt_le_dec total_delta (dead_zone (config e)) then current
  else
    let smoothed := CropRegion.lerp current target (smoothing (config e)) in
    CropRegion.clamp smoothed.

(** [update]: the returned pair is what the call returns (or raises) and
    the engine after the call.  An exception of [_calculate_target_crop]
    is raised before line 194 assigns anything, so it leaves the engine as
    it was. *)
Definition update (e : t) (detection_result : DetectionResult.t)
    : Py.result CropRegion.t * t :=
  if negb (enabled (config e)) then (Ok CropRegion.full_frame, e)
  else
    let s := _state e in
    let branch : Py.result CenterStageState.t :=
      if DetectionResult.has_faces detection_result then
        target <- _calculate_target_crop e detection_result ;;
        Ok (CenterStageState.mk (CenterStageState.current_crop s) target 0 true)
      else
        let n := (frames_without_face s + 1)%Z in
        if (frames_until_reset (config e) <=? n)%Z then
          Ok (CenterStageState.mk (CenterStageState.current_crop s)
                CropRegion.full_frame n false)
        else
          Ok (CenterStageState.mk (CenterStageState.current_crop s)
                (target_crop s) n (CenterStageState.is_tracking s)) in
    match branch with
    | Raise ex => (Raise ex, e)
    | Ok s1 =>
        let current :=
          _smooth_transition e (CenterStageState.current_crop s1)
                             (target_crop s1) in
        (Ok current,
         mk (config e)
            (CenterStageState.mk current (target_crop s1)
               (frames_without_face s1) (CenterStageState.is_tracking s1)))
    end.

Definition set_zoom_range (e : t) (lo hi : Q) : t :=
  let lo' := Py.max 1 lo in
  mk (CenterStageConfig.with_zoom (config e) lo' (Py.max lo' hi)) (_state e).

Definition set_enabled (e : t) (b : bool) : t :=
  let e1 := mk (CenterStageConfig.with_enabled (config e) b) (_state e) in
  if negb b then reset e1 else e1.

Definition set_smoothing (e : t) (value : Q) : t :=
  mk (CenterStageConfig.with_smoothing (config e)
        (Py.max (1 # 100) (Py.min (1 # 2) value)))
     (_state e).

Definition set_framing_mode (e : t) (mode : FramingMode) : t :=
  mk (CenterStageConfig.with_framing_mode (config e) mode) (_state e).

(** The calls a client can make on the engine.  [step] is the engine
    after a call, whether the call returned or raised ([update] is the only
    one that can raise, and then it leaves the engine as it was). *)
Inductive call : Type :=
| CallUpdate (detection_result : DetectionResult.t)
| CallReset
| CallSetSmoothing (value : Q)
| CallSetZoomRange (lo hi : Q)
| CallSetFramingMode (mode : FramingMode)
| CallSetEnabled (b : bool).

Definition step (e : t) (c : call) : t :=
  match c with
  | CallUpdate r => snd (update e r)
  | CallReset => reset e
  | CallSetSmoothing v => set_smoothing e v
  | CallSetZoomRange lo hi => set_zoom_range e lo hi
  | CallSetFramingMode m => set_framing_mode e m
  | CallSetEnabled b => set_enabled e b
  end.

Definition run (e : t) (calls : list call) : t := fold_left step calls e.


(** Lines 347-356 of [apply_crop]: the pixel rectangle [(x, y, cw, ch)]
    after "Ensure valid bounds", for a frame of shape [(h, w)]. *)
Definition pixel_bounds (shape : Z * Z) (crop : CropRegion.t)
    : Z * Z * Z * Z :=
  let '(h, w) := shape in
  let '(x, y, cw, ch) := CropRegion.to_pixels crop w h in
  let x := Py.maxZ 0 (Py.minZ x (w - cw)) in
  let y := Py.maxZ 0 (Py.minZ y (h - ch)) in
  let cw := Py.minZ cw (w - x) in
  let ch := Py.minZ ch (h - y) in
  (x, y, cw, ch).

(** [apply_crop]; [cv2_resize src dsize] stands for
    [cv2.resize(src, dsize, interpolation=cv2.INTER_LINEAR)]. *)
Section ApplyCrop.

Variable cv2_resize : ndarray.t -> Z * Z -> Py.result ndarray.t.

(** Lines 344-359: the sub-array handed to the resizer. *)
Definition cropped_region (e : t) (frame : ndarray.t)
    (crop : option CropRegion.t) : ndarray.t :=
  let crop := match crop with
              | None => CenterStageState.current_crop (_state e)
              | Some c => c
              end in
  let '(h, w) := ndarray.shape frame in
  let '(x, y, cw, ch) := CropRegion.to_pixels crop w h in
  let x := Py.maxZ 0 (Py.minZ x (w - cw)) in
  let y := Py.maxZ 0 (Py.minZ y (h - ch)) in
  let cw := Py.minZ cw (w - x) in
  let ch := Py.minZ ch (h - y) in
  ndarray.slice frame y (y + ch) x (x + cw).

Definition apply_crop (e : t) (frame : ndarray.t)
    (crop : option CropRegion.t) (output_size : option (Z * Z))
    : Py.result ndarray.t :=
  let cropped := cropped_region e frame crop in
  let '(h, w) := ndarray.shape frame in
  let output_size := match output_size with
                     | None => (w, h)
                     | Some s => s
                     end in
  cv2_resize cropped output_size.

End ApplyCrop.

End CenterStageEngine.

(** ** The detection cache ([detector.py], lines 77-177) *)

Module FaceDetector.

Definition DETECT_WIDTH : Z := 320.

Record t : Type := mk {
  _min_confidence : Q;
  _max_faces : Z;
  _last_result : option DetectionResult.t;
  _frame_count : Z;
  _detect_interval : Z
}.

(** [__init__] *)
Definition init (min_confidence : Q) (max_faces : Z) : t :=
  mk min_confidence max_faces None 0 3.

Definition with_frame_count (d : t) (n : Z) : t :=
  mk (_min_confidence d) (_max_faces d) (_last_result d) n (_detect_interval d).

Definition with_last_result (d : t) (r : option DetectionResult.t) : t :=
  mk (_min_confidence d) (_max_faces d) r (_frame_count d) (_detect_interval d).

(** The property [min_confidence] and its setter (lines 108-114). *)
Definition min_confidence (d : t) : Q := _min_confidence d.

Definition set_min_confidence (d : t) (value : Q) : t :=
  mk (Py.max 0 (Py.min 1 value)) (_max_faces d) (_last_result d)
     (_frame_count d) (_detect_interval d).

(** Lines 155-162: one detector-space rectangle, the [i]-th kept, as a
    normalized face.  The divisions are read as Python divisions: a divisor
    of zero raises.  ([small_width] is never zero; with [numpy] integers a
    [small_height] of zero would answer infinities instead, a case that the
    collaborator [cv2.resize] rejects before it gets here.) *)
Definition to_face (small_width small_height : Z) (i : nat)
    (r : Z * Z * Z * Z) : Py.result FaceDetection.t :=
  let '(x, y, w, h) := r in
  fx <- Py.div (inject_Z x) (inject_Z small_width) ;;
  fy <- Py.div (inject_Z y) (inject_Z small_height) ;;
  fw <- Py.div (inject_Z w) (inject_Z small_width) ;;
  fh <- Py.div (inject_Z h) (inject_Z small_height) ;;
  Ok (FaceDetection.mk fx fy fw fh (9 # 10) (Some (Z.of_nat i))).

(** The loop of lines 153-163 from index [i] on. *)
Fixpoint to_faces (small_width small_height : Z) (i : nat)
    (rects : list (Z * Z * Z * Z)) : Py.result (list FaceDetection.t) :=
  match rects with
  | [] => Ok []
  | r :: rest =>
      f <- to_face small_width small_height i r ;;
      fs <- to_faces small_width small_height (S i) rest ;;
      Ok (f :: fs)
  end.

(** Lines 132-137: [scale = self.DETECT_WIDTH / width] and
    [int(height * scale)], on the ints of [frame.shape] and in binary64: the
    quotient and the product round before [int] truncates. *)
Definition small_height_of (frame : ndarray.t) : Py.result Z :=
  let '(height, width) := ndarray.shape frame in
  if (width =? 0)%Z then Raise ZeroDivisionError
  else
    let scale := (F64.of_Z DETECT_WIDTH / F64.of_Z width)%float in
    F64.int (F64.of_Z height * scale)%float.

(** The guard of lines 126-127 does not hold: the call goes on to the
    detector. *)
Definition goes_to_detector (d : t) (force : bool) : Prop :=
  force = true \/
  _last_result d = None \/
  (_detect_interval d <> 0%Z /\
   ((_frame_count d + 1) mod _detect_interval d = 0)%Z).

Section WithOpenCV.

(** [cv2.resize(frame, dsize, interpolation=cv2.INTER_NEAREST)],
    [cv2.cvtColor(small_frame, cv2.COLOR_RGB2GRAY)] and
    [self._face_cascade.detectMultiScale(gray, ...)]: each returns or
    raises. *)
Variable cv2_resize : ndarray.t -> Z * Z -> Py.result ndarray.t.
Variable cv2_cvtColor : ndarray.t -> Py.result ndarray.t.
Variable detectMultiScale : ndarray.t -> Py.result (list (Z * Z * Z * Z)).

(** Lines 130-167, with the two readings [clock] of
    [time.perf_counter()]. *)
Definition run_detector (d : t) (frame : ndarray.t) (clock : Q * Q)
    : Py.result DetectionResult.t :=
  let start_time := fst clock in
  small_height <- small_height_of frame ;;
  let small_width := DETECT_WIDTH in
  small_frame <- cv2_resize frame (small_width, small_height) ;;
  gray <- cv2_cvtColor small_frame ;;
  detected_faces <- detectMultiScale gray ;;
  faces <- to_faces small_width small_height 0
             (Py.take (_max_faces d) detected_faces) ;;
  let processing_time := (snd clock - start_time) * 1000 in
  Ok (DetectionResult.mk faces processing_time).

(** [detect]: what the call returns (or raises) and the detector after
    the call. *)
Definition detect (d : t) (frame : ndarray.t) (force : bool)
    (clock : Q * Q) : Py.result DetectionResult.t * t :=
  let d := with_frame_count d (_frame_count d + 1) in
  let fresh (_ : unit) :=
    match run_detector d frame clock with
    | Ok result => (Ok result, with_last_result d (Some result))
    | Raise ex => (Raise ex, d)
    end in
  match force, _last_result d with
  | false, Some last =>
      match Py.mod_ (_frame_count d) (_detect_interval d) with
      | Raise ex => (Raise ex, d)
      | Ok m => if negb (m =? 0)%Z then (Ok last, d) else fresh tt
      end
  | _, _ => fresh tt
  end.

End WithOpenCV.

End FaceDetector.

(** ** The face tracker ([tracker.py]) *)

(** A [dict] keyed by track identities, in insertion order. *)
Module PyDict.

Section Dict.

Context {V : Type}.

Definition t : Type := list (Z * V).

Definition keys (d : t) : list Z := map fst d.

(** [list(d.values())] *)
Definition values (d : t) : list V := map snd d.

(** [d[k]], [None] standing for [KeyError] *)
Fixpoint get (k : Z) (d : t) : option V :=
  match d with
  | [] => None
  | (k', v) :: rest => if (k =? k')%Z then Some v else get k rest
  end.

(** [d[k] = v]: a present key keeps its place, a new key goes last. *)
Fixpoint set (k : Z) (v : V) (d : t) : t :=
  match d with
  | [] => [(k, v)]
  | (k', v') :: rest =>
      if (k =? k')%Z then (k', v) :: rest else (k', v') :: set k v rest
  end.

(** An attribute assignment on the object [d[k]], for a key [k] just
    read from [d]. *)
Fixpoint modify (k : Z) (f : V -> V) (d : t) : t :=
  match d with
  | [] => []
  | (k', v) :: rest =>
      if (k =? k')%Z then (k', f v) :: rest else (k', v) :: modify k f rest
  end.

(** [d.pop(k, None)] *)
Fixpoint pop (k : Z) (d : t) : t :=
  match d with
  | [] => []
  | (k', v) :: rest =>
      if (k =? k')%Z then rest else (k', v) :: pop k rest
  end.

End Dict.

Arguments t V : clear implicits.

End PyDict.

(** [x in s] for a set of ints / of indices *)
Definition memZ (k : Z) (s : list Z) : bool := existsb (Z.eqb k) s.
Definition memN (i : nat) (s : list nat) : bool := existsb (Nat.eqb i) s.

Definition BBox : Type := (Z * Z * Z * Z)%type.

Inductive TrackerType : Type := CSRT | KCF | MOSSE.

Module TrackedFace.

Record t : Type := mk {
  tracking_id : Z;
  bbox : BBox;
  confidence : Q;
  frames_since_detection : Z;
  is_lost : bool
}.

(** [TrackedFace(tracking_id=..., bbox=..., confidence=...)] *)
Definition new (tracking_id : Z) (bbox : BBox) (confidence : Q) : t :=
  mk tracking_id bbox confidence 0 false.

Definition with_bbox (f : t) (b : BBox) : t :=
  mk (tracking_id f) b (confidence f) (frames_since_detection f) (is_lost f).
Definition with_confidence (f : t) (c : Q) : t :=
  mk (tracking_id f) (bbox f) c (frames_since_detection f) (is_lost f).
Definition with_frames_since_detection (f : t) (n : Z) : t :=
  mk (tracking_id f) (bbox f) (confidence f) n (is_lost f).
Definition with_is_lost (f : t) (b : bool) : t :=
  mk (tracking_id f) (bbox f) (confidence f) (frames_since_detection f) b.

(** [center]: [//] is the floor division. *)
Definition center (f : t) : Z * Z :=
  let '(x, y, w, h) := bbox f in
  ((x + w / 2)%Z, (y + h / 2)%Z).

(** [to_normalized]: [/] on two ints is the true division, which raises
    on a zero divisor. *)
Definition to_normalized (f : t) (frame_width frame_height : Z)
    : Py.result (Q * Q * Q * Q) :=
  let '(x, y, w, h) := bbox f in
  nx <- Py.div (inject_Z x) (inject_Z frame_width) ;;
  ny <- Py.div (inject_Z y) (inject_Z frame_height) ;;
  nw <- Py.div (inject_Z w) (inject_Z frame_width) ;;
  nh <- Py.div (inject_Z h) (inject_Z frame_height) ;;
  Ok (nx, ny, nw, nh).

End TrackedFace.

Module FaceTracker.

(** [_calculate_iou] (lines 245-270) *)
Definition _calculate_iou (bbox1 bbox2 : BBox) : Q :=
  let '(x1, y1, w1, h1) := bbox1 in
  let '(x2, y2, w2, h2) := bbox2 in
  let inter_x1 := Py.maxZ x1 x2 in
  let inter_y1 := Py.maxZ y1 y2 in
  let inter_x2 := Py.minZ (x1 + w1) (x2 + w2) in
  let inter_y2 := Py.minZ (y1 + h1) (y2 + h2) in
  if ((inter_x2 <=? inter_x1) || (inter_y2 <=? inter_y1))%Z then 0
  else
    let inter_area := ((inter_x2 - inter_x1) * (inter_y2 - inter_y1))%Z in
    let area1 := (w1 * h1)%Z in
    let area2 := (w2 * h2)%Z in
    let union_area := (area1 + area2 - inter_area)%Z in
    if (0 <? union_area)%Z
    then inject_Z inter_area / inject_Z union_area
    else 0.

(** Lines 204-211: the scan of the track table for one detection. *)
Fixpoint best_track (items : list (Z * TrackedFace.t))
    (matched_tracks : list Z) (det_bbox : BBox) (iou_threshold : Q)
    (best_iou : Q) (best_track_id : option Z) : option Z :=
  match items with
  | [] => best_track_id
  | (tracking_id, tracked) :: rest =>
      if memZ tracking_id matched_tracks then
        best_track rest matched_tracks det_bbox iou_threshold
                   best_iou best_track_id
      else
        let iou := _calculate_iou (TrackedFace.bbox tracked) det_bbox in
        if Qlt_le_dec best_iou iou then
          if Qlt_le_dec iou iou_threshold then
            best_track rest matched_tracks det_bbox iou_threshold
                       best_iou best_track_id
          else
            best_track rest matched_tracks det_bbox iou_threshold
                       iou (Some tracking_id)
        else
          best_track rest matched_tracks det_bbox iou_threshold
                     best_iou best_track_id
  end.

Section WithOpenCV.

(** The OpenCV tracker objects: [tracker_init ty frame bbox] is
    [self._create_tracker()] followed by [tracker.init(frame, bbox)];
    [tracker_update] is [tracker.update(frame)], which advances the
    tracker and answers [(success, bbox)].  They and [cv2.cvtColor] are
    taken to return: an exception of OpenCV in the tracker is outside this
    model. *)
Variable Tracker : Type.
Variable cv2_cvtColor : ndarray.t -> ndarray.t.
Variable tracker_init : TrackerType -> ndarray.t -> BBox -> Tracker.
Variable tracker_update :
  Tracker -> ndarray.t -> Tracker * (bool * (Q * Q * Q * Q)).

Record t : Type := mk {
  _tracker_type : TrackerType;
  _max_frames_lost : Z;
  _trackers : PyDict.t Tracker;
  _tracked_faces : PyDict.t TrackedFace.t;
  _next_id : Z
}.

(** [__init__] *)
Definition init (tracker_type : TrackerType)
    (max_frames_without_detection : Z) : t :=
  mk tracker_type max_frames_without_detection [] [] 0.

Definition active_tracks (s : t) : Z :=
  Z.of_nat (length (_tracked_faces s)).

Definition clear (s : t) : t :=
  mk (_tracker_type s) (_max_frames_lost s) [] [] (_next_id s).

(** Lines 113-125 and 230-241: a new track for [bbox]. *)
Definition add_track (frame_bgr : ndarray.t) (s : t) (bbox : BBox) : t :=
  let tracking_id := _next_id s in
  let tracker := tracker_init (_tracker_type s) frame_bgr bbox in
  mk (_tracker_type s) (_max_frames_lost s)
     (PyDict.set tracking_id tracker (_trackers s))
     (PyDict.set tracking_id (TrackedFace.new tracking_id bbox 1)
                 (_tracked_faces s))
     (_next_id s + 1)%Z.

Definition init_tracks (s : t) (frame : ndarray.t)
    (detections : list BBox) : list TrackedFace.t * t :=
  let s := clear s in
  let frame_bgr := cv2_cvtColor frame in
  let s := fold_left (add_track frame_bgr) detections s in
  (PyDict.values (_tracked_faces s), s).

(** Lines 146-159: the marking of one track. *)
Definition mark (max_frames_lost : Z) (tracking_id : Z)
    (success : bool) (bbox : Q * Q * Q * Q)
    (tracked : TrackedFace.t) (lost_ids : list Z)
    : TrackedFace.t * list Z :=
  let n := (TrackedFace.frames_since_detection tracked + 1)%Z in
  let tracked := TrackedFace.with_frames_since_detection tracked n in
  let '(tracked, lost_ids) :=
    if success then
      let '(bx, by_, bw, bh) := bbox in
      let tracked :=
        TrackedFace.with_bbox tracked
          (Py.int bx, Py.int by_, Py.int bw, Py.int bh) in
      (TrackedFace.with_confidence tracked
         (Py.max (1 # 2) (1 - inject_Z n * (2 # 100))),
       lost_ids)
    else
      (TrackedFace.with_is_lost tracked true, lost_ids ++ [tracking_id]) in
  if (max_frames_lost <? n)%Z then
    (TrackedFace.with_is_lost tracked true, lost_ids ++ [tracking_id])
  else (tracked, lost_ids).

(** Lines 143-159: the loop over [self._trackers.items()]. *)
Fixpoint update_loop (frame_bgr : ndarray.t) (max_frames_lost : Z)
    (items : list (Z * Tracker))
    (trackers : PyDict.t Tracker) (faces : PyDict.t TrackedFace.t)
    (lost_ids : list Z)
    : Py.result (PyDict.t Tracker * PyDict.t TrackedFace.t * list Z) :=
  match items with
  | [] => Ok (trackers, faces, lost_ids)
  | (tracking_id, tracker) :: rest =>
      let '(tracker, (success, bbox)) := tracker_update tracker frame_bgr in
      let trackers := PyDict.set tracking_id tracker trackers in
      match PyDict.get tracking_id faces with
      | None => Raise KeyError
      | Some tracked =>
          let '(tracked, lost_ids) :=
            mark max_frames_lost tracking_id success bbox tracked lost_ids in
          update_loop frame_bgr max_frames_lost rest trackers
            (PyDict.set tracking_id tracked faces) lost_ids
      end
  end.

(** Lines 162-164; popping is idempotent, so the order in which the
    set [set(lost_ids)] is walked does not matter. *)
Definition sweep {V : Type} (lost_ids : list Z) (d : PyDict.t V)
    : PyDict.t V :=
  fold_left (fun d tid => PyDict.pop tid d) lost_ids d.

Definition update (s : t) (frame : ndarray.t)
    : Py.result (list TrackedFace.t * t) :=
  let frame_bgr := cv2_cvtColor frame in
  r <- update_loop frame_bgr (_max_frames_lost s) (_trackers s)
         (_trackers s) (_tracked_faces s) [] ;;
  let '(trackers, faces, lost_ids) := r in
  let s := mk (_tracker_type s) (_max_frames_lost s)
              (sweep lost_ids trackers) (sweep lost_ids faces)
              (_next_id s) in
  Ok (PyDict.values (_tracked_faces s), s).

(** Lines 213-225: the detection [det_bbox] is given to the track
    [best_track_id]. *)
Definition rebind (frame_bgr : ndarray.t) (s : t) (best_track_id : Z)
    (det_bbox : BBox) : t :=
  let tracker := tracker_init (_tracker_type s) frame_bgr det_bbox in
  mk (_tracker_type s) (_max_frames_lost s)
     (PyDict.set best_track_id tracker (_trackers s))
     (PyDict.modify best_track_id
        (fun tracked =>
           TrackedFace.with_frames_since_detection
             (TrackedFace.with_confidence
                (TrackedFace.with_bbox tracked det_bbox) 1) 0)
        (_tracked_faces s))
     (_next_id s).

(** Lines 200-225, from the detection of index [i] on. *)
Fixpoint match_loop (frame_bgr : ndarray.t) (iou_threshold : Q)
    (i : nat) (detections : list BBox) (s : t)
    (matched_tracks : list Z) (matched_detections : list nat)
    : t * list Z * list nat :=
  match detections with
  | [] => (s, matched_tracks, matched_detections)
  | det_bbox :: rest =>
      match best_track (_tracked_faces s) matched_tracks det_bbox
                       iou_threshold 0 None with
      | Some best_track_id =>
          match_loop frame_bgr iou_threshold (S i) rest
            (rebind frame_bgr s best_track_id det_bbox)
            (matched_tracks ++ [best_track_id])
            (matched_detections ++ [i])
      | None =>
          match_loop frame_bgr iou_threshold (S i) rest s
            matched_tracks matched_detections
      end
  end.

(** Lines 228-241, from the detection of index [i] on. *)
Fixpoint spawn_loop (frame_bgr : ndarray.t) (i : nat)
    (detections : list BBox) (matched_detections : list nat) (s : t) : t :=
  match detections with
  | [] => s
  | det_bbox :: rest =>
      spawn_loop frame_bgr (S i) rest matched_detections
        (if memN i matched_detections then s
         else add_track frame_bgr s det_bbox)
  end.

Definition refresh_tracks (s : t) (frame : ndarray.t)
    (detections : list BBox) (iou_threshold : Q)
    : list TrackedFace.t * t :=
  match detections with
  | [] => (PyDict.values (_tracked_faces s), s)
  | _ :: _ =>
      match _tracked_faces s with
      | [] => init_tracks s frame detections
      | _ :: _ =>
          let frame_bgr := cv2_cvtColor frame in
          let '(s, _, matched_detections) :=
            match_loop frame_bgr iou_threshold 0 detections s [] [] in
          let s := spawn_loop frame_bgr 0 detections matched_detections s in
          (PyDict.values (_tracked_faces s), s)
      end
  end.

(** The calls a client can make. *)
Inductive call : Type :=
| CallInitTracks (frame : ndarray.t) (detections : list BBox)
| CallUpdate (frame : ndarray.t)
| CallRefreshTracks (frame : ndarray.t) (detections : list BBox)
                    (iou_threshold : Q)
| CallClear.

(** What a call reports ([clear] reports nothing) and the tracker after
    it. *)
Definition step (s : t) (c : call)
    : Py.result (option (list TrackedFace.t) * t) :=
  match c with
  | CallInitTracks frame detections =>
      let '(reported, s) := init_tracks s frame detections in
      Ok (Some reported, s)
  | CallUpdate frame =>
      r <- update s frame ;;
      Ok (Some (fst r), snd r)
  | CallRefreshTracks frame detections thr =>
      let '(reported, s) := refresh_tracks s frame detections thr in
      Ok (Some reported, s)
  | CallClear => Ok (None, clear s)
  end.

(** A run of calls: what each reported, and the tracker at the end. *)
Fixpoint run (s : t) (calls : list call)
    : Py.result (list (option (list TrackedFace.t)) * t) :=
  match calls with
  | [] => Ok ([], s)
  | c :: rest =>
      r <- step s c ;;
      r' <- run (snd r) rest ;;
      Ok (fst r :: fst r', snd r')
  end.

(** The shape of the track tables that every call keeps: both tables have
    the same identities, in ascending order, all below [_next_id], and each
    track is stored under its own identity. *)
Definition wf (s : t) : Prop :=
  PyDict.keys (_trackers s) = PyDict.keys (_tracked_faces s) /\
  StronglySorted Z.lt (PyDict.keys (_tracked_faces s)) /\
  Forall (fun k => (k < _next_id s)%Z) (PyDict.keys (_tracked_faces s)) /\
  Forall (fun kv => TrackedFace.tracking_id (snd kv) = fst kv)
         (_tracked_faces s).

(** What holds of every track the tracker keeps: it is not lost, its
    confidence is between 0.5 and 1, and its counter is 0 or between 0 and
    [_max_frames_lost]. *)
Definition healthy (limit : Z) (f : TrackedFace.t) : Prop :=
  TrackedFace.is_lost f = false /\
  (1 # 2) <= TrackedFace.confidence f /\ TrackedFace.confidence f <= 1 /\
  (0 <= TrackedFace.frames_since_detection f)%Z /\
  (TrackedFace.frames_since_detection f = 0%Z \/
   (TrackedFace.frames_since_detection f <= limit)%Z).

(** [s'] is a later state of the tracker [s]: it is well formed, its
    counter has not gone back, and each of its identities is one of [s] or
    was issued since. *)
Definition later (s s' : t) : Prop :=
  wf s' /\
  (_next_id s <= _next_id s')%Z /\
  forall k, In k (PyDict.keys (_tracked_faces s')) ->
            In k (PyDict.keys (_tracked_faces s)) \/ (_next_id s <= k)%Z.

(** The pairs (track, detection index) that lines 200-225 match. *)
Definition matched_pairs (s : t) (frame : ndarray.t)
    (detections : list BBox) (iou_threshold : Q) : list (Z * nat) :=
  let '(_, matched_tracks, matched_detections) :=
    match_loop (cv2_cvtColor frame) iou_threshold 0 detections s [] [] in
  combine matched_tracks matched_detections.

End WithOpenCV.

End FaceTracker.

(** ** The frame-rate counter ([utils/performance.py], lines 31-89) *)

Module FPSCounter.

Record t : Type := mk {
  _window_size : Z;
  _frame_times : list Q;
  _last_time : option Q
}.

(** [deque(maxlen=n)]: a negative [maxlen] is a [ValueError]. *)
Definition init (window_size : Z) : Py.result t :=
  if (window_size <? 0)%Z then Raise ValueError
  else Ok (mk window_size [] None).

(** [d.append(x)] on a [deque] of bound [maxlen]: a full deque drops its
    oldest item, and a deque of bound 0 stays empty. *)
Definition deque_append (maxlen : Z) (d : list Q) (x : Q) : list Q :=
  if (maxlen =? 0)%Z then d
  else if (Z.of_nat (length d) <? maxlen)%Z then d ++ [x]
  else tl d ++ [x].

(** [sum(d)]: from 0, left to right. *)
Definition sum (d : list Q) : Q := fold_left Qplus d 0.

Definition fps (c : t) : Q :=
  match _frame_times c with
  | [] => 0
  | _ :: _ =>
      let avg_frame_time :=
        sum (_frame_times c) / inject_Z (Z.of_nat (length (_frame_times c))) in
      if Qlt_le_dec 0 avg_frame_time then 1 / avg_frame_time else 0
  end.

Definition frame_time_ms (c : t) : Q :=
  match _frame_times c with
  | [] => 0
  | _ :: _ =>
      (sum (_frame_times c) / inject_Z (Z.of_nat (length (_frame_times c))))
      * 1000
  end.

(** [tick], with the reading [current_time] of [time.perf_counter()]. *)
Definition tick (c : t) (current_time : Q) : Q * t :=
  let frame_times :=
    match _last_time c with
    | Some last => deque_append (_window_size c) (_frame_times c)
                     (current_time - last)
    | None => _frame_times c
    end in
  let c := mk (_window_size c) frame_times (Some current_time) in
  (fps c, c).

Definition reset (c : t) : t := mk (_window_size c) [] None.

(** The counter after the ticks at the given clock readings. *)
Definition ticks (c : t) (readings : list Q) : t :=
  fold_left (fun c now => snd (tick c now)) readings c.

End FPSCounter.

(** ** The stand-alone scripts ([lite.py], [ultralight.py]) *)

Module Lite.

(** [ease] ([lite.py], lines 70-72) *)
Definition ease (current target speed : Q) : Q :=
  let diff := target - current in
  current + diff * speed * (2 - Py.abs diff).

(** [apply_crop] of [ultralight.py] (lines 75-83): the array it hands to
    [cv2.resize], for the crop [(cx, cy, cw, ch)] held in the globals. *)
Definition resize_source (crop : Q * Q * Q * Q) (frame : ndarray.t)
    : ndarray.t :=
  let '(cx, cy, cw, ch) := crop in
  let '(h, w) := ndarray.shape frame in
  let x1 := Py.int (cx * inject_Z w) in
  let y1 := Py.int (cy * inject_Z h) in
  let x2 := Py.int ((cx + cw) * inject_Z w) in
  let y2 := Py.int ((cy + ch) * inject_Z h) in
  let x1 := Py.maxZ 0 x1 in
  let y1 := Py.maxZ 0 y1 in
  let x2 := Py.minZ w x2 in
  let y2 := Py.minZ h y2 in
  if ((x1 <? x2) && (y1 <? y2))%Z then ndarray.slice frame y1 y2 x1 x2
  else frame.

End Lite.

(** ** The same code in binary64

    The functions of [center_stage.py], [detector.py], [lite.py],
    [ultralight.py] and [performance.py] that compute with floats, on the
    binary64 numbers of [F64]: what the program returns at a given input,
    rounding, NaN and the infinities included. *)

Module Binary64.

Local Open Scope float_scope.

Module CropRegion.

Record t : Type := mk {
  x : float;
  y : float;
  width : float;
  height : float
}.

Definition center (r : t) : float * float :=
  (x r + width r / 2, y r + height r / 2).

Definition to_pixels (r : t) (frame_width frame_height : Z)
    : Py.result (Z * Z * Z * Z) :=
  (px <- F64.int (x r * F64.of_Z frame_width) ;;
   py <- F64.int (y r * F64.of_Z frame_height) ;;
   pw <- F64.int (width r * F64.of_Z frame_width) ;;
   ph <- F64.int (height r * F64.of_Z frame_height) ;;
   Py.Ok (px, py, pw, ph))%py.

Definition full_frame : t := mk 0 0 1 1.

Definition clamp (r : t) : t :=
  let x' := F64.max 0 (F64.min (x r) (1 - width r)) in
  let y' := F64.max 0 (F64.min (y r) (1 - height r)) in
  let width' := F64.min (width r) (1 - x') in
  let height' := F64.min (height r) (1 - y') in
  mk x' y' width' height'.

Definition lerp (r target : t) (factor : float) : t :=
  mk (x r + (x target - x r) * factor)
     (y r + (y target - y r) * factor)
     (width r + (width target - width r) * factor)
     (height r + (height target - height r) * factor).

End CropRegion.

Module FaceDetection.

Record t : Type := mk {
  x : float;
  y : float;
  width : float;
  height : float;
  confidence : float;
  tracking_id : option Z
}.

Definition area (f : t) : float := width f * height f.

End FaceDetection.

Module DetectionResult.

Record t : Type := mk {
  faces : list FaceDetection.t;
  processing_time_ms : float
}.

Definition primary_face (r : t) : option FaceDetection.t :=
  match faces r with
  | [] => None
  | f :: rest =>
      Some (fold_left
              (fun best g =>
                 if FaceDetection.area best <? FaceDetection.area g
                 then g else best)
              rest f)
  end.

Definition get_bounding_box (r : t)
    : option (float * float * float * float) :=
  match faces r with
  | [] => None
  | f :: rest =>
      let min_x :=
        fold_left F64.min (map FaceDetection.x rest) (FaceDetection.x f) in
      let min_y :=
        fold_left F64.min (map FaceDetection.y rest) (FaceDetection.y f) in
      let max_x :=
        fold_left F64.max
          (map (fun g => FaceDetection.x g + FaceDetection.width g) rest)
          (FaceDetection.x f + FaceDetection.width f) in
      let max_y :=
        fold_left F64.max
          (map (fun g => FaceDetection.y g + FaceDetection.height g) rest)
          (FaceDetection.y f + FaceDetection.height f) in
      Some (min_x, min_y, max_x - min_x, max_y - min_y)
  end.

End DetectionResult.

Module CenterStageConfig.

Record t : Type := mk {
  smoothing : float;
  dead_zone : float;
  min_zoom : float;
  max_zoom : float;
  face_padding : float;
  aspect_ratio : float;
  framing_mode : FramingMode;
  frames_until_reset : Z;
  enabled : bool
}.

(** The defaults of lines 96-118; [16 / 9] is the quotient of two ints. *)
Definition default : t :=
  mk 0.08 0.015 1 2.5 0.35 (16 / 9) ALL 60 true.

End CenterStageConfig.

Module CenterStageEngine.

Import CenterStageConfig.

(** Lines 224-232 *)
Definition _faces_to_frame (cfg : CenterStageConfig.t)
    (result : DetectionResult.t) : option (list FaceDetection.t) :=
  if FramingMode_eqb (framing_mode cfg) SINGLE then
    match DetectionResult.primary_face result with
    | None => None
    | Some primary => Some [primary]
    end
  else Some (DetectionResult.faces result).

(** Lines 234-293: the crop before the final [clamp]. *)
Definition _target_before_clamp (cfg : CenterStageConfig.t)
    (faces : list FaceDetection.t) : Py.result CropRegion.t :=
  (min_x <- F64.min_of (map FaceDetection.x faces) ;;
   min_y <- F64.min_of (map FaceDetection.y faces) ;;
   max_x <- F64.max_of
              (map (fun f => FaceDetection.x f + FaceDetection.width f)
                   faces) ;;
   max_y <- F64.max_of
              (map (fun f => FaceDetection.y f + FaceDetection.height f)
                   faces) ;;
   let face_width := max_x - min_x in
   let face_height := max_y - min_y in
   let padding_x := face_width * face_padding cfg in
   let padding_y := face_height * face_padding cfg in
   let min_x := F64.max 0 (min_x - padding_x) in
   let min_y := F64.max 0 (min_y - padding_y) in
   let max_x := F64.min 1 (max_x + padding_x) in
   let max_y := F64.min 1 (max_y + padding_y) in
   let region_width := max_x - min_x in
   let region_height := max_y - min_y in
   let target_ratio := aspect_ratio cfg in
   current_ratio <-
     (if 0 <? region_height
      then F64.div region_width region_height
      else Py.Ok target_ratio) ;;
   adjusted <-
     (if target_ratio <? current_ratio then
        new_height <- F64.div region_width target_ratio ;;
        let height_increase := new_height - region_height in
        Py.Ok (min_x, F64.max 0 (min_y - height_increase / 2),
               region_width, new_height)
      else
        let new_width := region_height * target_ratio in
        let width_increase := new_width - region_width in
        Py.Ok (F64.max 0 (min_x - width_increase / 2), min_y,
               new_width, region_height)) ;;
   let '(min_x, min_y, region_width, region_height) := adjusted in
   max_size <- F64.div 1 (min_zoom cfg) ;;
   min_size <- F64.div 1 (max_zoom cfg) ;;
   let region_width := F64.max min_size (F64.min max_size region_width) in
   region_height <- F64.div region_width target_ratio ;;
   let face_center_x := (min_x + max_x) / 2 in
   let face_center_y := (min_y + max_y) / 2 in
   let crop_x := face_center_x - region_width / 2 in
   let crop_y := face_center_y - region_height / 2 in
   Py.Ok (CropRegion.mk crop_x crop_y region_width region_height))%py.

Definition _calculate_target_crop (cfg : CenterStageConfig.t)
    (result : DetectionResult.t) : Py.result CropRegion.t :=
  match _faces_to_frame cfg result with
  | None => Py.Ok CropRegion.full_frame
  | Some faces =>
      (crop <- _target_before_clamp cfg faces ;;
       Py.Ok (CropRegion.clamp crop))%py
  end.

(** Lines 313-325 *)
Definition _smooth_transition (cfg : CenterStageConfig.t)
    (current target : CropRegion.t) : CropRegion.t :=
  let dx :=
    F64.abs (fst (CropRegion.center target)
             - fst (CropRegion.center current)) in
  let dy :=
    F64.abs (snd (CropRegion.center target)
             - snd (CropRegion.center current)) in
  let dw := F64.abs (CropRegion.width target - CropRegion.width current) in
  let total_delta := dx + dy + dw in
  if total_delta <? dead_zone cfg then current
  else CropRegion.clamp (CropRegion.lerp current target (smoothing cfg)).

End CenterStageEngine.

Module Lite.

(** [ease] ([lite.py], lines 70-72) *)
Definition ease (current target speed : float) : float :=
  let diff := target - current in
  current + diff * speed * (2 - F64.abs diff).

(** [apply_crop] of [ultralight.py], lines 76-80: the corners
    [(x1, y1, x2, y2)] for the crop [(cx, cy, cw, ch)] of the globals and a
    frame of [h] rows and [w] columns. *)
Definition corners (crop : float * float * float * float) (h w : Z)
    : Py.result (Z * Z * Z * Z) :=
  let '(cx, cy, cw, ch) := crop in
  (x1 <- F64.int (cx * F64.of_Z w) ;;
   y1 <- F64.int (cy * F64.of_Z h) ;;
   x2 <- F64.int ((cx + cw) * F64.of_Z w) ;;
   y2 <- F64.int ((cy + ch) * F64.of_Z h) ;;
   Py.Ok (Py.maxZ 0 x1, Py.maxZ 0 y1, Py.minZ w x2, Py.minZ h y2))%py.

End Lite.

Module FPSCounter.

(** The intervals that the ticks at the given clock readings append, for a
    window that holds them all. *)
Fixpoint intervals (last : float) (readings : list float) : list float :=
  match readings with
  | [] => []
  | now :: rest => (now - last) :: intervals now rest
  end.

(** [sum(d)]: from the int 0, left to right. *)
Definition sum (d : list float) : float := fold_left PrimFloat.add d 0.

(** The property [fps] ([performance.py], lines 69-76) *)
Definition fps (frame_times : list float) : float :=
  match frame_times with
  | [] => 0
  | _ :: _ =>
      let avg_frame_time :=
        sum frame_times / F64.of_Z (Z.of_nat (length frame_times)) in
      if 0 <? avg_frame_time then 1 / avg_frame_time else 0
  end.

End FPSCounter.

End Binary64.

(** ** The association of section 4.2, as the specification words it

    "Greedily assign the highest-IoU pair first (ties broken by lower track
    identity), remove both from the candidate pools, repeat while the best
    remaining IoU is at least the threshold."  This definition follows
    those words, not [tracker.py]; it is what [refresh_tracks] is compared
    with. *)

Module AssociationSpec.

(** Every remaining (track, detection) pair with its IoU. *)
Definition candidates (tracks : list (Z * BBox)) (dets : list (nat * BBox))
    : list (Z * nat * Q) :=
  flat_map
    (fun t =>
       map (fun d => (fst t, fst d, FaceTracker._calculate_iou (snd t) (snd d)))
           dets)
    tracks.

(** [p] goes before [q]: a higher IoU, or the same IoU and a lower track
    identity. *)
Definition before (p q : Z * nat * Q) : bool :=
  let '(tp, _, ip) := p in
  let '(tq, _, iq) := q in
  if Qlt_le_dec iq ip then true
  else if Qlt_le_dec ip iq then false
  else (tp <? tq)%Z.

Definition best (cands : list (Z * nat * Q)) : option (Z * nat * Q) :=
  match cands with
  | [] => None
  | c :: cs => Some (fold_left (fun b q => if before q b then q else b) cs c)
  end.

Fixpoint assign (rounds : nat) (tracks : list (Z * BBox))
    (dets : list (nat * BBox)) (iou_threshold : Q) : list (Z * nat) :=
  match rounds with
  | O => []
  | S rounds =>
      match best (candidates tracks dets) with
      | None => []
      | Some (t, i, iou) =>
          if Qlt_le_dec iou iou_threshold then []
          else
            (t, i)
            :: assign rounds
                 (filter (fun x => negb (fst x =? t)%Z) tracks)
                 (filter (fun x => negb (Nat.eqb (fst x) i)) dets)
                 iou_threshold
      end
  end.

Definition greedy (tracks : list (Z * BBox)) (detections : list BBox)
    (iou_threshold : Q) : list (Z * nat) :=
  assign (length detections) tracks
    (combine (seq 0 (length detections)) detections) iou_threshold.

End AssociationSpec.

(** ** Concrete inputs *)

Module Examples.

Import CenterStageEngine.



Definition no_faces : DetectionResult.t := DetectionResult.mk [] 5.

(** The face of [test_face_starts_tracking]. *)
Definition one_face : DetectionResult.t :=
  DetectionResult.mk
    [FaceDetection.mk (4 # 10) (3 # 10) (2 # 10) (3 # 10) (9 # 10) None] 5.

Definition quarter : CropRegion.t :=
  CropRegion.mk (1 # 4) (1 # 4) (1 # 2) (1 # 2).

(** An engine with the default configuration that is tracking, holds
    [quarter] as current and target crop and has seen [n] cycles without a
    face. *)
Definition tracking (n : Z) : CenterStageEngine.t :=
  CenterStageEngine.mk CenterStageConfig.default
    (CenterStageState.mk quarter quarter n true).

Definition disabled : CenterStageEngine.t :=
  CenterStageEngine.mk
    (CenterStageConfig.with_enabled CenterStageConfig.default false)
    (CenterStageState.mk quarter quarter 7 true).

(** A black 640x480 frame, as [np.zeros((480, 640, 3))]. *)
Definition black_frame : ndarray.t := ndarray.mk 480 640 (fun _ _ => 0%Z).

(** A crop a thousandth of the frame wide and high: less than a pixel. *)
Definition sliver : CropRegion.t :=
  CropRegion.mk (1 # 2) (1 # 2) (1 # 1000) (1 # 1000).

(** OpenCV's [cv2.resize], outside the repository: it raises on an empty
    source array and on an empty target size; otherwise the result has the
    target size ([dsize] is [(width, height)]).  Nearest-neighbour sampling
    stands for the interpolation. *)
Definition cv2_resize (src : ndarray.t) (dsize : Z * Z)
    : Py.result ndarray.t :=
  let '(w, h) := dsize in
  if (ndarray.is_empty src || (w <=? 0) || (h <=? 0))%Z then Raise Cv2Error
  else
    Ok (ndarray.mk h w
          (fun i j =>
             ndarray.at_ src (i * ndarray.rows src / h)%Z
                             (j * ndarray.cols src / w)%Z)).

Definition cv2_cvtColor (src : ndarray.t) : Py.result ndarray.t := Ok src.

(** A cascade that finds three faces, and one that fails at run time. *)
Definition three_rects : list (Z * Z * Z * Z) :=
  [(32, 24, 64, 48); (160, 120, 32, 24); (0, 0, 20, 20)]%Z.

Definition cascade_three (gray : ndarray.t)
    : Py.result (list (Z * Z * Z * Z)) := Ok three_rects.

Definition cascade_failing (gray : ndarray.t)
    : Py.result (list (Z * Z * Z * Z)) := Raise Cv2Error.

Definition clock : Q * Q := (10, 10 + (5 # 1000)).

(** A detector on its second frame that holds a cached result, and one
    that keeps at most two faces. *)
Definition cached_detector : FaceDetector.t :=
  FaceDetector.mk (1 # 2) 5 (Some one_face) 1 3.

Definition two_face_detector : FaceDetector.t :=
  FaceDetector.mk (1 # 2) 2 None 0 3.

(** Stand-ins for the OpenCV trackers: one that always follows its
    target to the same box, one that always loses it. *)
Definition bgr (frame : ndarray.t) : ndarray.t := frame.

Definition tracker_init (ty : TrackerType) (frame : ndarray.t) (b : BBox)
    : unit := tt.

Definition tracker_follows (tr : unit) (frame : ndarray.t)
    : unit * (bool * (Q * Q * Q * Q)) := (tr, (true, (0, 0, 10, 10))).

(** A fresh tracker given one face, and two detections that both overlap
    that face: the first by half, the second wholly. *)
Definition one_track : FaceTracker.t unit :=
  snd (FaceTracker.init_tracks unit bgr tracker_init
         (FaceTracker.init unit KCF 30) black_frame [(0, 0, 10, 10)%Z]).

Definition half_then_whole : list BBox :=
  [(0, 0, 10, 5); (0, 0, 10, 10)]%Z.

(** A fresh tracker with a lost-timeout of 2 frames, given two faces. *)
Definition short_lived : FaceTracker.t unit :=
  snd (FaceTracker.init_tracks unit bgr tracker_init
         (FaceTracker.init unit KCF 2) black_frame
         [(0, 0, 10, 10); (100, 100, 10, 10)]%Z).

(** The short-lived tracker after two updates, and calls that follow. *)
Definition two_updates : list FaceTracker.call :=
  [FaceTracker.CallInitTracks black_frame
     [(0, 0, 10, 10); (100, 100, 10, 10)]%Z;
   FaceTracker.CallUpdate black_frame;
   FaceTracker.CallUpdate black_frame].

Definition aged_run
    : Py.result (list (option (list TrackedFace.t)) * FaceTracker.t unit) :=
  FaceTracker.run unit bgr tracker_init tracker_follows
    (FaceTracker.init unit KCF 2) two_updates.

Definition aged : FaceTracker.t unit :=
  match aged_run with
  | Ok (_, s) => s
  | Raise _ => FaceTracker.init unit KCF 2
  end.

Definition aged_reports : list (option (list TrackedFace.t)) :=
  match aged_run with
  | Ok (reports, _) => reports
  | Raise _ => []
  end.

Definition come_back : list FaceTracker.call :=
  [FaceTracker.CallRefreshTracks black_frame [(0, 0, 10, 10)%Z] (3 # 10);
   FaceTracker.CallUpdate black_frame;
   FaceTracker.CallClear;
   FaceTracker.CallInitTracks black_frame [(0, 0, 10, 10)%Z]].

(** A region in the middle of the frame and one toward its corner. *)
Definition centre_half : CropRegion.t :=
  CropRegion.mk (1 # 4) (1 # 4) (1 # 2) (1 # 2).

Definition corner_third : CropRegion.t :=
  CropRegion.mk (1 # 2) (1 # 2) (1 # 3) (1 # 3).

(** The engine of the test fixture: smoothing 0.5, dead zone 0.01, zoom
    between 1 and 2. *)
Definition fixture_config : CenterStageConfig.t :=
  CenterStageConfig.mk (1 # 2) (1 # 100) 1 2 (35 # 100) (16 # 9) ALL 60 true.

Definition zero_zoom_config : CenterStageConfig.t :=
  CenterStageConfig.mk (1 # 2) (1 # 100) 1 0 (35 # 100) (16 # 9) ALL 60 true.

(** A crop of the right half of the frame that starts right of centre, so
    that it overhangs the right edge. *)
Definition overhang : CropRegion.t :=
  CropRegion.mk (3 # 4) (1 # 4) (1 # 2) (1 # 2).

(** The two faces of [test_primary_face_is_largest], and a frame without
    columns. *)
Definition small_and_large : DetectionResult.t :=
  DetectionResult.mk
    [FaceDetection.mk (1 # 10) (1 # 10) (1 # 10) (1 # 10) (9 # 10) None;
     FaceDetection.mk (4 # 10) (4 # 10) (3 # 10) (4 # 10) (9 # 10) None] 5.

Definition no_columns : ndarray.t := ndarray.mk 480 0 (fun _ _ => 0%Z).



(** Regions in binary64: one that ends at the right edge, one that hangs
    over it with a negative width, one whose width is not a number. *)
Definition ends_at_edge : Binary64.CropRegion.t :=
  Binary64.CropRegion.mk 0.9 0 0.1 0.5.

Definition negative_overhang : Binary64.CropRegion.t :=
  Binary64.CropRegion.mk 1.01 0 (-0.01) 0.5.

Definition width_not_a_number : Binary64.CropRegion.t :=
  Binary64.CropRegion.mk 0 0 PrimFloat.nan 0.5.

(** A current crop and a target that is 0.01 wider, so that centre and
    width move by 0.015 in all: the default dead zone. *)
Definition narrow : Binary64.CropRegion.t :=
  Binary64.CropRegion.mk 0 0.1 0.4 0.3.

Definition slightly_wider : Binary64.CropRegion.t :=
  Binary64.CropRegion.mk 0 0.1 0.41 0.3.

Definition narrow_exact : CropRegion.t :=
  CropRegion.mk 0 (1 # 10) (4 # 10) (3 # 10).

Definition slightly_wider_exact : CropRegion.t :=
  CropRegion.mk 0 (1 # 10) (41 # 100) (3 # 10).

(** Two faces side by side. *)
Definition side_by_side : Binary64.DetectionResult.t :=
  Binary64.DetectionResult.mk
    [Binary64.FaceDetection.mk 0.05 0 0.05 0.1 0.9 None;
     Binary64.FaceDetection.mk 0.06 0 0.15 0.1 0.9 None] 5.

(** A frame of 468 rows and 624 columns. *)
Definition frame_624x468 : ndarray.t := ndarray.mk 468 624 (fun _ _ => 0%Z).

(** A stand-in for an OpenCV tracker that remembers its box, moves it one
    pixel and a half to the right on every frame, and loses it once the box
    starts at column 50 or beyond. *)
Definition drifting_init (ty : TrackerType) (frame : ndarray.t) (b : BBox)
    : BBox := b.

Definition drifting_update (tr : BBox) (frame : ndarray.t)
    : BBox * (bool * (Q * Q * Q * Q)) :=
  let '(x, y, w, h) := tr in
  ((x + 1, y, w, h)%Z,
   ((x <? 50)%Z,
    (inject_Z x + (3 # 2), inject_Z y, inject_Z w, inject_Z h))).

(** Two faces, one near the left edge and one at column 60, on a tracker
    that keeps a track for 30 frames. *)
Definition near_and_far : FaceTracker.t BBox :=
  snd (FaceTracker.init_tracks BBox bgr drifting_init
         (FaceTracker.init BBox KCF 30) black_frame
         [(0, 0, 10, 10); (60, 0, 10, 10)]%Z).

End Examples.

(** * Theorems *)

(** ** Facts about the primitives *)

Lemma pymax_cases (a b : Q) :
  (a < b /\ Py.max a b = b) \/ (b <= a /\ Py.max a b = a).
Proof. unfold Py.max. destruct (Qlt_le_dec a b); auto. Qed.

Lemma pymin_cases (a b : Q) :
  (b < a /\ Py.min a b = b) \/ (a <= b /\ Py.min a b = a).
Proof. unfold Py.min. destruct (Qlt_le_dec b a); auto. Qed.

Ltac py_minmax :=
  repeat match goal with
  | |- context [Py.max ?a ?b] =>
      let H := fresh "Hmax" in
      destruct (pymax_cases a b) as [[? H] | [? H]]; rewrite H in *
  | |- context [Py.min ?a ?b] =>
      let H := fresh "Hmin" in
      destruct (pymin_cases a b) as [[? H] | [? H]]; rewrite H in *
  end.

Lemma clamp_within_unit (r : CropRegion.t) :
  CropRegion.within_unit (CropRegion.clamp r).
Proof.
  unfold CropRegion.within_unit, CropRegion.clamp; cbn [CropRegion.x
    CropRegion.y CropRegion.width CropRegion.height].
  repeat split; py_minmax; lra.
Qed.



(** A region no wider than the frame keeps its width through [clamp]; a
    wider one is cut to the frame. *)
Lemma clamp_width_le1 (r : CropRegion.t) :
  CropRegion.width r <= 1 ->
  CropRegion.width (CropRegion.clamp r) = CropRegion.width r.
Proof.
  unfold CropRegion.clamp; cbn [CropRegion.width]. intros H.
  py_minmax; try reflexivity; lra.
Qed.






(** ** The target crop *)

Lemma div_ok (a b : Q) : ~ b == 0 -> Py.div a b = Ok (a / b).
Proof.
  intros H. unfold Py.div. destruct (Qeq_bool b 0) eqn:E; [|reflexivity].
  apply Qeq_bool_iff in E. contradiction.
Qed.

Lemma min_of_cons (a : Q) (l : list Q) : exists m, Py.min_of (a :: l) = Ok m.
Proof. eexists; reflexivity. Qed.

Lemma max_of_cons (a : Q) (l : list Q) : exists m, Py.max_of (a :: l) = Ok m.
Proof. eexists; reflexivity. Qed.

Lemma Qinv_le_1 (z : Q) : 1 <= z -> 0 < / z /\ / z <= 1.
Proof.
  intros H. assert (Hz : 0 < z) by lra.
  pose proof (Qinv_lt_0_compat z Hz) as Hi.
  split; [exact Hi|].
  assert (E : z * / z == 1) by (apply Qmult_inv_r; lra).
  assert (0 <= (z - 1) * / z) by (apply Qmult_le_0_compat; lra).
  nra.
Qed.

Lemma Qinv_le_anti (a b : Q) : 0 < a -> a <= b -> / b <= / a.
Proof.
  intros Ha Hab. assert (Hb : 0 < b) by lra.
  pose proof (Qinv_lt_0_compat a Ha) as Hia.
  pose proof (Qinv_lt_0_compat b Hb) as Hib.
  assert (Ea : a * / a == 1) by (apply Qmult_inv_r; lra).
  assert (Eb : b * / b == 1) by (apply Qmult_inv_r; lra).
  assert (0 <= (b - a) * (/ a * / b)).
  { apply Qmult_le_0_compat; [lra|]. apply Qlt_le_weak.
    apply Qmult_lt_0_compat; assumption. }
  nra.
Qed.

(** The crop that reaches the final [clamp]: its width is within the zoom
    limits and its height is that width over the aspect ratio. *)
Lemma target_before_clamp_shape (cfg : CenterStageConfig.t)
    (faces : list FaceDetection.t) :
  faces <> [] ->
  0 < CenterStageConfig.aspect_ratio cfg ->
  0 < CenterStageConfig.min_zoom cfg ->
  CenterStageConfig.min_zoom cfg <= CenterStageConfig.max_zoom cfg ->
  exists pre,
    CenterStageEngine._target_before_clamp cfg faces = Ok pre /\
    1 / CenterStageConfig.max_zoom cfg <= CropRegion.width pre /\
    CropRegion.width pre <= 1 / CenterStageConfig.min_zoom cfg /\
    CropRegion.height pre
      = CropRegion.width pre / CenterStageConfig.aspect_ratio cfg.
Proof.
  intros Hne Hr Hlo Hhi.
  destruct faces as [|f fs]; [congruence|].
  unfold CenterStageEngine._target_before_clamp.
  cbn [map Py.min_of Py.max_of Py.bind].
  repeat (cbn [Py.bind];
    match goal with
    | |- context [Py.div ?a ?b] => rewrite (div_ok a b) by lra
    | |- context [if Qlt_le_dec ?a ?b then _ else _] =>
        destruct (Qlt_le_dec a b)
    end).
  all: cbn [Py.bind].
  all: (eexists; split; [reflexivity|]).
  all: cbn [CropRegion.width CropRegion.height].
  all: assert (Hzz : 1 / CenterStageConfig.max_zoom cfg
                     <= 1 / CenterStageConfig.min_zoom cfg)
         by (unfold Qdiv; rewrite !Qmult_1_l; apply Qinv_le_anti; assumption).
  all: repeat split; py_minmax; lra.
Qed.

Lemma faces_to_frame_nonempty (cfg : CenterStageConfig.t)
    (dr : DetectionResult.t) :
  DetectionResult.faces dr <> [] ->
  exists faces,
    CenterStageEngine._faces_to_frame cfg dr = Some faces /\ faces <> [].
Proof.
  intros Hne. unfold CenterStageEngine._faces_to_frame.
  destruct (FramingMode_eqb _ _).
  - unfold DetectionResult.primary_face.
    destruct (DetectionResult.faces dr); [congruence|].
    eexists; split; [reflexivity | discriminate].
  - eauto.
Qed.




(** ** The engine's state machine *)

Section EngineUpdate.

Import CenterStageEngine.

(** C2, as amended: with the engine enabled, an [update] with zero faces
    increments [frames_without_face]; while the incremented counter is below
    [frames_until_reset] the target crop and [is_tracking] are retained; as
    soon as the counter reaches [frames_until_reset] (the 60th consecutive
    cycle at the default of 60) the target becomes the full frame and
    [is_tracking] becomes false.  The call returns the new current crop. *)
Theorem update_without_faces (e : CenterStageEngine.t)
    (dr : DetectionResult.t)
    (Hen : CenterStageConfig.enabled (config e) = true)
    (Hno : DetectionResult.faces dr = []) :
  let n := (CenterStageState.frames_without_face (_state e) + 1)%Z in
  let limit := CenterStageConfig.frames_until_reset (config e) in
  let e' := snd (update e dr) in
  config e' = config e /\
  CenterStageState.frames_without_face (_state e') = n /\
  ((n < limit)%Z ->
     CenterStageState.target_crop (_state e')
       = CenterStageState.target_crop (_state e) /\
     is_tracking e' = is_tracking e) /\
  ((limit <= n)%Z ->
     CenterStageState.target_crop (_state e') = CropRegion.full_frame /\
     is_tracking e' = false) /\
  fst (update e dr) = Ok (current_crop e').
Proof.
  intros n limit e'. subst n limit e'.
  unfold update, DetectionResult.has_faces. rewrite Hen, Hno. cbn [negb length].
  change (0 <? Z.of_nat 0)%Z with false. cbv iota.
  destruct (Z.leb_spec (CenterStageConfig.frames_until_reset (config e))
              (CenterStageState.frames_without_face (_state e) + 1)) as [Hle|Hlt];
    cbn; repeat split; intros; try reflexivity; lia.
Qed.

Lemma update_without_faces_witness :
  let e := Examples.tracking 10 in
  let e' := snd (update e Examples.no_faces) in
  config e' = config e /\
  CenterStageState.frames_without_face (_state e') = 11%Z /\
  ((11 < 60)%Z ->
     CenterStageState.target_crop (_state e') = Examples.quarter /\
     is_tracking e' = true) /\
  ((60 <= 11)%Z ->
     CenterStageState.target_crop (_state e') = CropRegion.full_frame /\
     is_tracking e' = false) /\
  fst (update e Examples.no_faces) = Ok (current_crop e').
Proof.
  apply (update_without_faces (Examples.tracking 10) Examples.no_faces);
    reflexivity.
Defined.

(** C2, as stated, fails on the cycle that brings the counter to the
    threshold: after 59 cycles without a face at the default threshold of
    60, one more empty update leaves the counter at 60, which does not
    exceed 60, and yet the target is reset and tracking cleared. *)
Lemma update_resets_on_reaching_threshold :
  ~ (let e := Examples.tracking 59 in
     let e' := snd (update e Examples.no_faces) in
     let n := CenterStageState.frames_without_face (_state e') in
     let limit := CenterStageConfig.frames_until_reset (config e) in
     n = (CenterStageState.frames_without_face (_state e) + 1)%Z /\
     (~ (limit < n)%Z ->
        CenterStageState.target_crop (_state e')
          = CenterStageState.target_crop (_state e) /\
        is_tracking e' = is_tracking e) /\
     ((limit < n)%Z ->
        CenterStageState.target_crop (_state e') = CropRegion.full_frame /\
        is_tracking e' = false)).
Proof.
  intros (_ & Hhold & _).
  assert (Hnot : ~ (60 < 60)%Z) by lia.
  destruct (Hhold Hnot) as [_ Htr]. vm_compute in Htr. discriminate.
Qed.

(** C3: [set_enabled e false] leaves the current and the target crop at the
    full frame and [is_tracking] false whatever the engine was, an [update]
    right after it returns the full frame, and so does every [update] on a
    disabled engine. *)
Theorem disable_is_immediate (e : CenterStageEngine.t)
    (dr : DetectionResult.t) :
  (let e' := set_enabled e false in
   current_crop e' = CropRegion.full_frame /\
   CenterStageState.target_crop (_state e') = CropRegion.full_frame /\
   is_tracking e' = false /\
   fst (update e' dr) = Ok CropRegion.full_frame) /\
  (CenterStageConfig.enabled (config e) = false ->
   fst (update e dr) = Ok CropRegion.full_frame).
Proof.
  split.
  - repeat split.
  - intros Hoff. unfold update. rewrite Hoff. reflexivity.
Qed.

Lemma disable_is_immediate_witness :
  fst (update Examples.disabled Examples.one_face) = Ok CropRegion.full_frame.
Proof.
  apply (disable_is_immediate Examples.disabled Examples.one_face).
  reflexivity.
Defined.

(** C10: on a disabled engine [update] returns the full frame and the
    engine after the call is the engine before it: [current_crop],
    [target_crop], [frames_without_face] and [is_tracking] are untouched. *)
Theorem update_disabled_frame (e : CenterStageEngine.t)
    (dr : DetectionResult.t)
    (Hoff : CenterStageConfig.enabled (config e) = false) :
  update e dr = (Ok CropRegion.full_frame, e).
Proof. unfold update. rewrite Hoff. reflexivity. Qed.

Lemma update_disabled_frame_witness :
  update Examples.disabled Examples.one_face
  = (Ok CropRegion.full_frame, Examples.disabled).
Proof.
  apply (update_disabled_frame Examples.disabled Examples.one_face).
  reflexivity.
Defined.

End EngineUpdate.

(** ** The compositor *)

(** C8, at the failing input: on a 640x480 frame the sliver crop has a
    pixel width and height of zero; [apply_crop] hands the resizer the empty
    sub-array, whatever the resizer is, so that with OpenCV's resizer the
    call raises, although resizing the full frame would have succeeded. *)
Theorem apply_crop_degenerate :
  let e := CenterStageEngine.init None in
  let cropped :=
    CenterStageEngine.cropped_region e Examples.black_frame
      (Some Examples.sliver) in
  ndarray.shape cropped = (0, 0)%Z /\
  (forall resize,
     CenterStageEngine.apply_crop resize e Examples.black_frame
       (Some Examples.sliver) None
     = resize cropped (640, 480)%Z) /\
  CenterStageEngine.apply_crop Examples.cv2_resize e Examples.black_frame
    (Some Examples.sliver) None = Raise Cv2Error /\
  (exists out,
     Examples.cv2_resize Examples.black_frame (640, 480)%Z = Ok out /\
     ndarray.shape out = (480, 640)%Z).
Proof.
  repeat split.
  eexists. split; reflexivity.
Qed.

(** ** The detection cache *)

Lemma inject_Z_nonzero (z : Z) : z <> 0%Z -> ~ inject_Z z == 0.
Proof.
  intros Hz E. apply Hz. unfold Qeq in E. cbn in E. lia.
Qed.

Lemma take_firstn {A : Type} (n : Z) (l : list A) :
  (0 <= n)%Z -> Py.take n l = firstn (Z.to_nat n) l.
Proof.
  intros Hn. unfold Py.take, Py.slice_bound.
  destruct (Z.ltb_spec n 0); [lia|].
  destruct (Z.le_gt_cases n (Z.of_nat (length l))).
  - rewrite Z.min_l by assumption. reflexivity.
  - rewrite Z.min_r by lia. rewrite Nat2Z.id.
    rewrite firstn_all. symmetry. apply firstn_all2. lia.
Qed.

(** The conversion loop succeeds on a detector space of non-zero width and
    height, and its [k]-th face is the [k]-th rectangle, normalized. *)
Lemma to_faces_ok (sw sh : Z) (rects : list (Z * Z * Z * Z)) :
  sw <> 0%Z -> sh <> 0%Z ->
  forall i, exists faces,
    FaceDetector.to_faces sw sh i rects = Ok faces /\
    length faces = length rects /\
    forall k x y w h,
      nth_error rects k = Some (x, y, w, h) ->
      nth_error faces k
      = Some (FaceDetection.mk
                (inject_Z x / inject_Z sw) (inject_Z y / inject_Z sh)
                (inject_Z w / inject_Z sw) (inject_Z h / inject_Z sh)
                (9 # 10) (Some (Z.of_nat (i + k)))).
Proof.
  intros Hsw Hsh. induction rects as [|[[[x y] w] h] rest IH]; intros i.
  - exists []. repeat split. intros [|k]; discriminate.
  - destruct (IH (S i)) as (fs & Hfs & Hlen & Hnth).
    cbn [FaceDetector.to_faces FaceDetector.to_face].
    rewrite !div_ok by (apply inject_Z_nonzero; assumption).
    cbn [Py.bind]. rewrite Hfs. cbn [Py.bind].
    eexists. split; [reflexivity|]. split; [cbn; congruence|].
    intros [|k] x' y' w' h' Hk; cbn in Hk.
    + inversion Hk; subst. cbn. rewrite Nat.add_0_r. reflexivity.
    + cbn [nth_error]. rewrite (Hnth k x' y' w' h' Hk).
      rewrite Nat.add_succ_r. reflexivity.
Qed.

Lemma detect_fresh resize cvt cascade (d : FaceDetector.t)
    (frame : ndarray.t) (force : bool) (clock : Q * Q) :
  FaceDetector.goes_to_detector d force ->
  let d1 := FaceDetector.with_frame_count d (FaceDetector._frame_count d + 1) in
  FaceDetector.detect resize cvt cascade d frame force clock
  = match FaceDetector.run_detector resize cvt cascade d1 frame clock with
    | Ok result => (Ok result, FaceDetector.with_last_result d1 (Some result))
    | Raise ex => (Raise ex, d1)
    end.
Proof.
  intros Hgo d1. unfold FaceDetector.detect. fold d1.
  destruct force; [reflexivity|].
  cbn [FaceDetector._last_result FaceDetector.with_frame_count d1].
  destruct (FaceDetector._last_result d) as [last|] eqn:El; [|reflexivity].
  destruct Hgo as [Hf | [Hn | [Hi Hm]]]; [discriminate | congruence |].
  unfold Py.mod_.
  change (FaceDetector._frame_count d1) with (FaceDetector._frame_count d + 1)%Z.
  change (FaceDetector._detect_interval d1) with (FaceDetector._detect_interval d).
  destruct (Z.eqb_spec (FaceDetector._detect_interval d) 0); [contradiction|].
  rewrite Hm. reflexivity.
Qed.

(** C4: every call of [detect] increments the frame counter.  With [force]
    false, a cached result and a counter that is not a multiple of the
    interval, the call returns the cached result and changes nothing but the
    counter, whatever the detector is: it is not consulted.  Otherwise the
    call runs the detector; the rectangles it answers are cut to the first
    [_max_faces] in the detector's order, each is divided by the
    detector-space width and height, and the result is returned and is the
    cached result afterwards: the detector after the call has that result in
    [_last_result], the incremented counter, and its other fields as they
    were. *)
Theorem detect_contract resize cvt cascade (d : FaceDetector.t)
    (frame : ndarray.t) (force : bool) (clock : Q * Q) :
  FaceDetector._frame_count
    (snd (FaceDetector.detect resize cvt cascade d frame force clock))
  = (FaceDetector._frame_count d + 1)%Z /\
  (forall last,
     force = false ->
     FaceDetector._last_result d = Some last ->
     FaceDetector._detect_interval d <> 0%Z ->
     ((FaceDetector._frame_count d + 1) mod FaceDetector._detect_interval d
      <> 0)%Z ->
     forall resize' cvt' cascade',
       FaceDetector.detect resize' cvt' cascade' d frame force clock
       = (Ok last,
          FaceDetector.mk (FaceDetector._min_confidence d)
            (FaceDetector._max_faces d) (Some last)
            (FaceDetector._frame_count d + 1)
            (FaceDetector._detect_interval d))) /\
  (FaceDetector.goes_to_detector d force ->
   (0 <= FaceDetector._max_faces d)%Z ->
   forall sh small gray rects,
     FaceDetector.small_height_of frame = Ok sh ->
     sh <> 0%Z ->
     resize frame (FaceDetector.DETECT_WIDTH, sh) = Ok small ->
     cvt small = Ok gray ->
     cascade gray = Ok rects ->
     exists faces,
       let result :=
         DetectionResult.mk faces ((snd clock - fst clock) * 1000) in
       FaceDetector.detect resize cvt cascade d frame force clock
       = (Ok result,
          FaceDetector.mk (FaceDetector._min_confidence d)
            (FaceDetector._max_faces d) (Some result)
            (FaceDetector._frame_count d + 1)
            (FaceDetector._detect_interval d)) /\
       FaceDetector._last_result
         (snd (FaceDetector.detect resize cvt cascade d frame force clock))
       = Some result /\
       length faces
       = Nat.min (Z.to_nat (FaceDetector._max_faces d)) (length rects) /\
       forall k x y w h,
         (k < Z.to_nat (FaceDetector._max_faces d))%nat ->
         nth_error rects k = Some (x, y, w, h) ->
         nth_error faces k
         = Some (FaceDetection.mk
                   (inject_Z x / inject_Z FaceDetector.DETECT_WIDTH)
                   (inject_Z y / inject_Z sh)
                   (inject_Z w / inject_Z FaceDetector.DETECT_WIDTH)
                   (inject_Z h / inject_Z sh)
                   (9 # 10) (Some (Z.of_nat k)))).
Proof.
  set (d1 := FaceDetector.with_frame_count d (FaceDetector._frame_count d + 1)).
  split; [|split].
  - unfold FaceDetector.detect. fold d1.
    destruct force, (FaceDetector._last_result d1);
      try destruct (Py.mod_ _ _) as [m|];
      try destruct (negb _);
      try destruct (FaceDetector.run_detector _ _ _ _ _ _);
      reflexivity.
  - intros last Hf Hl Hi Hm resize' cvt' cascade'.
    unfold FaceDetector.detect. fold d1. subst force.
    change (FaceDetector._last_result d1) with (FaceDetector._last_result d).
    rewrite Hl. unfold Py.mod_.
    change (FaceDetector._frame_count d1) with (FaceDetector._frame_count d + 1)%Z.
    change (FaceDetector._detect_interval d1) with (FaceDetector._detect_interval d).
    destruct (Z.eqb_spec (FaceDetector._detect_interval d) 0); [contradiction|].
    destruct (Z.eqb_spec
                ((FaceDetector._frame_count d + 1)
                   mod FaceDetector._detect_interval d) 0);
      [contradiction|].
    cbn [negb]. unfold d1, FaceDetector.with_frame_count. rewrite Hl.
    reflexivity.
  - intros Hgo Hmax sh small gray rects Hsh Hnz Hres Hcvt Hcas.
    rewrite (detect_fresh resize cvt cascade d frame force clock Hgo).
    fold d1. unfold FaceDetector.run_detector.
    rewrite Hsh. cbn [Py.bind]. rewrite Hres. cbn [Py.bind].
    rewrite Hcvt. cbn [Py.bind]. rewrite Hcas. cbn [Py.bind].
    change (FaceDetector._max_faces d1) with (FaceDetector._max_faces d).
    rewrite (take_firstn _ rects Hmax).
    destruct (to_faces_ok FaceDetector.DETECT_WIDTH sh
                (firstn (Z.to_nat (FaceDetector._max_faces d)) rects)
                ltac:(discriminate) Hnz 0%nat) as (faces & Hfs & Hlen & Hnth).
    rewrite Hfs. cbn [Py.bind].
    exists faces. split; [reflexivity|]. split; [reflexivity|]. split.
    + rewrite Hlen. apply length_firstn.
    + intros k x y w h Hk Hr. apply Hnth.
      rewrite nth_error_firstn.
      destruct (Nat.ltb_spec k (Z.to_nat (FaceDetector._max_faces d)));
        [assumption | lia].
Qed.

Lemma detect_contract_witness :
  FaceDetector.detect Examples.cv2_resize Examples.cv2_cvtColor
    Examples.cascade_failing Examples.cached_detector Examples.black_frame
    false Examples.clock
  = (Ok Examples.one_face,
     FaceDetector.mk (1 # 2) 5 (Some Examples.one_face) 2 3) /\
  exists faces,
    fst (FaceDetector.detect Examples.cv2_resize Examples.cv2_cvtColor
           Examples.cascade_three Examples.two_face_detector
           Examples.black_frame false Examples.clock)
    = Ok (DetectionResult.mk faces
            ((snd Examples.clock - fst Examples.clock) * 1000)) /\
    FaceDetector._last_result
      (snd (FaceDetector.detect Examples.cv2_resize Examples.cv2_cvtColor
              Examples.cascade_three Examples.two_face_detector
              Examples.black_frame false Examples.clock))
    = Some (DetectionResult.mk faces
              ((snd Examples.clock - fst Examples.clock) * 1000)) /\
    length faces = 2%nat /\
    nth_error faces 1
    = Some (FaceDetection.mk (inject_Z 160 / inject_Z 320)
              (inject_Z 120 / inject_Z 240) (inject_Z 32 / inject_Z 320)
              (inject_Z 24 / inject_Z 240) (9 # 10) (Some 1%Z)).
Proof.
  split.
  - apply (proj1 (proj2 (detect_contract Examples.cv2_resize
                           Examples.cv2_cvtColor Examples.cascade_three
                           Examples.cached_detector Examples.black_frame
                           false Examples.clock)));
      [reflexivity | reflexivity | discriminate | discriminate].
  - destruct (proj2 (proj2 (detect_contract Examples.cv2_resize
                              Examples.cv2_cvtColor Examples.cascade_three
                              Examples.two_face_detector Examples.black_frame
                              false Examples.clock))
                (or_intror (or_introl eq_refl))
                ltac:(discriminate)
                240%Z
                (ndarray.mk 240 320
                   (fun i j =>
                      ndarray.at_ Examples.black_frame
                        (i * ndarray.rows Examples.black_frame / 240)%Z
                        (j * ndarray.cols Examples.black_frame / 320)%Z))
                _ Examples.three_rects
                eq_refl ltac:(discriminate) eq_refl eq_refl eq_refl)
      as (faces & Hd & Hcache & Hlen & Hnth).
    exists faces. split; [rewrite Hd; reflexivity|].
    split; [exact Hcache|]. split; [exact Hlen|].
    apply (Hnth 1%nat 160%Z 120%Z 32%Z 24%Z); [cbn; lia | reflexivity].
Defined.

(** C7, as amended: when the call goes to the detector and the detector
    raises, [detect] raises the same exception to its caller; the frame
    counter has been incremented and the cached result is left as it was. *)
Theorem detect_propagates resize cvt cascade (d : FaceDetector.t)
    (frame : ndarray.t) (force : bool) (clock : Q * Q)
    (ex : Py.exn) (sh : Z) (small gray : ndarray.t)
    (Hgo : FaceDetector.goes_to_detector d force)
    (Hsh : FaceDetector.small_height_of frame = Ok sh)
    (Hres : resize frame (FaceDetector.DETECT_WIDTH, sh) = Ok small)
    (Hcvt : cvt small = Ok gray)
    (Hcas : cascade gray = Raise ex) :
  FaceDetector.detect resize cvt cascade d frame force clock
  = (Raise ex,
     FaceDetector.with_frame_count d (FaceDetector._frame_count d + 1)).
Proof.
  rewrite (detect_fresh resize cvt cascade d frame force clock Hgo).
  unfold FaceDetector.run_detector.
  rewrite Hsh. cbn [Py.bind]. rewrite Hres. cbn [Py.bind].
  rewrite Hcvt. cbn [Py.bind]. rewrite Hcas. reflexivity.
Qed.

Lemma detect_propagates_witness :
  FaceDetector.detect Examples.cv2_resize Examples.cv2_cvtColor
    Examples.cascade_failing Examples.two_face_detector Examples.black_frame
    false Examples.clock
  = (Raise Cv2Error, FaceDetector.with_frame_count Examples.two_face_detector 1).
Proof.
  apply (detect_propagates Examples.cv2_resize Examples.cv2_cvtColor
           Examples.cascade_failing Examples.two_face_detector
           Examples.black_frame false Examples.clock Cv2Error 240%Z
           (ndarray.mk 240 320
              (fun i j =>
                 ndarray.at_ Examples.black_frame
                   (i * ndarray.rows Examples.black_frame / 240)%Z
                   (j * ndarray.cols Examples.black_frame / 320)%Z))
           (ndarray.mk 240 320
              (fun i j =>
                 ndarray.at_ Examples.black_frame
                   (i * ndarray.rows Examples.black_frame / 240)%Z
                   (j * ndarray.cols Examples.black_frame / 320)%Z)));
    [right; left; reflexivity | reflexivity | reflexivity | reflexivity
    | reflexivity].
Defined.

(** C7, as stated, fails: with a cascade that raises at run time, [detect]
    does not return an empty result, it raises. *)
Lemma detect_raises_on_detector_failure :
  ~ (exists t,
       fst (FaceDetector.detect Examples.cv2_resize Examples.cv2_cvtColor
              Examples.cascade_failing Examples.two_face_detector
              Examples.black_frame false Examples.clock)
       = Ok (DetectionResult.mk [] t)).
Proof.
  intros [t H]. vm_compute in H. discriminate.
Qed.

(** ** Facts about dictionaries *)

Section DictFacts.

Context {V : Type}.
Implicit Types (d : PyDict.t V) (k : Z) (v : V).

Lemma keys_app d d' :
  PyDict.keys (d ++ d') = PyDict.keys d ++ PyDict.keys d'.
Proof. apply map_app. Qed.

Lemma set_present k v d :
  In k (PyDict.keys d) -> PyDict.keys (PyDict.set k v d) = PyDict.keys d.
Proof.
  induction d as [|[k' v'] d IH]; unfold PyDict.keys in *; cbn; intros Hin; [contradiction|].
  destruct (Z.eqb_spec k k') as [->|Hne]; cbn; [reflexivity|].
  f_equal. apply IH. destruct Hin as [?|?]; [congruence | assumption].
Qed.

Lemma set_absent k v d :
  ~ In k (PyDict.keys d) -> PyDict.set k v d = d ++ [(k, v)].
Proof.
  induction d as [|[k' v'] d IH]; unfold PyDict.keys in *; cbn; intros Hin; [reflexivity|].
  destruct (Z.eqb_spec k k') as [->|Hne]; [tauto|].
  f_equal. apply IH. tauto.
Qed.

Lemma keys_modify k (f : V -> V) d :
  PyDict.keys (PyDict.modify k f d) = PyDict.keys d.
Proof.
  induction d as [|[k' v'] d IH]; unfold PyDict.keys in *; cbn; [reflexivity|].
  destruct (Z.eqb_spec k k'); cbn; congruence.
Qed.

Lemma get_set_same k v d : PyDict.get k (PyDict.set k v d) = Some v.
Proof.
  induction d as [|[k' v'] d IH]; unfold PyDict.keys in *; cbn.
  - rewrite Z.eqb_refl. reflexivity.
  - destruct (Z.eqb_spec k k') as [->|Hne]; cbn.
    + rewrite Z.eqb_refl. reflexivity.
    + destruct (Z.eqb_spec k k'); [contradiction | assumption].
Qed.

Lemma get_set_other k k' v d :
  k <> k' -> PyDict.get k' (PyDict.set k v d) = PyDict.get k' d.
Proof.
  intros Hne. induction d as [|[k0 v0] d IH]; unfold PyDict.keys in *; cbn.
  - destruct (Z.eqb_spec k' k); congruence.
  - destruct (Z.eqb_spec k k0) as [->|Hk]; cbn.
    + destruct (Z.eqb_spec k' k0); congruence.
    + destruct (Z.eqb_spec k' k0); congruence.
Qed.

Lemma get_modify_same k (f : V -> V) v d :
  PyDict.get k d = Some v -> PyDict.get k (PyDict.modify k f d) = Some (f v).
Proof.
  induction d as [|[k' v'] d IH]; unfold PyDict.keys in *; cbn; [discriminate|].
  destruct (Z.eqb_spec k k') as [->|Hne]; cbn.
  - rewrite Z.eqb_refl. congruence.
  - destruct (Z.eqb_spec k k'); [contradiction | assumption].
Qed.

Lemma get_modify_other k k' (f : V -> V) d :
  k <> k' -> PyDict.get k' (PyDict.modify k f d) = PyDict.get k' d.
Proof.
  intros Hne. induction d as [|[k0 v0] d IH]; unfold PyDict.keys in *; cbn; [reflexivity|].
  destruct (Z.eqb_spec k k0) as [->|Hk]; cbn.
  - destruct (Z.eqb_spec k' k0); congruence.
  - destruct (Z.eqb_spec k' k0); congruence.
Qed.

Lemma get_some_in k v d : PyDict.get k d = Some v -> In (k, v) d.
Proof.
  induction d as [|[k' v'] d IH]; unfold PyDict.keys in *; cbn; [discriminate|].
  destruct (Z.eqb_spec k k') as [->|Hne]; intros H.
  - left. congruence.
  - right. auto.
Qed.

Lemma in_keys_get k d :
  In k (PyDict.keys d) -> exists v, PyDict.get k d = Some v.
Proof.
  induction d as [|[k' v'] d IH]; unfold PyDict.keys in *; cbn; [contradiction|].
  destruct (Z.eqb_spec k k') as [->|Hne]; [eauto|].
  intros [H|H]; [congruence | auto].
Qed.

Lemma get_in_keys k v d : PyDict.get k d = Some v -> In k (PyDict.keys d).
Proof.
  intros H. apply get_some_in in H.
  apply (in_map fst) in H. exact H.
Qed.

Lemma in_get_nodup k v d :
  NoDup (PyDict.keys d) -> In (k, v) d -> PyDict.get k d = Some v.
Proof.
  induction d as [|[k' v'] d IH]; unfold PyDict.keys in *; cbn; [contradiction|].
  intros Hnd [H|H].
  - injection H as -> ->. rewrite Z.eqb_refl. reflexivity.
  - inversion Hnd as [|? ? Hnot Hnd']; subst.
    destruct (Z.eqb_spec k k') as [->|Hne]; [|auto].
    exfalso. apply Hnot. apply (in_map fst) in H. exact H.
Qed.

Lemma pop_incl k d : incl (PyDict.pop k d) d.
Proof.
  induction d as [|[k' v'] d IH]; unfold PyDict.keys in *; cbn; [apply incl_refl|].
  destruct (Z.eqb_spec k k').
  - apply incl_tl, incl_refl.
  - intros x [H|H]; [left; assumption | right; apply IH; assumption].
Qed.

Lemma pop_keys_incl k d : incl (PyDict.keys (PyDict.pop k d)) (PyDict.keys d).
Proof.
  intros x H. apply in_map_iff in H as (kv & <- & Hin).
  apply in_map. apply (pop_incl k d). assumption.
Qed.

Lemma pop_removes k d :
  NoDup (PyDict.keys d) -> ~ In k (PyDict.keys (PyDict.pop k d)).
Proof.
  induction d as [|[k' v'] d IH]; unfold PyDict.keys in *; cbn; [tauto|].
  intros Hnd. inversion Hnd as [|? ? Hnot Hnd']; subst.
  destruct (Z.eqb_spec k k') as [->|Hne]; [assumption|].
  cbn. intros [H|H]; [congruence | exact (IH Hnd' H)].
Qed.

Lemma pop_keeps k k' d :
  k <> k' -> In k' (PyDict.keys d) -> In k' (PyDict.keys (PyDict.pop k d)).
Proof.
  intros Hne. induction d as [|[k0 v0] d IH]; unfold PyDict.keys in *; cbn; [tauto|].
  destruct (Z.eqb_spec k k0) as [->|Hk]; cbn.
  - intros [H|H]; [congruence | assumption].
  - intros [H|H]; [left; assumption | right; auto].
Qed.

Lemma pop_sorted k d :
  StronglySorted Z.lt (PyDict.keys d) ->
  StronglySorted Z.lt (PyDict.keys (PyDict.pop k d)).
Proof.
  induction d as [|[k' v'] d IH]; unfold PyDict.keys in *; cbn; [auto|].
  intros Hs. inversion Hs as [|? ? Hs' Hall]; subst.
  destruct (Z.eqb_spec k k'); [assumption|].
  cbn. constructor; [auto|].
  rewrite Forall_forall in *. intros x Hx. apply Hall.
  apply (pop_keys_incl k d). assumption.
Qed.

End DictFacts.

Lemma pop_keys_same {V W : Type} k (d : PyDict.t V) (d' : PyDict.t W) :
  PyDict.keys d = PyDict.keys d' ->
  PyDict.keys (PyDict.pop k d) = PyDict.keys (PyDict.pop k d').
Proof.
  unfold PyDict.keys. revert d'.
  induction d as [|[k1 v1] d IH]; intros [|[k2 v2] d']; cbn;
    try discriminate; [reflexivity|].
  intros H. injection H as <- H.
  destruct (Z.eqb_spec k k1); [assumption|].
  cbn. f_equal. auto.
Qed.

Lemma sorted_nodup (l : list Z) : StronglySorted Z.lt l -> NoDup l.
Proof.
  induction 1 as [|a l Hs IH Hall]; constructor; [|assumption].
  intros Hin. rewrite Forall_forall in Hall. specialize (Hall a Hin). lia.
Qed.

Lemma sorted_snoc (l : list Z) (k : Z) :
  StronglySorted Z.lt l -> Forall (fun x => (x < k)%Z) l ->
  StronglySorted Z.lt (l ++ [k]).
Proof.
  induction 1 as [|a l Hs IH Hall]; cbn; intros Hlt.
  - constructor; constructor.
  - inversion Hlt; subst. constructor; [auto|].
    apply Forall_app. split; [assumption|]. constructor; [assumption|constructor].
Qed.

(** ** The tracker's tables *)

Section TrackerFacts.

Variable Tracker : Type.
Variable cvt : ndarray.t -> ndarray.t.
Variable tinit : TrackerType -> ndarray.t -> BBox -> Tracker.
Variable tupdate : Tracker -> ndarray.t -> Tracker * (bool * (Q * Q * Q * Q)).

Local Abbreviation state := (FaceTracker.t Tracker).
Local Abbreviation ids s := (PyDict.keys (FaceTracker._tracked_faces Tracker s)).
Local Abbreviation next s := (FaceTracker._next_id Tracker s).
Local Abbreviation wf := (FaceTracker.wf Tracker).
Local Abbreviation later := (FaceTracker.later Tracker).
Local Abbreviation add_track := (FaceTracker.add_track Tracker tinit).
Local Abbreviation init_tracks := (FaceTracker.init_tracks Tracker cvt tinit).
Local Abbreviation update := (FaceTracker.update Tracker cvt tupdate).
Local Abbreviation update_loop := (FaceTracker.update_loop Tracker tupdate).
Local Abbreviation rebind := (FaceTracker.rebind Tracker tinit).
Local Abbreviation match_loop := (FaceTracker.match_loop Tracker tinit).
Local Abbreviation spawn_loop := (FaceTracker.spawn_loop Tracker tinit).
Local Abbreviation refresh_tracks := (FaceTracker.refresh_tracks Tracker cvt tinit).

Lemma wf_init ty m : wf (FaceTracker.init Tracker ty m).
Proof. repeat split; constructor. Qed.

Lemma wf_clear (s : state) : wf (FaceTracker.clear Tracker s).
Proof. repeat split; constructor. Qed.

Lemma later_refl (s : state) : wf s -> later s s.
Proof. intros H. split; [assumption|]. split; [lia | auto]. Qed.

Lemma later_trans (s1 s2 s3 : state) :
  later s1 s2 -> later s2 s3 -> later s1 s3.
Proof.
  intros (Hw2 & Hn12 & Hk12) (Hw3 & Hn23 & Hk23).
  split; [assumption|]. split; [lia|].
  intros k Hk. destruct (Hk23 k Hk) as [H|H]; [auto | right; lia].
Qed.

Lemma wf_fresh (s : state) : wf s -> ~ In (next s) (ids s).
Proof.
  intros (_ & _ & Hlt & _) Hin.
  rewrite Forall_forall in Hlt. specialize (Hlt _ Hin). lia.
Qed.

(** A new track goes to the end of both tables under the identity
    [_next_id], which then moves on by one. *)
Lemma add_track_spec fb (s : state) b :
  wf s ->
  let s' := add_track fb s b in
  wf s' /\
  next s' = (next s + 1)%Z /\
  FaceTracker._tracked_faces Tracker s'
  = FaceTracker._tracked_faces Tracker s
    ++ [(next s, TrackedFace.new (next s) b 1)].
Proof.
  intros Hwf s'. pose proof (wf_fresh s Hwf) as Hfresh.
  destruct Hwf as (Hkeys & Hsort & Hlt & Hid).
  assert (Hf : FaceTracker._tracked_faces Tracker s'
               = FaceTracker._tracked_faces Tracker s
                 ++ [(next s, TrackedFace.new (next s) b 1)]).
  { subst s'. cbn. apply set_absent. assumption. }
  assert (Ht : FaceTracker._trackers Tracker s'
               = FaceTracker._trackers Tracker s
                 ++ [(next s, tinit (FaceTracker._tracker_type Tracker s) fb b)]).
  { subst s'. cbn. apply set_absent. rewrite Hkeys. assumption. }
  split; [|split; [reflexivity | assumption]].
  unfold FaceTracker.wf. rewrite Hf, Ht, !keys_app, Hkeys. cbn [PyDict.keys map fst].
  split; [reflexivity|]. split; [apply sorted_snoc; assumption|].
  split.
  - apply Forall_app. split.
    + eapply Forall_impl; [|exact Hlt]. cbn. intros; lia.
    + constructor; [cbn; lia | constructor].
  - apply Forall_app. split; [assumption|]. constructor; [reflexivity|constructor].
Qed.

Lemma add_track_later fb (s : state) b : wf s -> later s (add_track fb s b).
Proof.
  intros Hwf. destruct (add_track_spec fb s b Hwf) as (Hwf' & Hn & Hf).
  split; [assumption|]. split; [lia|].
  intros k. rewrite Hf, keys_app, in_app_iff. cbn.
  intros [H | [<- | []]]; [auto | right; lia].
Qed.

Lemma add_tracks_later fb (dets : list BBox) (s : state) :
  wf s -> later s (fold_left (add_track fb) dets s).
Proof.
  revert s. induction dets as [|b dets IH]; intros s Hwf; cbn.
  - apply later_refl. assumption.
  - pose proof (add_track_later fb s b Hwf) as H1.
    eapply later_trans; [exact H1|]. apply IH. apply H1.
Qed.

Lemma init_tracks_later (s : state) frame dets :
  let r := init_tracks s frame dets in
  fst r = PyDict.values (FaceTracker._tracked_faces Tracker (snd r)) /\
  wf (snd r) /\
  (next s <= next (snd r))%Z /\
  forall k, In k (ids (snd r)) -> (next s <= k)%Z.
Proof.
  cbn. pose proof (add_tracks_later (cvt frame) dets
                     (FaceTracker.clear Tracker s) (wf_clear s))
    as (Hwf & Hn & Hk).
  split; [reflexivity|]. split; [assumption|]. split; [exact Hn|].
  intros k Hin. destruct (Hk k Hin) as [[]|H]. exact H.
Qed.

Lemma mark_spec m id success bbox tf lost :
  let r := FaceTracker.mark m id success bbox tf lost in
  TrackedFace.tracking_id (fst r) = TrackedFace.tracking_id tf /\
  TrackedFace.frames_since_detection (fst r)
  = (TrackedFace.frames_since_detection tf + 1)%Z /\
  incl lost (snd r) /\
  (forall x, In x (snd r) -> In x lost \/ x = id) /\
  ((m < TrackedFace.frames_since_detection tf + 1)%Z ->
   TrackedFace.is_lost (fst r) = true /\ In id (snd r)).
Proof.
  unfold FaceTracker.mark. destruct bbox as [[[bx by_] bw] bh].
  destruct success;
    destruct (Z.ltb_spec m (TrackedFace.frames_since_detection tf + 1));
    cbn; repeat split; try lia; try reflexivity;
    try (intros x Hx; rewrite ?in_app_iff in *; cbn in *;
         intuition congruence);
    try (rewrite ?in_app_iff; cbn; tauto).
Qed.

Lemma Forall_set {V : Type} (P : Z * V -> Prop) k v (d : PyDict.t V) :
  Forall P d -> P (k, v) -> Forall P (PyDict.set k v d).
Proof.
  intros Hd Hp. induction d as [|[k' v'] d IH]; cbn.
  - constructor; [assumption | constructor].
  - inversion Hd; subst.
    destruct (Z.eqb_spec k k') as [->|Hne]; constructor; auto.
Qed.

Abbreviation own_id :=
  (fun kv : Z * TrackedFace.t => TrackedFace.tracking_id (snd kv) = fst kv).

(** The marking loop: it raises nothing when every tracker has its track,
    it keeps the identities of both tables, and every track it visits has
    its counter advanced by one and is marked lost once the counter is over
    the limit. *)
Lemma update_loop_spec fb m (items : PyDict.t Tracker) :
  NoDup (PyDict.keys items) ->
  forall (trackers : PyDict.t Tracker) (faces : PyDict.t TrackedFace.t) lost,
  incl (PyDict.keys items) (PyDict.keys faces) ->
  incl (PyDict.keys items) (PyDict.keys trackers) ->
  Forall own_id faces ->
  exists trackers' faces' lost',
    update_loop fb m items trackers faces lost = Ok (trackers', faces', lost') /\
    PyDict.keys trackers' = PyDict.keys trackers /\
    PyDict.keys faces' = PyDict.keys faces /\
    Forall own_id faces' /\
    (forall x, In x lost' -> In x lost \/ In x (PyDict.keys items)) /\
    incl lost lost' /\
    (forall k tf,
       In k (PyDict.keys items) -> PyDict.get k faces = Some tf ->
       exists tf',
         PyDict.get k faces' = Some tf' /\
         TrackedFace.frames_since_detection tf'
         = (TrackedFace.frames_since_detection tf + 1)%Z /\
         ((m < TrackedFace.frames_since_detection tf + 1)%Z ->
          TrackedFace.is_lost tf' = true /\ In k lost')) /\
    (forall k, ~ In k (PyDict.keys items) ->
               PyDict.get k faces' = PyDict.get k faces).
Proof.
  induction items as [|[id tr] items IH]; intros Hnd trackers faces lost Hf Ht Hown.
  - exists trackers, faces, lost. cbn.
    repeat split; auto using incl_refl. intros k tf [].
  - cbn [FaceTracker.update_loop].
    destruct (tupdate tr fb) as [tr' [success bbox]].
    assert (Hid : In id (PyDict.keys faces)) by (apply Hf; left; reflexivity).
    destruct (in_keys_get id faces Hid) as [tracked Hget]. rewrite Hget.
    pose proof (mark_spec m id success bbox tracked lost)
      as (Hm1 & Hm2 & Hm3 & Hm4 & Hm5).
    destruct (FaceTracker.mark m id success bbox tracked lost)
      as [tracked' lost1] eqn:Emark. cbn [fst snd] in *.
    inversion Hnd as [|? ? Hnot Hnd']; subst.
    assert (Hkf : PyDict.keys (PyDict.set id tracked' faces) = PyDict.keys faces)
      by (apply set_present; assumption).
    assert (Hkt : PyDict.keys (PyDict.set id tr' trackers) = PyDict.keys trackers)
      by (apply set_present; apply Ht; left; reflexivity).
    assert (Hown' : Forall own_id (PyDict.set id tracked' faces)).
    { apply Forall_set; [assumption|]. cbn. rewrite Hm1.
      apply (proj1 (Forall_forall _ _) Hown (id, tracked)).
      apply get_some_in. assumption. }
    destruct (IH Hnd' (PyDict.set id tr' trackers)
                (PyDict.set id tracked' faces) lost1)
      as (trackers' & faces' & lost' & Hrun & Hk1 & Hk2 & Hown2 & Hl1 & Hl2
          & Hvis & Hrest).
    { rewrite Hkf. intros x Hx. apply Hf. right. assumption. }
    { rewrite Hkt. intros x Hx. apply Ht. right. assumption. }
    { assumption. }
    exists trackers', faces', lost'. rewrite Hrun.
    split; [reflexivity|]. split; [congruence|]. split; [congruence|].
    split; [assumption|]. split; [|split; [|split]].
    + intros x Hx. destruct (Hl1 x Hx) as [H|H].
      * destruct (Hm4 x H) as [H'|H']; [auto | right; left; auto].
      * right; right; assumption.
    + intros x Hx. apply Hl2, Hm3. assumption.
    + intros k tf [<-|Hk] Hg; cbn [fst] in *.
      * exists tracked'. rewrite (Hrest id Hnot), get_set_same.
        rewrite Hget in Hg. injection Hg as <-.
        split; [reflexivity|]. split; [assumption|].
        intros Hover. destruct (Hm5 Hover). split; [assumption|].
        apply Hl2. assumption.
      * assert (Hne : id <> k) by (intros ->; contradiction).
        apply (Hvis k tf Hk). rewrite get_set_other by assumption. assumption.
    + intros k Hk. cbn in Hk.
      rewrite Hrest by tauto. apply get_set_other. tauto.
Qed.

Lemma sweep_incl {V : Type} lost (d : PyDict.t V) :
  incl (FaceTracker.sweep lost d) d.
Proof.
  unfold FaceTracker.sweep. revert d.
  induction lost as [|k lost IH]; intros d; cbn; [apply incl_refl|].
  eapply incl_tran; [apply IH | apply pop_incl].
Qed.

Lemma sweep_keys_incl {V : Type} lost (d : PyDict.t V) :
  incl (PyDict.keys (FaceTracker.sweep lost d)) (PyDict.keys d).
Proof.
  intros x H. apply in_map_iff in H as (kv & <- & Hin).
  apply in_map. apply (sweep_incl lost d). assumption.
Qed.

Lemma sweep_sorted {V : Type} lost (d : PyDict.t V) :
  StronglySorted Z.lt (PyDict.keys d) ->
  StronglySorted Z.lt (PyDict.keys (FaceTracker.sweep lost d)).
Proof.
  unfold FaceTracker.sweep. revert d.
  induction lost as [|k lost IH]; intros d Hs; cbn; [assumption|].
  apply IH. apply pop_sorted. assumption.
Qed.

Lemma sweep_keys_same {V W : Type} lost (d : PyDict.t V) (d' : PyDict.t W) :
  PyDict.keys d = PyDict.keys d' ->
  PyDict.keys (FaceTracker.sweep lost d)
  = PyDict.keys (FaceTracker.sweep lost d').
Proof.
  unfold FaceTracker.sweep. revert d d'.
  induction lost as [|k lost IH]; intros d d' H; cbn; [assumption|].
  apply IH. apply pop_keys_same. assumption.
Qed.

Lemma sweep_removes {V : Type} lost (d : PyDict.t V) k :
  StronglySorted Z.lt (PyDict.keys d) -> In k lost ->
  ~ In k (PyDict.keys (FaceTracker.sweep lost d)).
Proof.
  unfold FaceTracker.sweep. revert d.
  induction lost as [|k' lost IH]; intros d Hs Hin; cbn; [contradiction|].
  destruct (Z.eq_dec k' k) as [->|Hne].
  - intros H. apply (sweep_keys_incl lost (PyDict.pop k d)) in H.
    revert H. apply pop_removes. apply sorted_nodup. assumption.
  - destruct Hin as [?|Hin]; [contradiction|].
    apply IH; [apply pop_sorted|]; assumption.
Qed.

Lemma sweep_keeps {V : Type} lost (d : PyDict.t V) k :
  ~ In k lost -> In k (PyDict.keys d) ->
  In k (PyDict.keys (FaceTracker.sweep lost d)).
Proof.
  unfold FaceTracker.sweep. revert d.
  induction lost as [|k' lost IH]; intros d Hnot Hin; cbn; [assumption|].
  apply IH; [cbn in Hnot; tauto|].
  apply pop_keeps; [cbn in Hnot; tauto | assumption].
Qed.

(** One [update]: it returns, the tables keep their shape, no identity is
    issued, and a track whose advanced counter is over the limit is marked
    lost by the loop and is in neither table afterwards. *)
Lemma update_spec (s : state) frame :
  wf s ->
  exists trackers faces lost,
    update_loop (cvt frame) (FaceTracker._max_frames_lost Tracker s)
      (FaceTracker._trackers Tracker s) (FaceTracker._trackers Tracker s)
      (FaceTracker._tracked_faces Tracker s) []
    = Ok (trackers, faces, lost) /\
    let s' := FaceTracker.mk Tracker (FaceTracker._tracker_type Tracker s)
                (FaceTracker._max_frames_lost Tracker s)
                (FaceTracker.sweep lost trackers)
                (FaceTracker.sweep lost faces) (next s) in
    update s frame
    = Ok (PyDict.values (FaceTracker._tracked_faces Tracker s'), s') /\
    later s s' /\
    incl (ids s') (ids s) /\
    forall id tf,
      PyDict.get id (FaceTracker._tracked_faces Tracker s) = Some tf ->
      (FaceTracker._max_frames_lost Tracker s
       < TrackedFace.frames_since_detection tf + 1)%Z ->
      (exists tf', PyDict.get id faces = Some tf' /\
                   TrackedFace.is_lost tf' = true) /\
      In id lost /\
      ~ In id (ids s') /\
      ~ In id (PyDict.keys (FaceTracker._trackers Tracker s')).
Proof.
  intros (Hkeys & Hsort & Hlt & Hown).
  assert (Hnd : NoDup (PyDict.keys (FaceTracker._trackers Tracker s)))
    by (rewrite Hkeys; apply sorted_nodup; assumption).
  destruct (update_loop_spec (cvt frame)
              (FaceTracker._max_frames_lost Tracker s)
              (FaceTracker._trackers Tracker s) Hnd
              (FaceTracker._trackers Tracker s)
              (FaceTracker._tracked_faces Tracker s) [])
    as (trackers & faces & lost & Hrun & Hk1 & Hk2 & Hown2 & _ & _ & Hvis & _);
    [rewrite Hkeys; apply incl_refl | apply incl_refl | assumption |].
  exists trackers, faces, lost. split; [assumption|].
  intros s'.
  assert (Hsub : incl (ids s') (ids s)).
  { subst s'. cbn [FaceTracker._tracked_faces]. rewrite <- Hk2.
    apply sweep_keys_incl. }
  assert (Hwf' : wf s').
  { subst s'. unfold FaceTracker.wf.
    cbn [FaceTracker._tracked_faces FaceTracker._trackers FaceTracker._next_id].
    split; [apply sweep_keys_same; congruence|].
    split; [apply sweep_sorted; rewrite Hk2; assumption|].
    split.
    - rewrite Forall_forall in *. intros k Hk. apply Hlt. apply Hsub. exact Hk.
    - rewrite Forall_forall in *. intros kv Hkv. apply Hown2.
      apply (sweep_incl lost faces). assumption. }
  split; [|split; [|split]].
  - unfold FaceTracker.update. rewrite Hrun. reflexivity.
  - split; [assumption|]. split; [cbn; lia|]. intros k Hk. left. auto.
  - assumption.
  - intros id tf Hget Hover.
    destruct (Hvis id tf) as (tf' & Hg' & _ & Hlost);
      [rewrite Hkeys; eapply get_in_keys; eassumption | assumption |].
    destruct (Hlost Hover) as [Hl Hin].
    split; [eauto|]. split; [assumption|].
    subst s'. cbn [FaceTracker._tracked_faces FaceTracker._trackers]. split.
    + apply sweep_removes; [rewrite Hk2|]; assumption.
    + apply sweep_removes; [rewrite Hk1, Hkeys|]; assumption.
Qed.

Lemma Forall_modify {V : Type} (P : Z * V -> Prop) k (f : V -> V)
    (d : PyDict.t V) :
  Forall P d -> (forall v, P (k, v) -> P (k, f v)) ->
  Forall P (PyDict.modify k f d).
Proof.
  intros Hd Hf. induction d as [|[k' v'] d IH]; cbn; [constructor|].
  inversion Hd; subst.
  destruct (Z.eqb_spec k k') as [->|Hne]; constructor; auto.
Qed.

(** Giving a detection to a track of the table changes that track only. *)
Lemma rebind_spec fb (s : state) t det :
  wf s -> In t (ids s) ->
  let s' := rebind fb s t det in
  wf s' /\ ids s' = ids s /\ next s' = next s /\
  (forall tf,
     PyDict.get t (FaceTracker._tracked_faces Tracker s) = Some tf ->
     PyDict.get t (FaceTracker._tracked_faces Tracker s')
     = Some (TrackedFace.mk (TrackedFace.tracking_id tf) det 1 0
               (TrackedFace.is_lost tf))) /\
  (forall k, k <> t ->
     PyDict.get k (FaceTracker._tracked_faces Tracker s')
     = PyDict.get k (FaceTracker._tracked_faces Tracker s)).
Proof.
  intros (Hkeys & Hsort & Hlt & Hown) Hin s'. subst s'.
  unfold FaceTracker.rebind, FaceTracker.wf.
  cbn [FaceTracker._tracked_faces FaceTracker._trackers FaceTracker._next_id].
  rewrite keys_modify, set_present by (rewrite Hkeys; assumption).
  repeat split; try assumption.
  - apply Forall_modify; [assumption|]. intros v Hv. exact Hv.
  - intros tf Hg. rewrite (get_modify_same _ _ _ _ Hg). reflexivity.
  - intros k Hne. apply get_modify_other. congruence.
Qed.

Abbreviation iou_with det :=
  (fun tf : TrackedFace.t => FaceTracker._calculate_iou (TrackedFace.bbox tf) det).

(** The scan for one detection.  Either it keeps the candidate it started
    with, and every unmatched track is below the threshold or no better than
    the starting IoU; or it picks a track of the table that is unmatched,
    reaches the threshold, beats the starting IoU, is strictly better than
    every unmatched track before it and at least as good as every unmatched
    track after it. *)
Lemma best_track_spec matched det thr (items : PyDict.t TrackedFace.t) :
  forall best_iou best_id,
  let r := FaceTracker.best_track items matched det thr best_iou best_id in
  (r = best_id /\
   forall k tf, In (k, tf) items -> memZ k matched = false ->
                iou_with det tf <= best_iou \/ iou_with det tf < thr)
  \/
  (exists pre k tf post,
     items = pre ++ (k, tf) :: post /\
     r = Some k /\
     memZ k matched = false /\
     best_iou < iou_with det tf /\
     thr <= iou_with det tf /\
     (forall k' tf', In (k', tf') pre -> memZ k' matched = false ->
                     iou_with det tf' < iou_with det tf) /\
     (forall k' tf', In (k', tf') post -> memZ k' matched = false ->
                     iou_with det tf' <= iou_with det tf)).
Proof.
  induction items as [|[k tf] rest IH]; intros best_iou best_id; cbn zeta.
  - left. split; [reflexivity|]. intros k tf [].
  - cbn [FaceTracker.best_track].
    destruct (memZ k matched) eqn:Ek.
    + destruct (IH best_iou best_id) as [[Hr Hall] | (pre & k1 & tf1 & post & E & Hr & Hu & Hb & Ht & Hpre & Hpost)].
      * left. split; [assumption|].
        intros k' tf' [H|H] Hun; [injection H as <- <-; congruence | eauto].
      * right. exists ((k, tf) :: pre), k1, tf1, post.
        split; [rewrite E; reflexivity|]. repeat split; try assumption.
        intros k' tf' [H|H] Hun; [injection H as <- <-; congruence | eauto].
    + destruct (Qlt_le_dec best_iou (iou_with det tf)) as [Hgt|Hle];
        [destruct (Qlt_le_dec (iou_with det tf) thr) as [Hlow|Hok]|].
      * destruct (IH best_iou best_id) as [[Hr Hall] | (pre & k1 & tf1 & post & E & Hr & Hu & Hb & Ht & Hpre & Hpost)].
        -- left. split; [assumption|].
           intros k' tf' [H|H] Hun; [injection H as <- <-; auto | eauto].
        -- right. exists ((k, tf) :: pre), k1, tf1, post.
           split; [rewrite E; reflexivity|]. repeat split; try assumption.
           intros k' tf' [H|H] Hun; [injection H as <- <-; lra | eauto].
      * destruct (IH (iou_with det tf) (Some k)) as [[Hr Hall] | (pre & k1 & tf1 & post & E & Hr & Hu & Hb & Ht & Hpre & Hpost)].
        -- right. exists [], k, tf, rest.
           split; [reflexivity|]. repeat split; try assumption.
           ++ intros k' tf' [].
           ++ intros k' tf' Hin Hun.
              destruct (Hall k' tf' Hin Hun); [assumption | lra].
        -- right. exists ((k, tf) :: pre), k1, tf1, post.
           split; [rewrite E; reflexivity|]. repeat split; try assumption.
           ++ lra.
           ++ intros k' tf' [H|H] Hun; [injection H as <- <-; lra | eauto].
      * destruct (IH best_iou best_id) as [[Hr Hall] | (pre & k1 & tf1 & post & E & Hr & Hu & Hb & Ht & Hpre & Hpost)].
        -- left. split; [assumption|].
           intros k' tf' [H|H] Hun; [injection H as <- <-; auto | eauto].
        -- right. exists ((k, tf) :: pre), k1, tf1, post.
           split; [rewrite E; reflexivity|]. repeat split; try assumption.
           intros k' tf' [H|H] Hun; [injection H as <- <-; lra | eauto].
Qed.

Lemma best_track_in matched det thr (items : PyDict.t TrackedFace.t) t :
  FaceTracker.best_track items matched det thr 0 None = Some t ->
  In t (PyDict.keys items) /\ memZ t matched = false.
Proof.
  intros H.
  destruct (best_track_spec matched det thr items 0 None)
    as [[Hr _] | (pre & k & tf & post & E & Hr & Hu & _)]; cbn zeta in *.
  - congruence.
  - assert (t = k) by congruence. subst t. split; [|assumption].
    rewrite E, keys_app, in_app_iff. right. left. reflexivity.
Qed.

Lemma memZ_in k l : memZ k l = true <-> In k l.
Proof.
  unfold memZ. rewrite existsb_exists. split.
  - intros (x & Hin & E). apply Z.eqb_eq in E. congruence.
  - intros H. exists k. split; [assumption | apply Z.eqb_refl].
Qed.

Lemma memZ_not_in k l : memZ k l = false <-> ~ In k l.
Proof.
  rewrite <- memZ_in. destruct (memZ k l); split; congruence.
Qed.

Lemma memN_in i l : memN i l = true <-> In i l.
Proof.
  unfold memN. rewrite existsb_exists. split.
  - intros (x & Hin & E). apply Nat.eqb_eq in E. congruence.
  - intros H. exists i. split; [assumption | apply Nat.eqb_refl].
Qed.

Lemma memN_not_in i l : memN i l = false <-> ~ In i l.
Proof.
  rewrite <- memN_in. destruct (memN i l); split; congruence.
Qed.

(** The matching loop keeps the shape of the tables and issues no
    identity; it only adds to the two matched sets, only indices it visits;
    and it leaves alone every track that was matched before it started and
    every track that is unmatched when it ends. *)
Lemma match_loop_spec fb thr (dets : list BBox) :
  forall i (s : state) mt md s1 mt1 md1,
  wf s ->
  match_loop fb thr i dets s mt md = (s1, mt1, md1) ->
  wf s1 /\ ids s1 = ids s /\ next s1 = next s /\
  incl mt mt1 /\ incl md md1 /\
  (forall j, In j md1 -> In j md \/ (i <= j < i + length dets)%nat) /\
  (forall k, In k mt \/ ~ In k mt1 ->
     PyDict.get k (FaceTracker._tracked_faces Tracker s1)
     = PyDict.get k (FaceTracker._tracked_faces Tracker s)).
Proof.
  induction dets as [|det dets IH]; intros i s mt md s1 mt1 md1 Hwf Hrun;
    cbn [FaceTracker.match_loop] in Hrun.
  - injection Hrun as <- <- <-.
    split; [assumption|]. repeat split; auto using incl_refl.
  - destruct (FaceTracker.best_track _ mt det thr 0 None) as [t|] eqn:Eb.
    + destruct (best_track_in _ _ _ _ _ Eb) as [Hin Hun].
      apply memZ_not_in in Hun.
      destruct (rebind_spec fb s t det Hwf Hin) as (Hwf' & Hids & Hn & _ & Hoth).
      destruct (IH _ _ _ _ _ _ _ Hwf' Hrun)
        as (Hw1 & Hi1 & Hn1 & Hmt & Hmd & Hj & Hget).
      split; [assumption|]. split; [congruence|]. split; [congruence|].
      split; [intros x Hx; apply Hmt, in_app_iff; auto|].
      split; [intros x Hx; apply Hmd, in_app_iff; auto|].
      split.
      * intros j Hjin. cbn [length].
        destruct (Hj j Hjin) as [H|H]; [|right; lia].
        apply in_app_iff in H. destruct H as [H|[<-|[]]]; [auto | right; lia].
      * intros k Hk. rewrite Hget.
        -- apply Hoth. intros ->. destruct Hk as [Hk|Hk]; [contradiction|].
           apply Hk, Hmt, in_app_iff. right. left. reflexivity.
        -- destruct Hk as [Hk|Hk]; [left; apply in_app_iff; auto | auto].
    + destruct (IH _ _ _ _ _ _ _ Hwf Hrun)
        as (Hw1 & Hi1 & Hn1 & Hmt & Hmd & Hj & Hget).
      split; [assumption|]. repeat split; try assumption.
      intros j Hjin. cbn [length].
      destruct (Hj j Hjin) as [H|H]; [auto | right; lia].
Qed.

Lemma get_app_l {V : Type} k v (d e : PyDict.t V) :
  PyDict.get k d = Some v -> PyDict.get k (d ++ e) = Some v.
Proof.
  induction d as [|[k' v'] d IH]; cbn; [discriminate|].
  destruct (Z.eqb_spec k k'); auto.
Qed.

Lemma add_track_keeps fb (s : state) b k v :
  wf s ->
  PyDict.get k (FaceTracker._tracked_faces Tracker s) = Some v ->
  PyDict.get k (FaceTracker._tracked_faces Tracker (add_track fb s b)) = Some v.
Proof.
  intros Hwf Hg. destruct (add_track_spec fb s b Hwf) as (_ & _ & ->).
  apply get_app_l. assumption.
Qed.

Lemma add_track_new fb (s : state) b :
  wf s ->
  PyDict.get (next s) (FaceTracker._tracked_faces Tracker (add_track fb s b))
  = Some (TrackedFace.new (next s) b 1).
Proof. intros _. cbn. apply get_set_same. Qed.

(** The spawning loop only appends: the state it ends in is a later state,
    every track of the table is still there, unchanged, and each detection
    whose index is not in the matched set has a track of a new identity
    that holds it. *)
Lemma spawn_loop_spec fb md (dets : list BBox) :
  forall i (s : state),
  wf s ->
  let s' := spawn_loop fb i dets md s in
  later s s' /\
  (forall k v,
     PyDict.get k (FaceTracker._tracked_faces Tracker s) = Some v ->
     PyDict.get k (FaceTracker._tracked_faces Tracker s') = Some v) /\
  (forall j det,
     nth_error dets j = Some det -> memN (i + j) md = false ->
     exists k, (next s <= k < next s')%Z /\
               PyDict.get k (FaceTracker._tracked_faces Tracker s')
               = Some (TrackedFace.new k det 1)).
Proof.
  induction dets as [|d dets IH]; intros i s Hwf; cbn zeta.
  - cbn. split; [apply later_refl; assumption|]. split; [auto|].
    intros [|j] det; discriminate.
  - cbn [FaceTracker.spawn_loop].
    destruct (memN i md) eqn:Em.
    + destruct (IH (S i) s Hwf) as (Hl & Hk & Hnew).
      split; [assumption|]. split; [assumption|].
      intros [|j] det Hn Hj; cbn in Hn.
      * rewrite Nat.add_0_r in Hj. congruence.
      * apply (Hnew j det Hn). rewrite <- Nat.add_succ_comm in Hj. exact Hj.
    + pose proof (add_track_later fb s d Hwf) as Hl1.
      destruct (add_track_spec fb s d Hwf) as (Hwf1 & Hn1 & _).
      destruct (IH (S i) (add_track fb s d) Hwf1) as (Hl & Hk & Hnew).
      split; [eapply later_trans; eassumption|].
      split; [intros k v Hg; apply Hk, add_track_keeps; assumption|].
      intros [|j] det Hn Hj; cbn in Hn.
      * injection Hn as <-. exists (next s). split.
        -- destruct Hl as (_ & Hle & _). lia.
        -- apply Hk. apply add_track_new. assumption.
      * destruct (Hnew j det Hn) as (k & Hrange & Hg).
        { rewrite <- Nat.add_succ_comm in Hj. exact Hj. }
        exists k. split; [lia | assumption].
Qed.

Lemma refresh_tracks_later (s : state) frame dets thr :
  wf s ->
  let r := refresh_tracks s frame dets thr in
  fst r = PyDict.values (FaceTracker._tracked_faces Tracker (snd r)) /\
  later s (snd r).
Proof.
  intros Hwf. unfold FaceTracker.refresh_tracks.
  destruct dets as [|d dets].
  - split; [reflexivity | apply later_refl; assumption].
  - destruct (FaceTracker._tracked_faces Tracker s) as [|e es] eqn:Ef.
    + destruct (init_tracks_later s frame (d :: dets)) as (Hr & Hw & Hn & Hk).
      split; [assumption|]. split; [assumption|]. split; [assumption|].
      intros k Hin. right. auto.
    + destruct (match_loop (cvt frame) thr 0 (d :: dets) s [] [])
        as [[s1 mt1] md1] eqn:Em.
      destruct (match_loop_spec _ _ _ _ _ _ _ _ _ _ Hwf Em)
        as (Hw1 & Hi1 & Hn1 & _).
      destruct (spawn_loop_spec (cvt frame) md1 (d :: dets) 0 s1 Hw1)
        as ((Hw2 & Hn2 & Hk2) & _).
      cbn zeta. split; [reflexivity|].
      split; [assumption|]. split; [cbn [snd]; lia|].
      intros k Hin. cbn [snd] in Hin. rewrite Ef in Hi1.
      destruct (Hk2 k Hin) as [H|H]; [left; congruence | right; lia].
Qed.

Lemma step_later (s : state) c :
  wf s ->
  exists r s',
    FaceTracker.step Tracker cvt tinit tupdate s c = Ok (r, s') /\
    later s s' /\
    forall l, r = Some l ->
              l = PyDict.values (FaceTracker._tracked_faces Tracker s').
Proof.
  intros Hwf. destruct c as [frame dets | frame | frame dets thr |];
    cbn [FaceTracker.step].
  - destruct (init_tracks_later s frame dets) as (Hr & Hw & Hn & Hk).
    destruct (init_tracks s frame dets) as [rep s'] eqn:E. cbn [fst snd] in *.
    exists (Some rep), s'. split; [reflexivity|].
    split; [|intros l H; congruence].
    split; [assumption|]. split; [assumption|]. intros k Hin. right. auto.
  - destruct (update_spec s frame Hwf)
      as (trackers & faces & lost & _ & Hu & Hl & _).
    rewrite Hu. cbn [Py.bind fst snd]. eexists _, _. split; [reflexivity|].
    split; [exact Hl|]. intros l H. congruence.
  - destruct (refresh_tracks_later s frame dets thr Hwf) as (Hr & Hl).
    destruct (refresh_tracks s frame dets thr) as [rep s'] eqn:E.
    cbn [fst snd] in *.
    exists (Some rep), s'. split; [reflexivity|].
    split; [assumption | intros l H; congruence].
  - exists None, (FaceTracker.clear Tracker s). split; [reflexivity|].
    split; [|discriminate].
    split; [apply wf_clear|]. split; [cbn; lia|]. intros k [].
Qed.

(** Every run from a well-formed tracker goes through, ends in a later
    state, and reports only tracks whose identity was in the table at the
    start or has been issued since. *)
Lemma run_later calls :
  forall s : state,
  wf s ->
  exists reports s',
    FaceTracker.run Tracker cvt tinit tupdate s calls = Ok (reports, s') /\
    later s s' /\
    forall l f, In (Some l) reports -> In f l ->
                In (TrackedFace.tracking_id f) (ids s)
                \/ (next s <= TrackedFace.tracking_id f)%Z.
Proof.
  induction calls as [|c calls IH]; intros s Hwf.
  - exists [], s. split; [reflexivity|].
    split; [apply later_refl; assumption | intros l f []].
  - destruct (step_later s c Hwf) as (r & s1 & Hs & Hl1 & Hrep).
    destruct (IH s1 (proj1 Hl1)) as (reports & s2 & Hrun & Hl2 & Hreps).
    cbn [FaceTracker.run]. rewrite Hs. cbn [Py.bind snd fst].
    rewrite Hrun. cbn [Py.bind snd fst].
    exists (r :: reports), s2. split; [reflexivity|].
    split; [eapply later_trans; eassumption|].
    destruct Hl1 as ((_ & _ & _ & Hown) & Hn1 & Hk1).
    intros l f [Hin|Hin] Hf.
    + specialize (Hrep l Hin). subst l.
      apply in_map_iff in Hf as ([k f'] & E & Hkf). cbn in E. subst f'.
      rewrite Forall_forall in Hown. pose proof (Hown _ Hkf) as Hid.
      cbn in Hid. rewrite Hid.
      apply Hk1. apply (in_map fst) in Hkf. exact Hkf.
    + destruct (Hreps l f Hin Hf) as [H|H]; [apply Hk1; exact H | right; lia].
Qed.

Lemma reachable_wf ty m calls reports (s : state) :
  FaceTracker.run Tracker cvt tinit tupdate (FaceTracker.init Tracker ty m)
    calls = Ok (reports, s) ->
  wf s.
Proof.
  intros Hrun.
  destruct (run_later calls _ (wf_init ty m)) as (r & s' & Hr & (Hwf & _) & _).
  rewrite Hrun in Hr. injection Hr as _ <-. assumption.
Qed.

(** C6: take a tracker in any state it can reach from a fresh one and a
    track of its table whose [frames_since_detection], advanced by the
    coming [update], is over [_max_frames_lost].  That [update] returns; its
    loop marks the track lost and lists its identity; the track is not among
    the faces the call reports and is in neither table afterwards.  Whatever
    calls of [init_tracks], [update], [refresh_tracks] and [clear] follow,
    they all return, no report ever shows that identity again and no table
    holds it: the identities of the final table are in ascending order, and
    each is one that was in the table right after the sweep or is at least
    the value [_next_id] had then, a counter that never goes back. *)
Theorem lost_track_never_returns ty m (calls_before : list (FaceTracker.call))
    reports_before (s : state) (frame : ndarray.t) (id : Z)
    (tf : TrackedFace.t) (calls_after : list (FaceTracker.call))
    (Hreach : FaceTracker.run Tracker cvt tinit tupdate
                (FaceTracker.init Tracker ty m) calls_before
              = Ok (reports_before, s))
    (Hin : PyDict.get id (FaceTracker._tracked_faces Tracker s) = Some tf)
    (Hover : (FaceTracker._max_frames_lost Tracker s
              < TrackedFace.frames_since_detection tf + 1)%Z) :
  exists trackers faces lost reported s',
    update_loop (cvt frame) (FaceTracker._max_frames_lost Tracker s)
      (FaceTracker._trackers Tracker s) (FaceTracker._trackers Tracker s)
      (FaceTracker._tracked_faces Tracker s) []
    = Ok (trackers, faces, lost) /\
    (exists tf', PyDict.get id faces = Some tf' /\
                 TrackedFace.is_lost tf' = true) /\
    In id lost /\
    update s frame = Ok (reported, s') /\
    (forall f, In f reported -> TrackedFace.tracking_id f <> id) /\
    ~ In id (ids s') /\
    ~ In id (PyDict.keys (FaceTracker._trackers Tracker s')) /\
    (id < next s')%Z /\
    exists reports s_end,
      FaceTracker.run Tracker cvt tinit tupdate s' calls_after
      = Ok (reports, s_end) /\
      (forall l f, In (Some l) reports -> In f l ->
                   TrackedFace.tracking_id f <> id) /\
      ~ In id (ids s_end) /\
      (next s' <= next s_end)%Z /\
      StronglySorted Z.lt (ids s_end) /\
      (forall k, In k (ids s_end) ->
                 (In k (ids s') \/ (next s' <= k)%Z) /\ (k < next s_end)%Z).
Proof.
  pose proof (reachable_wf _ _ _ _ _ Hreach) as Hwf.
  destruct (update_spec s frame Hwf)
    as (trackers & faces & lost & Hloop & Hu & Hl & Hsub & Hlife).
  destruct (Hlife id tf Hin Hover) as (Hmark & Hlost & Hgone & Hgone').
  set (s' := FaceTracker.mk Tracker _ _ _ _ _) in *.
  assert (Hlt : (id < next s')%Z).
  { destruct Hwf as (_ & _ & Hb & _). rewrite Forall_forall in Hb.
    apply (Hb id). eapply get_in_keys. eassumption. }
  destruct Hl as (Hwf' & Hn & Hk).
  destruct (run_later calls_after s' Hwf')
    as (reports & s_end & Hrun & (Hwf_end & Hn_end & Hk_end) & Hreps).
  exists trackers, faces, lost,
    (PyDict.values (FaceTracker._tracked_faces Tracker s')), s'.
  split; [assumption|]. split; [assumption|]. split; [assumption|].
  split; [assumption|]. split; [|split; [assumption|split; [assumption|]]].
  - intros f Hf E. apply Hgone.
    apply in_map_iff in Hf as ([k f'] & Ef & Hkf). cbn in Ef. subst f'.
    destruct Hwf' as (_ & _ & _ & Hown). rewrite Forall_forall in Hown.
    pose proof (Hown _ Hkf) as Hid. cbn in Hid.
    rewrite <- E, Hid. exact (in_map fst _ _ Hkf).
  - split; [assumption|].
    exists reports, s_end. split; [assumption|]. split; [|split].
    + intros l f Hl Hf E. destruct (Hreps l f Hl Hf) as [H|H].
      * apply Hgone. congruence.
      * lia.
    + intros H. destruct (Hk_end id H) as [H'|H']; [contradiction | lia].
    + split; [assumption|]. split; [apply Hwf_end|].
      intros k Hk'. split; [auto|].
      destruct Hwf_end as (_ & _ & Hb & _). rewrite Forall_forall in Hb. auto.
Qed.

End TrackerFacts.

Lemma lost_track_never_returns_witness :
  exists reported s',
    FaceTracker.update unit Examples.bgr Examples.tracker_follows
      Examples.aged Examples.black_frame = Ok (reported, s') /\
    (forall f, In f reported -> TrackedFace.tracking_id f <> 0%Z) /\
    ~ In 0%Z (PyDict.keys (FaceTracker._tracked_faces unit s')) /\
    exists reports s_end,
      FaceTracker.run unit Examples.bgr Examples.tracker_init
        Examples.tracker_follows s' Examples.come_back
      = Ok (reports, s_end) /\
      (forall l f, In (Some l) reports -> In f l ->
                   TrackedFace.tracking_id f <> 0%Z) /\
      ~ In 0%Z (PyDict.keys (FaceTracker._tracked_faces unit s_end)).
Proof.
  destruct (lost_track_never_returns unit Examples.bgr Examples.tracker_init
              Examples.tracker_follows KCF 2%Z Examples.two_updates
              Examples.aged_reports Examples.aged Examples.black_frame 0%Z
              (TrackedFace.mk 0 (0, 0, 10, 10)%Z (1 - inject_Z 2 * (2 # 100))
                 2 false)
              Examples.come_back)
    as (trackers & faces & lost & reported & s' & _ & _ & _ & Hu & Hrep
        & Hgone & _ & _ & reports & s_end & Hrun & Hreps & Hend & _).
  - reflexivity.
  - reflexivity.
  - reflexivity.
  - exists reported, s'. split; [exact Hu|]. split; [exact Hrep|].
    split; [exact Hgone|]. exists reports, s_end.
    split; [exact Hrun|]. split; [exact Hreps | exact Hend].
Defined.

(** ** The association step *)

Lemma sorted_after (l1 l2 : list Z) (a : Z) :
  StronglySorted Z.lt (l1 ++ a :: l2) -> Forall (fun x => (a < x)%Z) l2.
Proof.
  induction l1 as [|b l1 IH]; cbn; intros H; inversion H; subst; auto.
Qed.

Section TrackerAssociation.

Variable Tracker : Type.
Variable cvt : ndarray.t -> ndarray.t.
Variable tinit : TrackerType -> ndarray.t -> BBox -> Tracker.
Variable tupdate : Tracker -> ndarray.t -> Tracker * (bool * (Q * Q * Q * Q)).

Local Abbreviation state := (FaceTracker.t Tracker).
Local Abbreviation table s := (FaceTracker._tracked_faces Tracker s).
Local Abbreviation next s := (FaceTracker._next_id Tracker s).
Local Abbreviation match_loop := (FaceTracker.match_loop Tracker tinit).
Local Abbreviation spawn_loop := (FaceTracker.spawn_loop Tracker tinit).
Local Abbreviation rebind := (FaceTracker.rebind Tracker tinit).
Local Abbreviation refresh_tracks :=
  (FaceTracker.refresh_tracks Tracker cvt tinit).
Local Abbreviation iou_of det tf :=
  (FaceTracker._calculate_iou (TrackedFace.bbox tf) det).

Lemma match_loop_app fb thr (l1 l2 : list BBox) :
  forall i (s : state) mt md,
  match_loop fb thr i (l1 ++ l2) s mt md
  = let '(s1, mt1, md1) := match_loop fb thr i l1 s mt md in
    match_loop fb thr (i + length l1) l2 s1 mt1 md1.
Proof.
  induction l1 as [|d l1 IH]; intros i s mt md; cbn [app length].
  - cbn. rewrite Nat.add_0_r. reflexivity.
  - cbn [FaceTracker.match_loop].
    rewrite <- Nat.add_succ_comm.
    destruct (FaceTracker.best_track _ mt d thr 0 None); apply IH.
Qed.

Lemma match_loop_empty fb thr (dets : list BBox) :
  forall i (s : state) mt md,
  table s = [] -> match_loop fb thr i dets s mt md = (s, mt, md).
Proof.
  induction dets as [|d dets IH]; intros i s mt md He; cbn; [reflexivity|].
  rewrite He. cbn. apply IH. assumption.
Qed.

Lemma spawn_loop_all fb (dets : list BBox) :
  forall i (s : state),
  spawn_loop fb i dets [] s
  = fold_left (FaceTracker.add_track Tracker tinit fb) dets s.
Proof.
  induction dets as [|d dets IH]; intros i s; cbn; [reflexivity | apply IH].
Qed.

(** With an empty table the early return into [init_tracks] does what the
    two loops would have done. *)
Lemma refresh_tracks_unfold (s : state) frame dets thr :
  FaceTracker.wf Tracker s -> dets <> [] ->
  refresh_tracks s frame dets thr
  = let '(s1, _, md) := match_loop (cvt frame) thr 0 dets s [] [] in
    let s2 := spawn_loop (cvt frame) 0 dets md s1 in
    (PyDict.values (table s2), s2).
Proof.
  intros Hwf Hd. unfold FaceTracker.refresh_tracks.
  destruct dets as [|d dets]; [congruence|].
  destruct (table s) as [|e es] eqn:Et; [|reflexivity].
  rewrite (match_loop_empty _ _ _ _ _ _ _ Et), spawn_loop_all.
  unfold FaceTracker.init_tracks.
  assert (Ec : FaceTracker.clear Tracker s = s).
  { destruct Hwf as (Hk & _). rewrite Et in Hk.
    destruct s as [ty mx trs fcs nx]. cbn in *. subst fcs.
    destruct trs; [reflexivity | discriminate]. }
  rewrite Ec. reflexivity.
Qed.

(** C5, as amended: [refresh_tracks] takes the detections in list order.
    When the turn of a detection comes, the candidates are the tracks not
    matched by the detections before it, with the boxes they had when the
    call began.  If some candidate has an IoU with the detection that is
    positive and at least the threshold, the detection goes to the candidate
    of highest IoU, the lower identity winning a tie; that track joins the
    matched set, so that no later detection can take it, and it ends the call
    holding the detection's box with confidence 1 and a counter of 0.
    Otherwise every candidate is below the threshold or has no overlap, and
    the call ends with a track of a new identity that holds the detection. *)
Theorem refresh_tracks_association ty m
    (calls_before : list FaceTracker.call) reports_before (s : state)
    (frame : ndarray.t) (thr : Q) (pre : list BBox) (det : BBox)
    (post : list BBox)
    (Hreach : FaceTracker.run Tracker cvt tinit tupdate
                (FaceTracker.init Tracker ty m) calls_before
              = Ok (reports_before, s)) :
  let detections := pre ++ det :: post in
  let before := match_loop (cvt frame) thr 0 pre s [] [] in
  let s_i := fst (fst before) in
  let matched := snd (fst before) in
  let s' := snd (refresh_tracks s frame detections thr) in
  fst (refresh_tracks s frame detections thr) = PyDict.values (table s') /\
  (forall k, ~ In k matched ->
             PyDict.get k (table s_i) = PyDict.get k (table s)) /\
  match FaceTracker.best_track (table s_i) matched det thr 0 None with
  | Some t =>
      ~ In t matched /\
      match_loop (cvt frame) thr 0 (pre ++ [det]) s [] []
      = (rebind (cvt frame) s_i t det, matched ++ [t],
         snd before ++ [length pre]) /\
      exists tf,
        PyDict.get t (table s) = Some tf /\
        thr <= iou_of det tf /\ 0 < iou_of det tf /\
        (forall k' tf',
           PyDict.get k' (table s) = Some tf' -> ~ In k' matched ->
           iou_of det tf' <= iou_of det tf /\
           (iou_of det tf' == iou_of det tf -> (t <= k')%Z)) /\
        PyDict.get t (table s')
        = Some (TrackedFace.mk (TrackedFace.tracking_id tf) det 1 0
                  (TrackedFace.is_lost tf))
  | None =>
      match_loop (cvt frame) thr 0 (pre ++ [det]) s [] [] = before /\
      (forall k' tf',
         PyDict.get k' (table s) = Some tf' -> ~ In k' matched ->
         iou_of det tf' < thr \/ iou_of det tf' <= 0) /\
      exists k,
        (next s <= k < next s')%Z /\
        PyDict.get k (table s') = Some (TrackedFace.new k det 1)
  end.
Proof.
  cbv zeta.
  pose proof (reachable_wf _ _ _ _ _ _ _ _ _ Hreach) as Hwf.
  assert (Hne : pre ++ det :: post <> []) by (destruct pre; discriminate).
  rewrite (refresh_tracks_unfold s frame (pre ++ det :: post) thr Hwf Hne).
  rewrite !match_loop_app.
  destruct (match_loop (cvt frame) thr 0 pre s [] [])
    as [[s_i mt_i] md_i] eqn:Epre.
  cbn [fst snd].
  destruct (match_loop_spec _ _ _ _ _ _ _ _ _ _ _ _ Hwf Epre)
    as (Hwf_i & Hids_i & Hn_i & _ & _ & Hj_i & Hget_i).
  cbn [Nat.add] in *.
  assert (Hnd_i : NoDup (PyDict.keys (table s_i)))
    by (apply sorted_nodup, Hwf_i).
  cbn [FaceTracker.match_loop].
  pose proof (best_track_spec mt_i det thr (table s_i) 0 None) as Hbest.
  cbn zeta in Hbest.
  destruct (FaceTracker.best_track (table s_i) mt_i det thr 0 None)
    as [t|] eqn:Eb.
  - (* the detection is matched with the track [t] *)
    destruct Hbest as [[Hr _] | (ipre & k & tf & ipost & Eitems & Hr & Hun
                                 & Hpos & Hthr & Hbefore & Hafter)];
      [discriminate|].
    injection Hr as <-. apply memZ_not_in in Hun.
    assert (Hin_i : In (t, tf) (table s_i))
      by (rewrite Eitems; apply in_app_iff; right; left; reflexivity).
    assert (Hg_i : PyDict.get t (table s_i) = Some tf)
      by (apply in_get_nodup; assumption).
    assert (Hkey : In t (PyDict.keys (table s_i)))
      by (eapply get_in_keys; eassumption).
    destruct (rebind_spec _ tinit (cvt frame) s_i t det Hwf_i Hkey)
      as (Hwf_r & _ & Hn_r & Hnew & _).
    destruct (match_loop (cvt frame) thr (S (length pre)) post
                (rebind (cvt frame) s_i t det) (mt_i ++ [t])
                (md_i ++ [length pre])) as [[s1 mt1] md1] eqn:Epost.
    destruct (match_loop_spec _ _ _ _ _ _ _ _ _ _ _ _ Hwf_r Epost)
      as (Hwf1 & _ & Hn1 & _ & _ & _ & Hget1).
    destruct (spawn_loop_spec _ tinit (cvt frame) md1 (pre ++ det :: post)
                0 s1 Hwf1) as (_ & Hkeep & _).
    cbn [fst snd].
    split; [reflexivity|]. split; [intros k Hk; apply Hget_i; auto|].
    split; [assumption|]. split; [reflexivity|].
    exists tf. split; [rewrite <- Hget_i by auto; assumption|].
    split; [assumption|]. split; [assumption|]. split.
    + intros k' tf' Hg' Hun'.
      rewrite <- Hget_i in Hg' by auto.
      pose proof (get_some_in _ _ _ Hg') as Hin'.
      rewrite Eitems in Hin'. apply in_app_iff in Hin'.
      destruct Hin' as [Hin' | [Heq | Hin']].
      * pose proof (Hbefore k' tf' Hin' (proj2 (memZ_not_in _ _) Hun')).
        split; lra.
      * injection Heq as <- <-. split; [apply Qle_refl | intros _; lia].
      * split; [apply (Hafter k' tf');
                 [assumption | apply memZ_not_in; assumption]|].
        intros _.
        assert (Hs : StronglySorted Z.lt (PyDict.keys (table s_i)))
          by apply Hwf_i.
        rewrite Eitems, keys_app in Hs. cbn in Hs.
        apply sorted_after in Hs. rewrite Forall_forall in Hs.
        apply Z.lt_le_incl. apply Hs.
        exact (in_map fst _ _ Hin').
    + apply Hkeep. rewrite Hget1.
      * apply Hnew. assumption.
      * left. apply in_app_iff. right. left. reflexivity.
  - (* the detection is left unmatched *)
    destruct Hbest as [[_ Hall] | (ipre & k & tf & ipost & _ & Hr & _)];
      [|discriminate].
    destruct (match_loop (cvt frame) thr (S (length pre)) post s_i mt_i md_i)
      as [[s1 mt1] md1] eqn:Epost.
    destruct (match_loop_spec _ _ _ _ _ _ _ _ _ _ _ _ Hwf_i Epost)
      as (Hwf1 & _ & Hn1 & _ & _ & Hj1 & _).
    destruct (spawn_loop_spec _ tinit (cvt frame) md1 (pre ++ det :: post)
                0 s1 Hwf1) as (_ & _ & Hspawn).
    cbn [fst snd].
    split; [reflexivity|]. split; [intros k Hk; apply Hget_i; auto|].
    split; [reflexivity|]. split.
    + intros k' tf' Hg' Hun'.
      rewrite <- Hget_i in Hg' by auto.
      pose proof (get_some_in _ _ _ Hg') as Hin'.
      destruct (Hall k' tf' Hin' (proj2 (memZ_not_in _ _) Hun')); auto.
    + destruct (Hspawn (length pre) det) as (k & Hrange & Hg).
      * rewrite nth_error_app2 by lia. rewrite Nat.sub_diag. reflexivity.
      * apply memN_not_in. cbn [Nat.add]. intros Hin.
        destruct (Hj1 _ Hin) as [H|H]; [|lia].
        destruct (Hj_i _ H) as [[]|H']. lia.
      * exists k. split; [lia | assumption].
Qed.

End TrackerAssociation.

Lemma refresh_tracks_association_witness :
  let s' :=
    snd (FaceTracker.refresh_tracks unit Examples.bgr Examples.tracker_init
           Examples.one_track Examples.black_frame Examples.half_then_whole
           (3 # 10)) in
  PyDict.get 0%Z (FaceTracker._tracked_faces unit s')
  = Some (TrackedFace.mk 0 (0, 0, 10, 5)%Z 1 0 false) /\
  exists k,
    (1 <= k)%Z /\
    PyDict.get k (FaceTracker._tracked_faces unit s')
    = Some (TrackedFace.new k (0, 0, 10, 10)%Z 1).
Proof.
  pose (before := [FaceTracker.CallInitTracks Examples.black_frame
                     [(0, 0, 10, 10)%Z]]).
  pose (reports :=
          [Some (fst (FaceTracker.init_tracks unit Examples.bgr
                        Examples.tracker_init (FaceTracker.init unit KCF 30)
                        Examples.black_frame [(0, 0, 10, 10)%Z]))]).
  split.
  - destruct (refresh_tracks_association unit Examples.bgr
                Examples.tracker_init Examples.tracker_follows KCF 30%Z
                before reports Examples.one_track Examples.black_frame
                (3 # 10) [] (0, 0, 10, 5)%Z [(0, 0, 10, 10)%Z]
                eq_refl) as (_ & _ & Hturn).
    cbn in Hturn.
    destruct Hturn as (_ & _ & tf & Htf & _ & _ & _ & Hend).
    injection Htf as <-. exact Hend.
  - destruct (refresh_tracks_association unit Examples.bgr
                Examples.tracker_init Examples.tracker_follows KCF 30%Z
                before reports Examples.one_track Examples.black_frame
                (3 # 10) [(0, 0, 10, 5)%Z] (0, 0, 10, 10)%Z []
                eq_refl) as (_ & _ & Hturn).
    cbn in Hturn.
    destruct Hturn as (_ & _ & k & [Hk _] & Hend).
    exists k. split; [exact Hk | exact Hend].
Defined.

(** C5, as stated, fails: a track at (0,0,10,10) and the detections
    (0,0,10,5) and (0,0,10,10), in that order, at the threshold 0.3.  The
    pair of highest IoU is the track with the second detection (IoU 1), which
    is what the greedy association of the specification assigns;
    [refresh_tracks] gives the track to the first detection (IoU 1/2). *)
Lemma refresh_tracks_not_highest_pair_first :
  ~ (FaceTracker.matched_pairs unit Examples.bgr Examples.tracker_init
       Examples.one_track Examples.black_frame Examples.half_then_whole
       (3 # 10)
     = AssociationSpec.greedy
         (map (fun kv => (fst kv, TrackedFace.bbox (snd kv)))
              (FaceTracker._tracked_faces unit Examples.one_track))
         Examples.half_then_whole (3 # 10)).
Proof.
  vm_compute. discriminate.
Qed.

(** * Further properties of the code *)

(** The cases of every [min] and [max] of the goal and of the hypotheses. *)
Ltac py_cases :=
  repeat match goal with
  | |- context [Py.max ?a ?b] =>
      let H := fresh "Hmax" in
      destruct (pymax_cases a b) as [[? H] | [? H]]; rewrite H in *; clear H
  | |- context [Py.min ?a ?b] =>
      let H := fresh "Hmin" in
      destruct (pymin_cases a b) as [[? H] | [? H]]; rewrite H in *; clear H
  | _ : context [Py.max ?a ?b] |- _ =>
      let H := fresh "Hmax" in
      destruct (pymax_cases a b) as [[? H] | [? H]]; rewrite H in *; clear H
  | _ : context [Py.min ?a ?b] |- _ =>
      let H := fresh "Hmin" in
      destruct (pymin_cases a b) as [[? H] | [? H]]; rewrite H in *; clear H
  end.

(** ** Geometry *)

(** X1: [lerp] leaves a region where it is when the factor is 0, and, for
    any factor, when the target is the region itself: a crop that has reached
    its target is not moved by the interpolation. *)
Theorem lerp_fixed_points (a b : CropRegion.t) (s : Q) :
  (CropRegion.x (CropRegion.lerp a b 0) == CropRegion.x a /\
   CropRegion.y (CropRegion.lerp a b 0) == CropRegion.y a /\
   CropRegion.width (CropRegion.lerp a b 0) == CropRegion.width a /\
   CropRegion.height (CropRegion.lerp a b 0) == CropRegion.height a) /\
  (CropRegion.x (CropRegion.lerp a a s) == CropRegion.x a /\
   CropRegion.y (CropRegion.lerp a a s) == CropRegion.y a /\
   CropRegion.width (CropRegion.lerp a a s) == CropRegion.width a /\
   CropRegion.height (CropRegion.lerp a a s) == CropRegion.height a).
Proof.
  unfold CropRegion.lerp; cbn [CropRegion.x CropRegion.y CropRegion.width
    CropRegion.height].
  repeat split; ring.
Qed.

(** [clamp] hands back, up to numeric equality, a region whose left and
    top edges are not negative and whose right and bottom edges are within
    the frame. *)
Lemma clamp_fixes (r : CropRegion.t) :
  CropRegion.within_unit r ->
  CropRegion.x (CropRegion.clamp r) == CropRegion.x r /\
  CropRegion.y (CropRegion.clamp r) == CropRegion.y r /\
  CropRegion.width (CropRegion.clamp r) == CropRegion.width r /\
  CropRegion.height (CropRegion.clamp r) == CropRegion.height r.
Proof.
  unfold CropRegion.within_unit, CropRegion.clamp;
    cbn [CropRegion.x CropRegion.y CropRegion.width CropRegion.height].
  intros (Hx & Hy & Hr & Hb).
  repeat split; py_cases; lra.
Qed.

(** X2: [clamp] is idempotent: clamping a clamped region changes none of
    its four fields. *)
Theorem clamp_idempotent (r : CropRegion.t) :
  let c := CropRegion.clamp r in
  CropRegion.x (CropRegion.clamp c) == CropRegion.x c /\
  CropRegion.y (CropRegion.clamp c) == CropRegion.y c /\
  CropRegion.width (CropRegion.clamp c) == CropRegion.width c /\
  CropRegion.height (CropRegion.clamp c) == CropRegion.height c.
Proof.
  intros c. apply clamp_fixes. apply clamp_within_unit.
Qed.

(** ** The engine over its calls *)

Section EngineFacts.

Import CenterStageEngine.








Lemma div_zero (a b : Q) : b == 0 -> Py.div a b = Raise ZeroDivisionError.
Proof.
  intros H. unfold Py.div. apply Qeq_bool_iff in H. rewrite H. reflexivity.
Qed.

(** Every division of [_target_before_clamp], taken apart. *)
Ltac div_cases :=
  repeat (cbn [Py.bind];
    match goal with
    | |- context [if Qlt_le_dec ?a ?b then _ else _] =>
        destruct (Qlt_le_dec a b)
    | |- context [Py.div ?a ?b] =>
        first [ rewrite (div_ok a b) by (assumption || lra)
              | rewrite (div_zero a b) by (assumption || lra)
              | let E := fresh "E" in
                destruct (Qeq_dec b 0) as [E|E];
                [rewrite (div_zero a b E) | rewrite (div_ok a b E)] ]
    end).

(** X5: with the engine enabled, a detection result that has faces and a
    configuration whose aspect ratio, [min_zoom] and [max_zoom] are not zero,
    [update] returns: the target is the crop that [_calculate_target_crop]
    computes, [is_tracking] is true and [frames_without_face] is back to 0,
    whatever they were. *)
Theorem update_with_faces (e : CenterStageEngine.t) (dr : DetectionResult.t)
    (Hen : CenterStageConfig.enabled (config e) = true)
    (Hfaces : DetectionResult.faces dr <> [])
    (Hratio : ~ CenterStageConfig.aspect_ratio (config e) == 0)
    (Hmin : ~ CenterStageConfig.min_zoom (config e) == 0)
    (Hmax : ~ CenterStageConfig.max_zoom (config e) == 0) :
  exists target,
    _calculate_target_crop e dr = Ok target /\
    let e' := snd (update e dr) in
    config e' = config e /\
    CenterStageState.target_crop (_state e') = target /\
    is_tracking e' = true /\
    CenterStageState.frames_without_face (_state e') = 0%Z /\
    fst (update e dr) = Ok (current_crop e').
Proof.
  destruct (faces_to_frame_nonempty (config e) dr Hfaces) as (faces & Hsel & Hne).
  assert (Hpre : exists pre, _target_before_clamp (config e) faces = Ok pre).
  { destruct faces as [|f fs]; [congruence|].
    unfold _target_before_clamp. cbn [map Py.min_of Py.max_of Py.bind].
    div_cases; eexists; reflexivity. }
  destruct Hpre as [pre Hpre].
  exists (CropRegion.clamp pre).
  assert (Ht : _calculate_target_crop e dr = Ok (CropRegion.clamp pre)).
  { unfold _calculate_target_crop. rewrite Hsel, Hpre. reflexivity. }
  split; [assumption|].
  unfold update. rewrite Hen. cbn [negb].
  assert (Hhas : DetectionResult.has_faces dr = true).
  { unfold DetectionResult.has_faces.
    destruct (DetectionResult.faces dr); [congruence | reflexivity]. }
  rewrite Hhas, Ht. cbn. repeat split.
Qed.

Lemma update_with_faces_witness :
  let e := CenterStageEngine.mk Examples.fixture_config
             (CenterStageState.mk Examples.quarter CropRegion.full_frame 40
                false) in
  exists target,
    _calculate_target_crop e Examples.one_face = Ok target /\
    let e' := snd (update e Examples.one_face) in
    config e' = config e /\
    CenterStageState.target_crop (_state e') = target /\
    is_tracking e' = true /\
    CenterStageState.frames_without_face (_state e') = 0%Z /\
    fst (update e Examples.one_face) = Ok (current_crop e').
Proof.
  apply (update_with_faces
           (CenterStageEngine.mk Examples.fixture_config
              (CenterStageState.mk Examples.quarter CropRegion.full_frame 40
                 false)) Examples.one_face);
    [reflexivity | discriminate | cbn; lra | cbn; lra | cbn; lra].
Defined.

(** X6: with the engine enabled and a detection result that has faces, a
    configuration whose [min_zoom] or [max_zoom] is zero makes [update] raise
    [ZeroDivisionError]; the engine is left as it was. *)
Theorem update_zero_division (e : CenterStageEngine.t)
    (dr : DetectionResult.t)
    (Hen : CenterStageConfig.enabled (config e) = true)
    (Hfaces : DetectionResult.faces dr <> [])
    (Hzero : CenterStageConfig.min_zoom (config e) == 0 \/
             CenterStageConfig.max_zoom (config e) == 0) :
  update e dr = (Raise ZeroDivisionError, e).
Proof.
  destruct (faces_to_frame_nonempty (config e) dr Hfaces) as (faces & Hsel & Hne).
  assert (Hpre : _target_before_clamp (config e) faces
                 = Raise ZeroDivisionError).
  { destruct faces as [|f fs]; [congruence|].
    unfold _target_before_clamp. cbn [map Py.min_of Py.max_of Py.bind].
    destruct Hzero as [H | H]; div_cases; try reflexivity;
      exfalso; first [solve [auto] | lra]. }
  unfold update. rewrite Hen. cbn [negb].
  assert (Hhas : DetectionResult.has_faces dr = true).
  { unfold DetectionResult.has_faces.
    destruct (DetectionResult.faces dr); [congruence | reflexivity]. }
  rewrite Hhas. unfold _calculate_target_crop. rewrite Hsel, Hpre. reflexivity.
Qed.

Lemma update_zero_division_witness :
  let e := CenterStageEngine.init (Some Examples.zero_zoom_config) in
  update e Examples.one_face = (Raise ZeroDivisionError, e).
Proof.
  apply (update_zero_division
           (CenterStageEngine.init (Some Examples.zero_zoom_config))
           Examples.one_face);
    [reflexivity | discriminate | right; reflexivity].
Defined.

End EngineFacts.

Section EngineMotion.

Import CenterStageEngine.

(** X7: with a positive dead zone, [_smooth_transition] toward the crop
    it is at returns that crop itself: the three distances are 0, below the
    dead zone, and neither [lerp] nor [clamp] is applied.  An engine whose
    current crop has reached its target stays where it is. *)
Theorem smooth_transition_at_rest (e : CenterStageEngine.t)
    (c : CropRegion.t)
    (Hdz : 0 < CenterStageConfig.dead_zone (config e)) :
  _smooth_transition e c c = c.
Proof.
  unfold _smooth_transition.
  destruct (Qlt_le_dec _ _) as [Hin | Hout]; [reflexivity|].
  exfalso. unfold Py.abs in Hout.
  assert (Hz : forall q : Q, Qabs (q - q) == 0).
  { intros q. assert (E : q - q == 0) by ring. rewrite E. reflexivity. }
  rewrite !Hz in Hout. lra.
Qed.

Lemma smooth_transition_at_rest_witness :
  _smooth_transition (CenterStageEngine.init (Some Examples.fixture_config))
    Examples.centre_half Examples.centre_half
  = Examples.centre_half.
Proof.
  apply (smooth_transition_at_rest
           (CenterStageEngine.init (Some Examples.fixture_config))
           Examples.centre_half).
  reflexivity.
Defined.

(** The widths that [update] keeps between [1/max_zoom] and 1. *)
Lemma target_width_range (e : CenterStageEngine.t) (dr : DetectionResult.t)
    (c : CropRegion.t) :
  0 < CenterStageConfig.aspect_ratio (config e) ->
  1 <= CenterStageConfig.min_zoom (config e) ->
  CenterStageConfig.min_zoom (config e)
  <= CenterStageConfig.max_zoom (config e) ->
  _calculate_target_crop e dr = Ok c ->
  1 / CenterStageConfig.max_zoom (config e) <= CropRegion.width c <= 1.
Proof.
  intros Hr Hmin Hmax Hc. unfold _calculate_target_crop in Hc.
  assert (Hpos : 0 < 1 / CenterStageConfig.max_zoom (config e) <= 1).
  { unfold Qdiv. rewrite Qmult_1_l. apply Qinv_le_1. lra. }
  destruct (_faces_to_frame (config e) dr) as [faces|] eqn:Ef.
  - assert (Hne : faces <> []).
    { unfold _faces_to_frame in Ef.
      destruct (FramingMode_eqb _ _).
      - destruct (DetectionResult.primary_face dr); [|discriminate].
        injection Ef as <-. discriminate.
      - injection Ef as <-. intros E.
        unfold _target_before_clamp in Hc. rewrite E in Hc. discriminate. }
    destruct (target_before_clamp_shape (config e) faces Hne Hr)
      as (pre & Hpre & Hlo & Hhi & _); [lra | assumption |].
    rewrite Hpre in Hc. cbn in Hc. injection Hc as <-.
    assert (Hle1 : 1 / CenterStageConfig.min_zoom (config e) <= 1).
    { unfold Qdiv. rewrite Qmult_1_l. apply Qinv_le_1. assumption. }
    rewrite clamp_width_le1 by lra. lra.
  - injection Hc as <-. cbn. lra.
Qed.

Lemma update_widths (e : CenterStageEngine.t) (dr : DetectionResult.t) :
  0 <= CenterStageConfig.smoothing (config e) <= 1 ->
  0 < CenterStageConfig.aspect_ratio (config e) ->
  1 <= CenterStageConfig.min_zoom (config e) ->
  CenterStageConfig.min_zoom (config e)
  <= CenterStageConfig.max_zoom (config e) ->
  let lo := 1 / CenterStageConfig.max_zoom (config e) in
  lo <= CropRegion.width (current_crop e) <= 1 ->
  lo <= CropRegion.width (CenterStageState.target_crop (_state e)) <= 1 ->
  let e' := snd (update e dr) in
  config e' = config e /\
  lo <= CropRegion.width (current_crop e') <= 1 /\
  lo <= CropRegion.width (CenterStageState.target_crop (_state e')) <= 1.
Proof.
  intros Hs Hr Hmin Hmax lo Hc Ht.
  assert (Hlo : 0 < lo <= 1).
  { subst lo. unfold Qdiv. rewrite Qmult_1_l. apply Qinv_le_1. lra. }
  assert (Hmove : forall tgt,
            lo <= CropRegion.width tgt <= 1 ->
            lo <= CropRegion.width
                    (_smooth_transition e (current_crop e) tgt) <= 1).
  { intros tgt Htgt. unfold _smooth_transition.
    destruct (Qlt_le_dec _ _); [assumption|].
    rewrite clamp_width_le1; cbn [CropRegion.lerp CropRegion.width]; nra. }
  unfold update. destruct (negb _); [cbn; auto|].
  destruct (DetectionResult.has_faces dr).
  - destruct (_calculate_target_crop e dr) as [tc|ex] eqn:Et; cbn; [|auto].
    pose proof (target_width_range e dr tc Hr Hmin Hmax Et) as Htc.
    fold lo in Htc. split; [reflexivity|]. split; [apply Hmove|]; assumption.
  - destruct (_ <=? _)%Z; cbn.
    + split; [reflexivity|]. split; [apply Hmove|]; cbn; lra.
    + split; [reflexivity|]. split; [apply Hmove|]; assumption.
Qed.

(** X8: start an engine on a configuration with a smoothing factor between
    0 and 1, a positive aspect ratio and [1 <= min_zoom <= max_zoom <= 1000],
    and call [update] any number of times with any detection results: the
    width of the current crop stays above 0 and at most 1, so [zoom_level]
    never raises, and the zoom it reports is at least 1.  (The bound of 1000
    keeps the widths far above the rounding unit of the floats.) *)
Theorem zoom_level_in_range (cfg : CenterStageConfig.t)
    (results : list DetectionResult.t)
    (Hs : 0 <= CenterStageConfig.smoothing cfg <= 1)
    (Hr : 0 < CenterStageConfig.aspect_ratio cfg)
    (Hmin : 1 <= CenterStageConfig.min_zoom cfg)
    (Hmax : CenterStageConfig.min_zoom cfg <= CenterStageConfig.max_zoom cfg)
    (Hcap : CenterStageConfig.max_zoom cfg <= 1000) :
  let e := run (init (Some cfg)) (map CallUpdate results) in
  0 < CropRegion.width (current_crop e) <= 1 /\
  exists z, zoom_level e = Ok z /\ 1 <= z.
Proof.
  intros e.
  set (lo := 1 / CenterStageConfig.max_zoom cfg).
  assert (Hlo : 0 < lo <= 1).
  { subst lo. unfold Qdiv. rewrite Qmult_1_l. apply Qinv_le_1. lra. }
  assert (Hinv : config e = cfg /\
                 lo <= CropRegion.width (current_crop e) <= 1 /\
                 lo <= CropRegion.width
                         (CenterStageState.target_crop (_state e)) <= 1).
  { subst e. unfold run.
    assert (H0 : config (init (Some cfg)) = cfg /\
                 lo <= CropRegion.width (current_crop (init (Some cfg))) <= 1 /\
                 lo <= CropRegion.width
                         (CenterStageState.target_crop
                            (_state (init (Some cfg)))) <= 1)
      by (cbn; repeat split; lra).
    revert H0. generalize (init (Some cfg)).
    induction results as [|dr results IH]; intros e0 (Hcfg & Hc & Ht); cbn;
      [auto|].
    apply IH. subst cfg.
    destruct (update_widths e0 dr Hs Hr Hmin Hmax Hc Ht) as (H1 & H2 & H3).
    rewrite H1. auto. }
  destruct Hinv as (Hcfg & [Hc1 Hc2] & _).
  set (w := CropRegion.width (current_crop e)) in *.
  split; [lra|].
  exists (1 / w). unfold zoom_level. fold w.
  rewrite div_ok by lra. split; [reflexivity|].
  assert (Hw : 0 < w) by lra.
  assert (E1 : w * / w == 1) by (apply Qmult_inv_r; lra).
  pose proof (Qinv_lt_0_compat w Hw) as Hiw.
  unfold Qdiv. rewrite Qmult_1_l. nra.
Qed.

Lemma zoom_level_in_range_witness :
  let e := run (init (Some Examples.fixture_config))
             (map CallUpdate [Examples.one_face; Examples.no_faces]) in
  0 < CropRegion.width (current_crop e) <= 1 /\
  exists z, zoom_level e = Ok z /\ 1 <= z.
Proof.
  apply (zoom_level_in_range Examples.fixture_config
           [Examples.one_face; Examples.no_faces]); cbn; lra.
Defined.

(** X9: whatever values they are given, [set_zoom_range] leaves
    [1 <= min_zoom <= max_zoom] and [set_smoothing] leaves a smoothing factor
    between 0.01 and 0.5; neither touches the crops or the counters. *)
Theorem setters_keep_ranges (e : CenterStageEngine.t) (lo hi value : Q) :
  (let e' := set_zoom_range e lo hi in
   1 <= CenterStageConfig.min_zoom (config e') /\
   CenterStageConfig.min_zoom (config e')
   <= CenterStageConfig.max_zoom (config e') /\
   _state e' = _state e) /\
  (let e' := set_smoothing e value in
   (1 # 100) <= CenterStageConfig.smoothing (config e') /\
   CenterStageConfig.smoothing (config e') <= (1 # 2) /\
   _state e' = _state e).
Proof.
  unfold set_zoom_range, set_smoothing; cbn.
  repeat split; py_cases; lra.
Qed.

End EngineMotion.

(** ** The compositor's bounds *)

Lemma maxZ_max (a b : Z) : Py.maxZ a b = Z.max a b.
Proof. unfold Py.maxZ. destruct (Z.ltb_spec a b); lia. Qed.

Lemma minZ_min (a b : Z) : Py.minZ a b = Z.min a b.
Proof. unfold Py.minZ. destruct (Z.ltb_spec b a); lia. Qed.

Lemma int_nonneg (q : Q) : 0 <= q -> (0 <= Py.int q)%Z.
Proof.
  intros H. unfold Py.int. apply Z.quot_pos; [|lia].
  unfold Qle in H. cbn in H. lia.
Qed.

Lemma int_scaled_nonneg (q : Q) (n : Z) :
  0 <= q -> (0 <= n)%Z -> (0 <= Py.int (q * inject_Z n))%Z.
Proof.
  intros Hq Hn. apply int_nonneg.
  apply Qmult_le_0_compat; [assumption|].
  unfold Qle. cbn. lia.
Qed.

Lemma int_scaled_zero (q : Q) : Py.int (q * inject_Z 0) = 0%Z.
Proof.
  unfold Py.int. cbn. rewrite Z.mul_0_r. apply Z.quot_0_l. lia.
Qed.

(** X10: for a frame of any size and a crop of non-negative width and
    height, placed anywhere, the rectangle that [apply_crop] cuts out after
    "Ensure valid bounds" lies inside the frame; the array handed to the
    resizer has exactly that rectangle's height and width and holds the
    frame's pixels from its corner on; and that array is empty exactly when
    the crop's pixel width or pixel height is zero. *)
Theorem apply_crop_rectangle (e : CenterStageEngine.t) (frame : ndarray.t)
    (crop : CropRegion.t) (x y cw ch : Z)
    (Hrows : (0 <= ndarray.rows frame)%Z)
    (Hcols : (0 <= ndarray.cols frame)%Z)
    (Hw : 0 <= CropRegion.width crop)
    (Hh : 0 <= CropRegion.height crop)
    (Hpx : CenterStageEngine.pixel_bounds (ndarray.shape frame) crop
           = (x, y, cw, ch)) :
  let cropped := CenterStageEngine.cropped_region e frame (Some crop) in
  (0 <= x /\ 0 <= cw /\ x + cw <= ndarray.cols frame)%Z /\
  (0 <= y /\ 0 <= ch /\ y + ch <= ndarray.rows frame)%Z /\
  ndarray.shape cropped = (ch, cw) /\
  (forall i j,
     ndarray.at_ cropped i j = ndarray.at_ frame (y + i)%Z (x + j)%Z) /\
  (ndarray.is_empty cropped = true <->
   Py.int (CropRegion.width crop * inject_Z (ndarray.cols frame)) = 0%Z \/
   Py.int (CropRegion.height crop * inject_Z (ndarray.rows frame)) = 0%Z).
Proof.
  intros cropped. subst cropped.
  unfold CenterStageEngine.cropped_region, CenterStageEngine.pixel_bounds in *.
  destruct frame as [H W px].
  cbn [ndarray.shape ndarray.rows ndarray.cols] in *.
  unfold CropRegion.to_pixels in *.
  pose proof (int_scaled_nonneg _ W Hw Hcols) as Hcw0.
  pose proof (int_scaled_nonneg _ H Hh Hrows) as Hch0.
  assert (HW0 : W = 0%Z ->
                Py.int (CropRegion.width crop * inject_Z W) = 0%Z)
    by (intros ->; apply int_scaled_zero).
  assert (HH0 : H = 0%Z ->
                Py.int (CropRegion.height crop * inject_Z H) = 0%Z)
    by (intros ->; apply int_scaled_zero).
  set (x0 := Py.int (CropRegion.x crop * inject_Z W)) in *.
  set (y0 := Py.int (CropRegion.y crop * inject_Z H)) in *.
  set (cw0 := Py.int (CropRegion.width crop * inject_Z W)) in *.
  set (ch0 := Py.int (CropRegion.height crop * inject_Z H)) in *.
  rewrite !maxZ_max, !minZ_min in *.
  injection Hpx as <- <- <- <-.
  unfold ndarray.slice, ndarray.is_empty, ndarray.shape, Py.slice_bound.
  cbn [ndarray.rows ndarray.cols ndarray.at_].
  repeat match goal with
  | |- context [(?a <? 0)%Z] => destruct (Z.ltb_spec a 0); [lia|]
  end.
  set (x1 := Z.max 0 (Z.min x0 (W - cw0))).
  set (y1 := Z.max 0 (Z.min y0 (H - ch0))).
  set (cw1 := Z.min cw0 (W - x1)).
  set (ch1 := Z.min ch0 (H - y1)).
  assert (Hx1 : (0 <= x1 /\ 0 <= cw1 /\ x1 + cw1 <= W)%Z)
    by (subst cw1 x1; lia).
  assert (Hy1 : (0 <= y1 /\ 0 <= ch1 /\ y1 + ch1 <= H)%Z)
    by (subst ch1 y1; lia).
  assert (Ecw : (cw1 = 0 <-> cw0 = 0)%Z) by (subst cw1 x1; lia).
  assert (Ech : (ch1 = 0 <-> ch0 = 0)%Z) by (subst ch1 y1; lia).
  clearbody cw1 ch1 x1 y1. clearbody x0 y0 cw0 ch0. clear HW0 HH0 Hw Hh.
  split; [lia|]. split; [lia|]. split; [f_equal; lia|].
  split; [intros i j; f_equal; lia|].
  rewrite orb_true_iff, !Z.leb_le. lia.
Qed.

Lemma apply_crop_rectangle_witness :
  let cropped :=
    CenterStageEngine.cropped_region (CenterStageEngine.init None)
      Examples.black_frame (Some Examples.overhang) in
  ndarray.shape cropped = (240, 320)%Z /\
  (forall i j,
     ndarray.at_ cropped i j
     = ndarray.at_ Examples.black_frame (120 + i)%Z (320 + j)%Z).
Proof.
  intros cropped.
  destruct (apply_crop_rectangle (CenterStageEngine.init None)
              Examples.black_frame Examples.overhang
              320%Z 120%Z 320%Z 240%Z)
    as (_ & _ & Hshape & Hat & _);
    [cbn; lia | cbn; lia | cbn; lra | cbn; lra | reflexivity |].
  split; [exact Hshape | exact Hat].
Defined.

(** ** Detection results *)

Lemma largest_first (rest : list FaceDetection.t) :
  forall (best : FaceDetection.t) (pre0 mid : list FaceDetection.t),
  (forall g, In g pre0 -> FaceDetection.area g < FaceDetection.area best) ->
  (forall g, In g mid -> FaceDetection.area g <= FaceDetection.area best) ->
  let p := fold_left
             (fun best g =>
                if Qlt_le_dec (FaceDetection.area best) (FaceDetection.area g)
                then g else best) rest best in
  exists pre post,
    pre0 ++ best :: mid ++ rest = pre ++ p :: post /\
    (forall g, In g pre -> FaceDetection.area g < FaceDetection.area p) /\
    (forall g, In g post -> FaceDetection.area g <= FaceDetection.area p).
Proof.
  induction rest as [|g rest IH]; intros best pre0 mid Hpre Hmid; cbn zeta.
  - exists pre0, mid. rewrite app_nil_r. auto.
  - cbn [fold_left].
    destruct (Qlt_le_dec (FaceDetection.area best) (FaceDetection.area g))
      as [Hlt|Hle].
    + destruct (IH g (pre0 ++ best :: mid) []) as (pre & post & E & H1 & H2).
      * intros h Hh. apply in_app_iff in Hh. destruct Hh as [Hh|[<-|Hh]].
        -- pose proof (Hpre h Hh). lra.
        -- assumption.
        -- pose proof (Hmid h Hh). lra.
      * intros h [].
      * exists pre, post. split; [|auto].
        rewrite <- E. rewrite <- app_assoc. reflexivity.
    + destruct (IH best pre0 (mid ++ [g])) as (pre & post & E & H1 & H2).
      * assumption.
      * intros h Hh. apply in_app_iff in Hh.
        destruct Hh as [Hh|[<-|[]]]; [auto | assumption].
      * exists pre, post. split; [|auto].
        rewrite <- E. rewrite <- app_assoc. reflexivity.
Qed.

(** X11: [primary_face] is [None] exactly for a result without faces;
    otherwise it is one of the faces, no face has a larger area, and every face
    listed before it has a strictly smaller one: among the largest it is the
    first. *)
Theorem primary_face_largest (r : DetectionResult.t) :
  (DetectionResult.primary_face r = None <-> DetectionResult.faces r = []) /\
  forall p,
    DetectionResult.primary_face r = Some p ->
    exists pre post,
      DetectionResult.faces r = pre ++ p :: post /\
      (forall g, In g pre -> FaceDetection.area g < FaceDetection.area p) /\
      (forall g, In g post -> FaceDetection.area g <= FaceDetection.area p).
Proof.
  unfold DetectionResult.primary_face.
  destruct (DetectionResult.faces r) as [|f rest].
  - split; [tauto | discriminate].
  - split; [split; discriminate|].
    intros p H. injection H as <-.
    destruct (largest_first rest f [] []) as (pre & post & E & H1 & H2);
      [intros g [] | intros g [] |].
    exists pre, post. auto.
Qed.

Lemma pymin_le (a b : Q) : Py.min a b <= a /\ Py.min a b <= b.
Proof. destruct (pymin_cases a b) as [[? ->]|[? ->]]; lra. Qed.

Lemma pymax_ge (a b : Q) : a <= Py.max a b /\ b <= Py.max a b.
Proof. destruct (pymax_cases a b) as [[? ->]|[? ->]]; lra. Qed.

Lemma fold_min_spec (l : list Q) (a : Q) :
  In (fold_left Py.min l a) (a :: l) /\
  forall x, In x (a :: l) -> fold_left Py.min l a <= x.
Proof.
  revert a. induction l as [|b l IH]; intros a; cbn [fold_left].
  - split; [left; reflexivity|]. intros x [<-|[]]. lra.
  - destruct (IH (Py.min a b)) as [Hin Hle]. split.
    + destruct Hin as [Hin|Hin]; [|right; right; assumption].
      rewrite <- Hin. destruct (pymin_cases a b) as [[_ ->]|[_ ->]]; cbn; auto.
    + intros x Hx.
      assert (Hm : fold_left Py.min l (Py.min a b) <= Py.min a b)
        by (apply Hle; left; reflexivity).
      destruct Hx as [<-|[<-|Hx]].
      * pose proof (pymin_le a b). lra.
      * pose proof (pymin_le a b). lra.
      * apply Hle. right. assumption.
Qed.

Lemma fold_max_spec (l : list Q) (a : Q) :
  In (fold_left Py.max l a) (a :: l) /\
  forall x, In x (a :: l) -> x <= fold_left Py.max l a.
Proof.
  revert a. induction l as [|b l IH]; intros a; cbn [fold_left].
  - split; [left; reflexivity|]. intros x [<-|[]]. lra.
  - destruct (IH (Py.max a b)) as [Hin Hle]. split.
    + destruct Hin as [Hin|Hin]; [|right; right; assumption].
      rewrite <- Hin. destruct (pymax_cases a b) as [[_ ->]|[_ ->]]; cbn; auto.
    + intros x Hx.
      assert (Hm : Py.max a b <= fold_left Py.max l (Py.max a b))
        by (apply Hle; left; reflexivity).
      destruct Hx as [<-|[<-|Hx]].
      * pose proof (pymax_ge a b). lra.
      * pose proof (pymax_ge a b). lra.
      * apply Hle. right. assumption.
Qed.

(** X12: [get_bounding_box] is [None] exactly for a result without faces.
    Otherwise its left and top sides are the least [x] and the least [y] of
    the faces, and its width and height are the differences [max_x - min_x]
    and [max_y - min_y] for the greatest right edge [x + width] and the
    greatest bottom edge [y + height] of the faces: no face starts left of or
    above the box, no face ends right of [max_x] or below [max_y], and each
    of the four extremes is that of some face. *)
Theorem bounding_box_encloses (r : DetectionResult.t) :
  (DetectionResult.get_bounding_box r = None
   <-> DetectionResult.faces r = []) /\
  forall bx by_ bw bh,
    DetectionResult.get_bounding_box r = Some (bx, by_, bw, bh) ->
    exists max_x max_y,
      bw = max_x - bx /\ bh = max_y - by_ /\
      (forall f, In f (DetectionResult.faces r) ->
         bx <= FaceDetection.x f /\ by_ <= FaceDetection.y f /\
         FaceDetection.x f + FaceDetection.width f <= max_x /\
         FaceDetection.y f + FaceDetection.height f <= max_y) /\
      (exists f, In f (DetectionResult.faces r) /\ FaceDetection.x f = bx) /\
      (exists f, In f (DetectionResult.faces r) /\ FaceDetection.y f = by_) /\
      (exists f, In f (DetectionResult.faces r) /\
                 FaceDetection.x f + FaceDetection.width f = max_x) /\
      (exists f, In f (DetectionResult.faces r) /\
                 FaceDetection.y f + FaceDetection.height f = max_y).
Proof.
  unfold DetectionResult.get_bounding_box.
  destruct (DetectionResult.faces r) as [|f0 rest].
  - split; [tauto | discriminate].
  - split; [split; discriminate|].
    intros bx by_ bw bh H. injection H as <- <- <- <-.
    destruct (fold_min_spec (map FaceDetection.x rest) (FaceDetection.x f0))
      as [Hx1 Hx2].
    destruct (fold_min_spec (map FaceDetection.y rest) (FaceDetection.y f0))
      as [Hy1 Hy2].
    destruct (fold_max_spec
                (map (fun g => FaceDetection.x g + FaceDetection.width g) rest)
                (FaceDetection.x f0 + FaceDetection.width f0)) as [Hr1 Hr2].
    destruct (fold_max_spec
                (map (fun g => FaceDetection.y g + FaceDetection.height g) rest)
                (FaceDetection.y f0 + FaceDetection.height f0)) as [Hb1 Hb2].
    change (FaceDetection.x f0 :: map FaceDetection.x rest)
      with (map FaceDetection.x (f0 :: rest)) in *.
    change (FaceDetection.y f0 :: map FaceDetection.y rest)
      with (map FaceDetection.y (f0 :: rest)) in *.
    change ((FaceDetection.x f0 + FaceDetection.width f0)
            :: map (fun g => FaceDetection.x g + FaceDetection.width g) rest)
      with (map (fun g => FaceDetection.x g + FaceDetection.width g)
                (f0 :: rest)) in *.
    change ((FaceDetection.y f0 + FaceDetection.height f0)
            :: map (fun g => FaceDetection.y g + FaceDetection.height g) rest)
      with (map (fun g => FaceDetection.y g + FaceDetection.height g)
                (f0 :: rest)) in *.
    eexists _, _. split; [reflexivity|]. split; [reflexivity|].
    split; [|split; [|split; [|split]]].
    + intros f Hf.
      pose proof (Hx2 _ (in_map FaceDetection.x _ _ Hf)).
      pose proof (Hy2 _ (in_map FaceDetection.y _ _ Hf)).
      pose proof (Hr2 _ (in_map
                           (fun g => FaceDetection.x g + FaceDetection.width g)
                           _ _ Hf)) as H3.
      pose proof (Hb2 _ (in_map
                           (fun g => FaceDetection.y g + FaceDetection.height g)
                           _ _ Hf)) as H4.
      cbn beta in H3, H4. repeat split; assumption.
    + apply in_map_iff in Hx1 as (f & E & Hf). eauto.
    + apply in_map_iff in Hy1 as (f & E & Hf). eauto.
    + apply in_map_iff in Hr1 as (f & E & Hf). eauto.
    + apply in_map_iff in Hb1 as (f & E & Hf). eauto.
Qed.

Lemma bounding_box_encloses_witness :
  exists bx by_ bw bh max_x max_y,
    DetectionResult.get_bounding_box Examples.small_and_large
    = Some (bx, by_, bw, bh) /\
    bw = max_x - bx /\ bh = max_y - by_ /\
    forall f, In f (DetectionResult.faces Examples.small_and_large) ->
      bx <= FaceDetection.x f /\ by_ <= FaceDetection.y f /\
      FaceDetection.x f + FaceDetection.width f <= max_x /\
      FaceDetection.y f + FaceDetection.height f <= max_y.
Proof.
  destruct (proj2 (bounding_box_encloses Examples.small_and_large)
              _ _ _ _ eq_refl)
    as (max_x & max_y & Ew & Eh & Hin & _).
  eexists _, _, _, _, max_x, max_y.
  split; [reflexivity|]. split; [exact Ew|]. split; [exact Eh|]. exact Hin.
Defined.

Lemma primary_face_largest_witness :
  exists p,
    DetectionResult.primary_face Examples.small_and_large = Some p /\
    FaceDetection.area p == 12 # 100 /\
    forall g, In g (DetectionResult.faces Examples.small_and_large) ->
              FaceDetection.area g <= FaceDetection.area p.
Proof.
  eexists. split; [reflexivity|]. split; [reflexivity|].
  destruct (proj2 (primary_face_largest Examples.small_and_large) _ eq_refl)
    as (pre & post & E & Hpre & Hpost).
  intros g Hg. rewrite E in Hg. apply in_app_iff in Hg.
  destruct Hg as [Hg | [<- | Hg]].
  - apply Qlt_le_weak. apply Hpre. assumption.
  - apply Qle_refl.
  - apply Hpost. assumption.
Defined.

(** ** The detection cache, further *)

Lemma firstn_in {A : Type} (n : nat) (l : list A) (a : A) :
  In a (firstn n l) -> In a l.
Proof.
  revert l. induction n as [|n IH]; intros [|b l]; cbn; try tauto.
  intros [E | H]; [left; assumption | right; apply IH; assumption].
Qed.

Lemma ratio_sum_le_1 (a b d : Z) :
  (0 < d)%Z -> (a + b <= d)%Z ->
  inject_Z a / inject_Z d + inject_Z b / inject_Z d <= 1.
Proof.
  intros Hd Hab.
  assert (HD : 0 < inject_Z d) by (unfold Qlt; cbn; lia).
  assert (Hs : inject_Z a + inject_Z b <= inject_Z d).
  { rewrite <- inject_Z_plus. rewrite <- Zle_Qle. assumption. }
  pose proof (Qinv_lt_0_compat _ HD) as Hi.
  assert (E : inject_Z d * / inject_Z d == 1) by (apply Qmult_inv_r; lra).
  unfold Qdiv. nra.
Qed.

Lemma ratio_nonneg (a d : Z) :
  (0 < d)%Z -> (0 <= a)%Z -> 0 <= inject_Z a / inject_Z d.
Proof.
  intros Hd Ha.
  assert (HD : 0 < inject_Z d) by (unfold Qlt; cbn; lia).
  assert (HA : 0 <= inject_Z a) by (unfold Qle; cbn; lia).
  pose proof (Qinv_lt_0_compat _ HD) as Hi.
  unfold Qdiv. nra.
Qed.

(** X13: when [detect] goes to the detector and the rectangles it answers
    lie inside the detector frame (320 wide and [small_height] high), every
    face of the result is a rectangle inside the unit square, with a
    confidence of 0.9, and the result has at most [_max_faces] faces. *)
Theorem detect_faces_within_unit resize cvt cascade (d : FaceDetector.t)
    (frame : ndarray.t) (force : bool) (clock : Q * Q)
    (sh : Z) (small gray : ndarray.t) (rects : list (Z * Z * Z * Z))
    (Hgo : FaceDetector.goes_to_detector d force)
    (Hmax : (0 <= FaceDetector._max_faces d)%Z)
    (Hsh : FaceDetector.small_height_of frame = Ok sh)
    (Hpos : (0 < sh)%Z)
    (Hres : resize frame (FaceDetector.DETECT_WIDTH, sh) = Ok small)
    (Hcvt : cvt small = Ok gray)
    (Hcas : cascade gray = Ok rects)
    (Hin : forall x y w h, In (x, y, w, h) rects ->
             (0 <= x /\ 0 <= w /\ x + w <= FaceDetector.DETECT_WIDTH /\
              0 <= y /\ 0 <= h /\ y + h <= sh)%Z) :
  exists r,
    fst (FaceDetector.detect resize cvt cascade d frame force clock) = Ok r /\
    (Z.of_nat (length (DetectionResult.faces r))
     <= FaceDetector._max_faces d)%Z /\
    forall f, In f (DetectionResult.faces r) ->
      0 <= FaceDetection.x f /\ 0 <= FaceDetection.width f /\
      FaceDetection.x f + FaceDetection.width f <= 1 /\
      0 <= FaceDetection.y f /\ 0 <= FaceDetection.height f /\
      FaceDetection.y f + FaceDetection.height f <= 1 /\
      FaceDetection.confidence f = 9 # 10.
Proof.
  rewrite (detect_fresh resize cvt cascade d frame force clock Hgo).
  unfold FaceDetector.run_detector.
  rewrite Hsh. cbn [Py.bind]. rewrite Hres. cbn [Py.bind].
  rewrite Hcvt. cbn [Py.bind]. rewrite Hcas. cbn [Py.bind].
  change (FaceDetector._max_faces (FaceDetector.with_frame_count d _))
    with (FaceDetector._max_faces d).
  rewrite (take_firstn _ rects Hmax).
  assert (Hnz : sh <> 0%Z) by lia.
  destruct (to_faces_ok FaceDetector.DETECT_WIDTH sh
              (firstn (Z.to_nat (FaceDetector._max_faces d)) rects)
              ltac:(discriminate) Hnz 0%nat) as (faces & Hfs & Hlen & Hnth).
  rewrite Hfs. cbn [Py.bind fst DetectionResult.faces].
  eexists. split; [reflexivity|]. cbn [DetectionResult.faces]. split.
  - rewrite Hlen, length_firstn. lia.
  - intros f Hf. apply In_nth_error in Hf as [k Hk].
    assert (Hlt : (k < length (firstn (Z.to_nat (FaceDetector._max_faces d))
                                 rects))%nat).
    { rewrite <- Hlen. apply nth_error_Some. congruence. }
    apply nth_error_Some in Hlt.
    destruct (nth_error (firstn _ rects) k) as [[[[x y] w] h]|] eqn:Er;
      [|congruence].
    rewrite (Hnth k x y w h Er) in Hk. injection Hk as <-.
    cbn [FaceDetection.x FaceDetection.y FaceDetection.width
         FaceDetection.height FaceDetection.confidence].
    apply nth_error_In in Er. apply firstn_in in Er.
    destruct (Hin x y w h Er) as (H1 & H2 & H3 & H4 & H5 & H6).
    assert (H320 : (0 < FaceDetector.DETECT_WIDTH)%Z) by reflexivity.
    repeat split; auto using ratio_nonneg, ratio_sum_le_1.
Qed.

Lemma detect_faces_within_unit_witness :
  exists r,
    fst (FaceDetector.detect Examples.cv2_resize Examples.cv2_cvtColor
           Examples.cascade_three Examples.two_face_detector
           Examples.black_frame false Examples.clock) = Ok r /\
    (Z.of_nat (length (DetectionResult.faces r)) <= 2)%Z /\
    forall f, In f (DetectionResult.faces r) ->
      FaceDetection.x f + FaceDetection.width f <= 1 /\
      FaceDetection.y f + FaceDetection.height f <= 1.
Proof.
  destruct (detect_faces_within_unit Examples.cv2_resize Examples.cv2_cvtColor
              Examples.cascade_three Examples.two_face_detector
              Examples.black_frame false Examples.clock 240%Z
              (ndarray.mk 240 320
                 (fun i j =>
                    ndarray.at_ Examples.black_frame
                      (i * ndarray.rows Examples.black_frame / 240)%Z
                      (j * ndarray.cols Examples.black_frame / 320)%Z))
              (ndarray.mk 240 320
                 (fun i j =>
                    ndarray.at_ Examples.black_frame
                      (i * ndarray.rows Examples.black_frame / 240)%Z
                      (j * ndarray.cols Examples.black_frame / 320)%Z))
              Examples.three_rects)
    as (r & Hr & Hlen & Hf);
    [right; left; reflexivity | discriminate | reflexivity | reflexivity
    | reflexivity | reflexivity | reflexivity | |].
  - intros x y w h [E | [E | [E | []]]]; injection E as <- <- <- <-;
      unfold FaceDetector.DETECT_WIDTH; lia.
  - exists r. split; [exact Hr|]. split; [exact Hlen|].
    intros f Hin. destruct (Hf f Hin) as (_ & _ & H3 & _ & _ & H6 & _).
    split; assumption.
Defined.

(** X14: when [detect] goes to the detector on a frame without columns,
    the division [DETECT_WIDTH / width] raises [ZeroDivisionError] before any
    collaborator is called; the frame counter has been incremented and the
    cached result is as it was. *)
Theorem detect_frame_without_columns resize cvt cascade (d : FaceDetector.t)
    (frame : ndarray.t) (force : bool) (clock : Q * Q)
    (Hgo : FaceDetector.goes_to_detector d force)
    (Hcols : ndarray.cols frame = 0%Z) :
  FaceDetector.detect resize cvt cascade d frame force clock
  = (Raise ZeroDivisionError,
     FaceDetector.with_frame_count d (FaceDetector._frame_count d + 1)).
Proof.
  rewrite (detect_fresh resize cvt cascade d frame force clock Hgo).
  unfold FaceDetector.run_detector, FaceDetector.small_height_of,
    ndarray.shape.
  rewrite Hcols. reflexivity.
Qed.

Lemma detect_frame_without_columns_witness :
  FaceDetector.detect Examples.cv2_resize Examples.cv2_cvtColor
    Examples.cascade_three Examples.two_face_detector Examples.no_columns
    false Examples.clock
  = (Raise ZeroDivisionError,
     FaceDetector.with_frame_count Examples.two_face_detector 1).
Proof.
  apply (detect_frame_without_columns Examples.cv2_resize
           Examples.cv2_cvtColor Examples.cascade_three
           Examples.two_face_detector Examples.no_columns false
           Examples.clock);
    [right; left; reflexivity | reflexivity].
Defined.

Lemma detect_cached resize cvt cascade (d : FaceDetector.t)
    (frame : ndarray.t) (clock : Q * Q) (last : DetectionResult.t) :
  FaceDetector._last_result d = Some last ->
  FaceDetector._detect_interval d <> 0%Z ->
  ((FaceDetector._frame_count d + 1) mod FaceDetector._detect_interval d
   <> 0)%Z ->
  FaceDetector.detect resize cvt cascade d frame false clock
  = (Ok last,
     FaceDetector.with_frame_count d (FaceDetector._frame_count d + 1)).
Proof.
  intros Hl Hi Hm. unfold FaceDetector.detect.
  set (d1 := FaceDetector.with_frame_count d _).
  change (FaceDetector._last_result d1) with (FaceDetector._last_result d).
  rewrite Hl. unfold Py.mod_.
  change (FaceDetector._frame_count d1) with (FaceDetector._frame_count d + 1)%Z.
  change (FaceDetector._detect_interval d1) with (FaceDetector._detect_interval d).
  destruct (Z.eqb_spec (FaceDetector._detect_interval d) 0); [contradiction|].
  destruct (Z.eqb_spec
              ((FaceDetector._frame_count d + 1)
                 mod FaceDetector._detect_interval d) 0);
    [contradiction | reflexivity].
Qed.

(** X15: whatever result [detect] returns, cached or fresh, is the result
    the cache holds afterwards; and the next call without [force], on any
    frame and with any detector, returns that same result again when the
    frame counter it reaches is not a multiple of the interval. *)
Theorem detect_result_is_cached resize cvt cascade (d d' : FaceDetector.t)
    (frame : ndarray.t) (force : bool) (clock : Q * Q)
    (r : DetectionResult.t)
    (Hret : FaceDetector.detect resize cvt cascade d frame force clock
            = (Ok r, d')) :
  FaceDetector._last_result d' = Some r /\
  FaceDetector._frame_count d' = (FaceDetector._frame_count d + 1)%Z /\
  forall resize' cvt' cascade' frame' clock',
    FaceDetector._detect_interval d <> 0%Z ->
    ((FaceDetector._frame_count d + 2) mod FaceDetector._detect_interval d
     <> 0)%Z ->
    FaceDetector.detect resize' cvt' cascade' d' frame' false clock'
    = (Ok r,
       FaceDetector.with_frame_count d' (FaceDetector._frame_count d + 2)).
Proof.
  assert (H : FaceDetector._last_result d' = Some r /\
              FaceDetector._frame_count d'
              = (FaceDetector._frame_count d + 1)%Z /\
              FaceDetector._detect_interval d'
              = FaceDetector._detect_interval d).
  { unfold FaceDetector.detect in Hret.
    set (d1 := FaceDetector.with_frame_count d _) in *.
    destruct force, (FaceDetector._last_result d1) as [last|] eqn:El;
      try destruct (Py.mod_ _ _) as [m|];
      try destruct (negb _);
      try destruct (FaceDetector.run_detector _ _ _ _ _ _);
      try discriminate;
      injection Hret as <- <-; auto. }
  destruct H as (Hl & Hc & Hi). split; [assumption|]. split; [assumption|].
  intros resize' cvt' cascade' frame' clock' Hnz Hmod.
  rewrite (detect_cached resize' cvt' cascade' d' frame' clock' r Hl).
  - rewrite Hc.
    replace (FaceDetector._frame_count d + 1 + 1)%Z
      with (FaceDetector._frame_count d + 2)%Z by lia.
    reflexivity.
  - congruence.
  - rewrite Hc, Hi. replace (FaceDetector._frame_count d + 1 + 1)%Z
      with (FaceDetector._frame_count d + 2)%Z by lia. assumption.
Qed.

Lemma detect_result_is_cached_witness :
  exists r d',
    FaceDetector.detect Examples.cv2_resize Examples.cv2_cvtColor
      Examples.cascade_three Examples.two_face_detector Examples.black_frame
      false Examples.clock = (Ok r, d') /\
    FaceDetector.detect Examples.cv2_resize Examples.cv2_cvtColor
      Examples.cascade_failing d' Examples.no_columns false Examples.clock
    = (Ok r, FaceDetector.with_frame_count d' 2).
Proof.
  eexists _, _. split; [reflexivity|].
  eapply (detect_result_is_cached Examples.cv2_resize Examples.cv2_cvtColor
            Examples.cascade_three Examples.two_face_detector _
            Examples.black_frame false Examples.clock);
    [reflexivity | discriminate | discriminate].
Defined.

(** X16: the setter of [min_confidence] stores a value between 0 and 1
    whatever it is given, stores a value of that range as it is, and leaves
    the cache and the frame counter alone. *)
Theorem set_min_confidence_clamps (d : FaceDetector.t) (value : Q) :
  let d' := FaceDetector.set_min_confidence d value in
  0 <= FaceDetector.min_confidence d' <= 1 /\
  (0 <= value <= 1 -> FaceDetector.min_confidence d' == value) /\
  (value < 0 -> FaceDetector.min_confidence d' == 0) /\
  (1 < value -> FaceDetector.min_confidence d' == 1) /\
  FaceDetector._last_result d' = FaceDetector._last_result d /\
  FaceDetector._frame_count d' = FaceDetector._frame_count d.
Proof.
  unfold FaceDetector.set_min_confidence, FaceDetector.min_confidence; cbn.
  repeat split; try intros; py_cases; lra.
Qed.

Lemma set_min_confidence_clamps_witness :
  FaceDetector.min_confidence
    (FaceDetector.set_min_confidence (FaceDetector.init (1 # 2) 5) (15 # 10))
  == 1 /\
  FaceDetector.min_confidence
    (FaceDetector.set_min_confidence (FaceDetector.init (1 # 2) 5) (- (1 # 2)))
  == 0.
Proof.
  split.
  - destruct (set_min_confidence_clamps (FaceDetector.init (1 # 2) 5)
                (15 # 10)) as (_ & _ & _ & Hhigh & _).
    apply Hhigh. reflexivity.
  - destruct (set_min_confidence_clamps (FaceDetector.init (1 # 2) 5)
                (- (1 # 2))) as (_ & _ & Hlow & _).
    apply Hlow. reflexivity.
Defined.

(** ** Intersection over union *)

(** The overlap of two boxes, as [_calculate_iou] computes it. *)
Lemma iou_unfold (x1 y1 w1 h1 x2 y2 w2 h2 : Z) :
  let iw := (Z.min (x1 + w1) (x2 + w2) - Z.max x1 x2)%Z in
  let ih := (Z.min (y1 + h1) (y2 + h2) - Z.max y1 y2)%Z in
  FaceTracker._calculate_iou (x1, y1, w1, h1) (x2, y2, w2, h2)
  = if ((iw <=? 0) || (ih <=? 0))%Z then 0
    else if (0 <? w1 * h1 + w2 * h2 - iw * ih)%Z
         then inject_Z (iw * ih) / inject_Z (w1 * h1 + w2 * h2 - iw * ih)
         else 0.
Proof.
  intros iw ih. unfold FaceTracker._calculate_iou.
  rewrite !maxZ_max, !minZ_min. fold iw ih.
  replace (Z.min (x1 + w1) (x2 + w2) <=? Z.max x1 x2)%Z with (iw <=? 0)%Z
    by (subst iw; destruct (Z.leb_spec (Z.min (x1 + w1) (x2 + w2) - Z.max x1 x2) 0),
          (Z.leb_spec (Z.min (x1 + w1) (x2 + w2)) (Z.max x1 x2)); lia).
  replace (Z.min (y1 + h1) (y2 + h2) <=? Z.max y1 y2)%Z with (ih <=? 0)%Z
    by (subst ih; destruct (Z.leb_spec (Z.min (y1 + h1) (y2 + h2) - Z.max y1 y2) 0),
          (Z.leb_spec (Z.min (y1 + h1) (y2 + h2)) (Z.max y1 y2)); lia).
  reflexivity.
Qed.

(** Where two boxes overlap, the overlap is no larger than either box, and
    both boxes have a positive width and height. *)
Lemma overlap_bounds (x1 y1 w1 h1 x2 y2 w2 h2 : Z) :
  let iw := (Z.min (x1 + w1) (x2 + w2) - Z.max x1 x2)%Z in
  let ih := (Z.min (y1 + h1) (y2 + h2) - Z.max y1 y2)%Z in
  (0 < iw)%Z -> (0 < ih)%Z ->
  (iw <= w1 /\ iw <= w2 /\ ih <= h1 /\ ih <= h2 /\
   iw * ih <= w1 * h1 /\ iw * ih <= w2 * h2 /\ 0 < iw * ih)%Z.
Proof.
  intros iw ih Hw Hh.
  assert (A : (iw <= w1 /\ iw <= w2 /\ ih <= h1 /\ ih <= h2)%Z)
    by (subst iw ih; lia).
  clearbody iw ih. destruct A as (A1 & A2 & A3 & A4).
  repeat split; try assumption; nia.
Qed.

Lemma ratio_range (a b : Z) :
  (0 < a)%Z -> (a <= b)%Z ->
  0 < inject_Z a / inject_Z b /\ inject_Z a / inject_Z b <= 1.
Proof.
  intros Ha Hab.
  assert (HA : 0 < inject_Z a) by (unfold Qlt; cbn; lia).
  assert (HB : inject_Z a <= inject_Z b) by (rewrite <- Zle_Qle; assumption).
  assert (Hi : 0 < / inject_Z b) by (apply Qinv_lt_0_compat; lra).
  assert (E : inject_Z b * / inject_Z b == 1) by (apply Qmult_inv_r; lra).
  unfold Qdiv. split; nra.
Qed.

(** X17: the intersection over union of two boxes does not depend on their
    order. *)
Theorem iou_symmetric (a b : BBox) :
  FaceTracker._calculate_iou a b = FaceTracker._calculate_iou b a.
Proof.
  destruct a as [[[x1 y1] w1] h1], b as [[[x2 y2] w2] h2].
  rewrite !iou_unfold. cbv zeta.
  rewrite (Z.min_comm (x2 + w2)), (Z.max_comm x2), (Z.min_comm (y2 + h2)),
    (Z.max_comm y2), (Z.add_comm (w2 * h2)).
  reflexivity.
Qed.

(** X18: for any two boxes of integers, whatever their sizes, the
    intersection over union lies between 0 and 1, and it is positive exactly
    when the boxes overlap in a region of positive width and height. *)
Theorem iou_range (a b : BBox) :
  let '(x1, y1, w1, h1) := a in
  let '(x2, y2, w2, h2) := b in
  0 <= FaceTracker._calculate_iou a b <= 1 /\
  (0 < FaceTracker._calculate_iou a b <->
   (Z.max x1 x2 < Z.min (x1 + w1) (x2 + w2) /\
    Z.max y1 y2 < Z.min (y1 + h1) (y2 + h2))%Z).
Proof.
  destruct a as [[[x1 y1] w1] h1], b as [[[x2 y2] w2] h2].
  rewrite iou_unfold. cbv zeta.
  pose proof (overlap_bounds x1 y1 w1 h1 x2 y2 w2 h2) as Hb. cbv zeta in Hb.
  set (iw := (Z.min (x1 + w1) (x2 + w2) - Z.max x1 x2)%Z) in *.
  set (ih := (Z.min (y1 + h1) (y2 + h2) - Z.max y1 y2)%Z) in *.
  assert (Ew : (Z.max x1 x2 < Z.min (x1 + w1) (x2 + w2) <-> 0 < iw)%Z)
    by (subst iw; lia).
  assert (Eh : (Z.max y1 y2 < Z.min (y1 + h1) (y2 + h2) <-> 0 < ih)%Z)
    by (subst ih; lia).
  rewrite Ew, Eh. clearbody iw ih.
  destruct (Z.leb_spec iw 0) as [Hw | Hw]; cbn [orb].
  { split; [lra|]. split; [lra | lia]. }
  destruct (Z.leb_spec ih 0) as [Hh | Hh].
  { split; [lra|]. split; [lra | lia]. }
  destruct (Hb Hw Hh) as (_ & _ & _ & _ & B1 & B2 & B3).
  destruct (Z.ltb_spec 0 (w1 * h1 + w2 * h2 - iw * ih)) as [Hu | Hu]; [|lia].
  destruct (ratio_range (iw * ih) (w1 * h1 + w2 * h2 - iw * ih) B3
              ltac:(lia)) as [R1 R2].
  split; [lra|]. split; [intros _; split; assumption | intros _; assumption].
Qed.

Lemma ratio_one (a b : Z) :
  (0 < b)%Z -> (inject_Z a / inject_Z b == 1 <-> a = b).
Proof.
  intros Hb.
  assert (HB : 0 < inject_Z b) by (unfold Qlt; cbn; lia).
  assert (E : inject_Z b * / inject_Z b == 1) by (apply Qmult_inv_r; lra).
  split.
  - intros H. apply inject_Z_injective.
    assert (H' : inject_Z a / inject_Z b * inject_Z b == inject_Z a)
      by (unfold Qdiv; rewrite <- Qmult_assoc, (Qmult_comm (/ _)), E; ring).
    rewrite H in H'. lra.
  - intros ->. unfold Qdiv. assumption.
Qed.

Lemma product_full (a b c d : Z) :
  (0 < a -> 0 < b -> a <= c -> b <= d -> a * b = c * d -> a = c /\ b = d)%Z.
Proof. intros. nia. Qed.

(** X19: a box of positive width and height has an intersection over union
    of 1 with itself, and with no other box: a box whose intersection over
    union with it is 1 is the same box. *)
Theorem iou_one_iff_same_box (x1 y1 w1 h1 x2 y2 w2 h2 : Z)
    (Hw : (0 < w1)%Z) (Hh : (0 < h1)%Z) :
  FaceTracker._calculate_iou (x1, y1, w1, h1) (x2, y2, w2, h2) == 1
  <-> (x2, y2, w2, h2) = (x1, y1, w1, h1).
Proof.
  rewrite iou_unfold. cbv zeta.
  pose proof (overlap_bounds x1 y1 w1 h1 x2 y2 w2 h2) as Hb. cbv zeta in Hb.
  split.
  - set (iw := (Z.min (x1 + w1) (x2 + w2) - Z.max x1 x2)%Z) in *.
    set (ih := (Z.min (y1 + h1) (y2 + h2) - Z.max y1 y2)%Z) in *.
    destruct (Z.leb_spec iw 0) as [Hiw | Hiw]; cbn [orb];
      [intros H; exfalso; revert H; unfold Qeq; cbn; lia|].
    destruct (Z.leb_spec ih 0) as [Hih | Hih];
      [intros H; exfalso; revert H; unfold Qeq; cbn; lia|].
    destruct (Hb Hiw Hih) as (A1 & A2 & A3 & A4 & B1 & B2 & B3).
    destruct (Z.ltb_spec 0 (w1 * h1 + w2 * h2 - iw * ih)) as [Hu | Hu]; [|lia].
    intros H. apply (ratio_one _ _ Hu) in H.
    assert (E1 : (iw * ih = w1 * h1)%Z) by lia.
    assert (E2 : (iw * ih = w2 * h2)%Z) by lia.
    destruct (product_full iw ih w1 h1 Hiw Hih A1 A3 E1) as [F1 F2].
    destruct (product_full iw ih w2 h2 Hiw Hih A2 A4 E2) as [G1 G2].
    clear Hb H E1 E2 B1 B2 B3 Hu.
    assert (x2 = x1 /\ w2 = w1) as [-> ->] by (subst iw; lia).
    assert (y2 = y1 /\ h2 = h1) as [-> ->] by (subst ih; lia).
    reflexivity.
  - intros E. injection E as -> -> -> ->.
    rewrite Z.min_id, !Z.max_id, Z.min_id.
    replace (x1 + w1 - x1)%Z with w1 by lia.
    replace (y1 + h1 - y1)%Z with h1 by lia.
    assert (Hp : (0 < w1 * h1)%Z) by nia.
    destruct (Z.leb_spec w1 0); [lia|]. destruct (Z.leb_spec h1 0); [lia|].
    cbn [orb].
    replace (w1 * h1 + w1 * h1 - w1 * h1)%Z with (w1 * h1)%Z by lia.
    destruct (Z.ltb_spec 0 (w1 * h1)); [|lia].
    apply ratio_one; [assumption | reflexivity].
Qed.

Lemma iou_one_iff_same_box_witness :
  FaceTracker._calculate_iou (3, 4, 10, 20)%Z (3, 4, 10, 20)%Z == 1 /\
  ~ FaceTracker._calculate_iou (3, 4, 10, 20)%Z (3, 4, 10, 21)%Z == 1.
Proof.
  split.
  - apply (iou_one_iff_same_box 3 4 10 20 3 4 10 20); reflexivity.
  - intros H.
    apply (iou_one_iff_same_box 3 4 10 20 3 4 10 21) in H;
      [discriminate | reflexivity | reflexivity].
Defined.

(** ** The life of a track *)

Section TrackerLifecycle.

Variable Tracker : Type.
Variable cvt : ndarray.t -> ndarray.t.
Variable tinit : TrackerType -> ndarray.t -> BBox -> Tracker.
Variable tupdate : Tracker -> ndarray.t -> Tracker * (bool * (Q * Q * Q * Q)).

Local Abbreviation state := (FaceTracker.t Tracker).
Local Abbreviation table s := (FaceTracker._tracked_faces Tracker s).
Local Abbreviation trackers s := (FaceTracker._trackers Tracker s).
Local Abbreviation ids s := (PyDict.keys (FaceTracker._tracked_faces Tracker s)).
Local Abbreviation next s := (FaceTracker._next_id Tracker s).
Local Abbreviation limit s := (FaceTracker._max_frames_lost Tracker s).
Local Abbreviation wf := (FaceTracker.wf Tracker).
Local Abbreviation add_track := (FaceTracker.add_track Tracker tinit).
Local Abbreviation init_tracks := (FaceTracker.init_tracks Tracker cvt tinit).
Local Abbreviation update := (FaceTracker.update Tracker cvt tupdate).
Local Abbreviation update_loop := (FaceTracker.update_loop Tracker tupdate).
Local Abbreviation rebind := (FaceTracker.rebind Tracker tinit).
Local Abbreviation match_loop := (FaceTracker.match_loop Tracker tinit).
Local Abbreviation spawn_loop := (FaceTracker.spawn_loop Tracker tinit).
Local Abbreviation refresh_tracks :=
  (FaceTracker.refresh_tracks Tracker cvt tinit).

(** The tracks that a run of [add_track] appends. *)
Lemma add_tracks_table fb (dets : list BBox) :
  forall s : state,
  wf s ->
  let s' := fold_left (add_track fb) dets s in
  wf s' /\
  next s' = (next s + Z.of_nat (length dets))%Z /\
  FaceTracker._max_frames_lost Tracker s' = limit s /\
  exists new,
    table s' = table s ++ new /\
    length new = length dets /\
    forall j det,
      nth_error dets j = Some det ->
      nth_error new j
      = Some ((next s + Z.of_nat j)%Z,
              TrackedFace.new (next s + Z.of_nat j) det 1).
Proof.
  induction dets as [|b dets IH]; intros s Hwf; cbn [fold_left].
  - split; [assumption|]. split; [cbn; lia|]. split; [reflexivity|].
    exists []. rewrite app_nil_r. repeat split. intros [|j]; discriminate.
  - destruct (add_track_spec Tracker tinit fb s b Hwf) as (Hwf1 & Hn1 & Ht1).
    destruct (IH _ Hwf1) as (W & N & M & new & T & L & Nth).
    split; [exact W|]. split; [rewrite N, Hn1; cbn [length]; lia|].
    split; [rewrite M; reflexivity|].
    exists ((next s, TrackedFace.new (next s) b 1) :: new).
    rewrite T, Ht1, <- app_assoc. split; [reflexivity|].
    split; [cbn [length]; lia|].
    intros [|j] det H; cbn [nth_error] in *.
    + injection H as <-. rewrite Z.add_0_r. reflexivity.
    + rewrite (Nth j det H), Hn1.
      replace (next s + 1 + Z.of_nat j)%Z with (next s + Z.of_nat (S j))%Z
        by lia.
      reflexivity.
Qed.

(** X20: [init_tracks] discards every track there was, whatever the state
    of the tracker.  It reports one track per detection, in the order of the
    detections: the [j]-th has the box of the [j]-th detection, the identity
    [_next_id + j] (for the [_next_id] before the call), a confidence of 1, a
    counter of 0 and is not lost.  [_next_id] advances by the number of
    detections, so no identity of an earlier track is issued again. *)
Theorem init_tracks_fresh (s : state) (frame : ndarray.t)
    (detections : list BBox) :
  let reported := fst (init_tracks s frame detections) in
  let s' := snd (init_tracks s frame detections) in
  reported = PyDict.values (table s') /\
  length reported = length detections /\
  (forall j det,
     nth_error detections j = Some det ->
     nth_error reported j
     = Some (TrackedFace.mk (next s + Z.of_nat j) det 1 0 false)) /\
  PyDict.keys (trackers s') = ids s' /\
  FaceTracker.active_tracks Tracker s' = Z.of_nat (length detections) /\
  next s' = (next s + Z.of_nat (length detections))%Z.
Proof.
  cbv zeta. unfold FaceTracker.init_tracks. cbn [fst snd].
  destruct (add_tracks_table (cvt frame) detections
              (FaceTracker.clear Tracker s) (wf_clear Tracker s))
    as (W & N & _ & new & T & L & Nth).
  cbn [FaceTracker.clear FaceTracker._tracked_faces FaceTracker._next_id
       app] in T, N, Nth.
  destruct W as [W _].
  repeat split; try assumption; unfold FaceTracker.active_tracks;
    rewrite T; unfold PyDict.values.
  - rewrite length_map. exact L.
  - intros j det H. rewrite nth_error_map, (Nth j det H). reflexivity.
  - rewrite L. reflexivity.
Qed.

(** What [mark] does to one track, and to the list of lost identities. *)
Lemma mark_exact m id (success : bool) bx by_ bw bh tf lost :
  let n := (TrackedFace.frames_since_detection tf + 1)%Z in
  let r := FaceTracker.mark m id success (bx, by_, bw, bh) tf lost in
  (success = true -> (n <= m)%Z ->
   fst r = TrackedFace.mk (TrackedFace.tracking_id tf)
             (Py.int bx, Py.int by_, Py.int bw, Py.int bh)
             (Py.max (1 # 2) (1 - inject_Z n * (2 # 100))) n
             (TrackedFace.is_lost tf)) /\
  (forall x, In x (snd r)
             <-> In x lost \/ (x = id /\ (success = false \/ (m < n)%Z))).
Proof.
  cbv zeta. unfold FaceTracker.mark.
  destruct success; destruct (Z.ltb_spec m
    (TrackedFace.frames_since_detection tf + 1)); cbn [fst snd]; split;
    try (intros; first [discriminate | lia | reflexivity]);
    intros x; rewrite ?in_app_iff; cbn [In]; intuition (try discriminate; try lia; auto).
Qed.

Lemma mark_fst m id success box tf lost :
  fst (FaceTracker.mark m id success box tf lost)
  = fst (FaceTracker.mark m id success box tf []).
Proof.
  unfold FaceTracker.mark. destruct box as [[[bx by_] bw] bh].
  destruct success; destruct (Z.ltb_spec m
    (TrackedFace.frames_since_detection tf + 1)); reflexivity.
Qed.

(** The loop of [update], track by track. *)
Lemma update_loop_exact fb m (items : PyDict.t Tracker) :
  NoDup (PyDict.keys items) ->
  forall trs faces lost trs' faces' lost',
  update_loop fb m items trs faces lost = Ok (trs', faces', lost') ->
  (forall k tr tf,
     In (k, tr) items -> PyDict.get k faces = Some tf ->
     PyDict.get k trs' = Some (fst (tupdate tr fb)) /\
     PyDict.get k faces'
     = Some (fst (FaceTracker.mark m k (fst (snd (tupdate tr fb)))
                    (snd (snd (tupdate tr fb))) tf [])) /\
     (In k lost'
      <-> In k lost \/ fst (snd (tupdate tr fb)) = false
          \/ (m < TrackedFace.frames_since_detection tf + 1)%Z)) /\
  (forall k, ~ In k (PyDict.keys items) ->
     PyDict.get k trs' = PyDict.get k trs /\
     PyDict.get k faces' = PyDict.get k faces /\
     (In k lost' <-> In k lost)).
Proof.
  induction items as [|[k0 tr0] rest IH]; intros Hnd trs faces lost trs' faces'
    lost' Hrun.
  - cbn in Hrun. injection Hrun as <- <- <-. split.
    + intros k tr tf [].
    + intros k _. repeat split; auto.
  - cbn [FaceTracker.update_loop] in Hrun.
    destruct (tupdate tr0 fb) as [tr0' [ok box]] eqn:Eu.
    destruct (PyDict.get k0 faces) as [tf0|] eqn:Eg; [|discriminate].
    destruct (FaceTracker.mark m k0 ok box tf0 lost) as [tf0' lost1] eqn:Em.
    unfold PyDict.keys in *. cbn [map fst] in Hnd.
    apply NoDup_cons_iff in Hnd as [Hk0 Hnd].
    destruct (IH Hnd _ _ _ _ _ _ Hrun) as [IH1 IH2].
    assert (Hl1 : forall x, In x lost1
                <-> In x lost \/ (x = k0 /\ (ok = false \/
                      (m < TrackedFace.frames_since_detection tf0 + 1)%Z))).
    { intros x. destruct box as [[[bx by_] bw] bh].
      pose proof (mark_exact m k0 ok bx by_ bw bh tf0 lost) as H.
      cbv zeta in H. rewrite Em in H. apply H. }
    assert (Hf1 : tf0' = fst (FaceTracker.mark m k0 ok box tf0 []))
      by (rewrite <- (mark_fst m k0 ok box tf0 lost), Em; reflexivity).
    split.
    + intros k tr tf [E | Hin] Hget.
      * injection E as <- <-. rewrite Eg in Hget. injection Hget as <-.
        destruct (IH2 k0 Hk0) as (H1 & H2 & H3).
        rewrite Eu. cbn [fst snd].
        rewrite H1, H2, !get_set_same, H3, Hl1, <- Hf1.
        repeat split; try reflexivity; intuition.
      * assert (Hne : k0 <> k).
        { intros ->. apply Hk0. apply (in_map fst) in Hin. exact Hin. }
        assert (Hget1 : PyDict.get k (PyDict.set k0 tf0' faces) = Some tf)
          by (rewrite get_set_other; assumption).
        destruct (IH1 k tr tf Hin Hget1) as (H1 & H2 & H3).
        split; [assumption|]. split; [assumption|].
        rewrite H3, Hl1. intuition congruence.
    + intros k Hk. cbn [map fst In] in Hk.
      assert (Hne : k0 <> k) by tauto.
      destruct (IH2 k ltac:(tauto)) as (H1 & H2 & H3).
      rewrite H1, H2, H3, !get_set_other, Hl1 by assumption.
      repeat split; auto; intuition congruence.
Qed.

Lemma get_pop_other {V : Type} k k' (d : PyDict.t V) :
  k <> k' -> PyDict.get k' (PyDict.pop k d) = PyDict.get k' d.
Proof.
  intros Hne. induction d as [|[k1 v] d IH]; [reflexivity|].
  cbn. destruct (Z.eqb_spec k k1) as [-> | H1].
  - destruct (Z.eqb_spec k' k1); [congruence | reflexivity].
  - cbn. rewrite IH. reflexivity.
Qed.

Lemma get_sweep {V : Type} lost k (d : PyDict.t V) :
  ~ In k lost -> PyDict.get k (FaceTracker.sweep lost d) = PyDict.get k d.
Proof.
  unfold FaceTracker.sweep. revert d.
  induction lost as [|x lost IH]; intros d Hk; [reflexivity|].
  cbn [fold_left]. rewrite IH by (cbn in Hk; tauto).
  apply get_pop_other. cbn in Hk. tauto.
Qed.

(** [update] on a well-formed tracker: the loop returns, and the call
    reports the table that the sweep leaves. *)
Lemma update_unfold (s : state) frame :
  wf s ->
  exists trs' faces' lost',
    update_loop (cvt frame) (limit s) (trackers s) (trackers s) (table s) []
    = Ok (trs', faces', lost') /\
    PyDict.keys trs' = PyDict.keys (trackers s) /\
    PyDict.keys faces' = ids s /\
    update s frame
    = Ok (PyDict.values (FaceTracker.sweep lost' faces'),
          FaceTracker.mk Tracker (FaceTracker._tracker_type Tracker s)
            (limit s) (FaceTracker.sweep lost' trs')
            (FaceTracker.sweep lost' faces') (next s)).
Proof.
  intros (Hkeys & Hsorted & Hlt & Hown).
  assert (Hnd : NoDup (PyDict.keys (trackers s)))
    by (rewrite Hkeys; apply sorted_nodup; assumption).
  destruct (update_loop_spec Tracker cvt tupdate (cvt frame) (limit s)
              (trackers s) Hnd (trackers s) (table s) [])
    as (trs' & faces' & lost' & Hrun & Hk1 & Hk2 & _);
    [rewrite Hkeys; apply incl_refl | apply incl_refl | assumption |].
  exists trs', faces', lost'. repeat split; try assumption.
  unfold FaceTracker.update. rewrite Hrun. reflexivity.
Qed.

(** X21: [update], on any state the tracker can reach, returns, and keeps a
    track exactly when its OpenCV tracker reports success and its counter,
    advanced by one, is within [_max_frames_lost].  A track that is kept has
    the box the tracker answered, truncated to ints, the advanced counter [n]
    and the confidence [max(0.5, 1 - 0.02 n)], and its tracker is the advanced
    one; any other track is gone from both tables.  No identity is issued. *)
Theorem update_survivors ty m (calls : list FaceTracker.call) reports
    (s : state) (frame : ndarray.t) (k : Z) (tr : Tracker)
    (tf : TrackedFace.t)
    (Hreach : FaceTracker.run Tracker cvt tinit tupdate
                (FaceTracker.init Tracker ty m) calls = Ok (reports, s))
    (Htr : PyDict.get k (trackers s) = Some tr)
    (Htf : PyDict.get k (table s) = Some tf) :
  exists reported s',
    update s frame = Ok (reported, s') /\
    reported = PyDict.values (table s') /\
    next s' = next s /\
    let '(tr', (success, (bx, by_, bw, bh))) := tupdate tr (cvt frame) in
    let n := (TrackedFace.frames_since_detection tf + 1)%Z in
    if (success && (n <=? limit s)%Z)%bool then
      PyDict.get k (trackers s') = Some tr' /\
      PyDict.get k (table s')
      = Some (TrackedFace.mk (TrackedFace.tracking_id tf)
                (Py.int bx, Py.int by_, Py.int bw, Py.int bh)
                (Py.max (1 # 2) (1 - inject_Z n * (2 # 100))) n
                (TrackedFace.is_lost tf))
    else ~ In k (ids s') /\ ~ In k (PyDict.keys (trackers s')).
Proof.
  pose proof (reachable_wf Tracker cvt tinit tupdate ty m calls reports s
                Hreach) as Hwf.
  destruct (update_unfold s frame Hwf)
    as (trs' & faces' & lost' & Hrun & Hk1 & Hk2 & Hup).
  destruct Hwf as (Hkeys & Hsorted & Hlt & Hown).
  assert (Hnd : NoDup (PyDict.keys (trackers s)))
    by (rewrite Hkeys; apply sorted_nodup; assumption).
  destruct (update_loop_exact (cvt frame) (limit s) (trackers s) Hnd
              _ _ _ _ _ _ Hrun) as [Hex _].
  destruct (Hex k tr tf (get_some_in _ _ _ Htr) Htf) as (H1 & H2 & H3).
  eexists _, _. split; [exact Hup|].
  cbn [FaceTracker._tracked_faces FaceTracker._trackers FaceTracker._next_id].
  split; [reflexivity|]. split; [reflexivity|].
  destruct (tupdate tr (cvt frame)) as [tr' [success [[[bx by_] bw] bh]]].
  cbn [fst snd] in H1, H2, H3. cbv zeta.
  pose proof (mark_exact (limit s) k success bx by_ bw bh tf []) as [Hm _].
  destruct success; cbn [andb];
    [destruct (Z.leb_spec (TrackedFace.frames_since_detection tf + 1)
                 (limit s)) as [Hle | Hgt]|].
  - assert (Hnot : ~ In k lost').
    { rewrite H3. cbn [In]. intros [[] | [E | Hgt]]; [discriminate | lia]. }
    rewrite !get_sweep by assumption. rewrite H1, H2.
    rewrite (Hm eq_refl Hle). split; reflexivity.
  - assert (Hin : In k lost') by (rewrite H3; right; right; assumption).
    split; apply sweep_removes; try assumption.
    + rewrite Hk2. assumption.
    + rewrite Hk1, Hkeys. assumption.
  - assert (Hin : In k lost') by (rewrite H3; right; left; reflexivity).
    split; apply sweep_removes; try assumption.
    + rewrite Hk2. assumption.
    + rewrite Hk1, Hkeys. assumption.
Qed.

(** *** What holds of every track that is kept *)

Local Abbreviation healthy_table s :=
  (Forall (fun kv : Z * TrackedFace.t =>
             FaceTracker.healthy (limit s) (snd kv)) (table s)).

Lemma healthy_new L k b : FaceTracker.healthy L (TrackedFace.new k b 1).
Proof.
  unfold FaceTracker.healthy. cbn. repeat split; try lra; try lia.
Qed.

Lemma add_track_healthy fb (s : state) b :
  healthy_table s ->
  healthy_table (add_track fb s b) /\
  limit (add_track fb s b) = limit s.
Proof.
  intros H. split; [|reflexivity].
  cbn [FaceTracker.add_track FaceTracker._tracked_faces
       FaceTracker._max_frames_lost].
  apply Forall_set; [assumption | apply healthy_new].
Qed.

Lemma add_tracks_healthy fb (dets : list BBox) :
  forall s : state,
  healthy_table s ->
  healthy_table (fold_left (add_track fb) dets s) /\
  limit (fold_left (add_track fb) dets s) = limit s.
Proof.
  induction dets as [|b dets IH]; intros s H; cbn [fold_left];
    [split; [assumption | reflexivity]|].
  destruct (add_track_healthy fb s b H) as [H1 E1].
  destruct (IH _ H1) as [H2 E2]. split; [assumption | congruence].
Qed.

Lemma init_tracks_healthy (s : state) frame dets :
  healthy_table (snd (init_tracks s frame dets)) /\
  limit (snd (init_tracks s frame dets)) = limit s.
Proof.
  unfold FaceTracker.init_tracks. cbn [snd].
  apply (add_tracks_healthy (cvt frame) dets (FaceTracker.clear Tracker s)).
  constructor.
Qed.

Lemma rebind_healthy fb (s : state) t det :
  healthy_table s ->
  healthy_table (rebind fb s t det) /\ limit (rebind fb s t det) = limit s.
Proof.
  intros H. split; [|reflexivity].
  cbn [FaceTracker.rebind FaceTracker._tracked_faces
       FaceTracker._max_frames_lost].
  apply Forall_modify; [assumption|].
  intros v (Hl & _). unfold FaceTracker.healthy. cbn.
  repeat split; try assumption; try lra; try lia.
Qed.

Lemma match_loop_healthy fb thr (dets : list BBox) :
  forall i (s : state) mt md s1 mt1 md1,
  healthy_table s ->
  match_loop fb thr i dets s mt md = (s1, mt1, md1) ->
  healthy_table s1 /\ limit s1 = limit s.
Proof.
  induction dets as [|det dets IH]; intros i s mt md s1 mt1 md1 H Hrun;
    cbn [FaceTracker.match_loop] in Hrun.
  - injection Hrun as <- _ _. split; [assumption | reflexivity].
  - destruct (FaceTracker.best_track (table s) mt det thr 0 None) as [t|].
    + destruct (rebind_healthy fb s t det H) as [H1 E1].
      destruct (IH _ _ _ _ _ _ _ H1 Hrun) as [H2 E2].
      split; [assumption | congruence].
    + apply (IH _ _ _ _ _ _ _ H Hrun).
Qed.

Lemma spawn_loop_healthy fb md (dets : list BBox) :
  forall i (s : state),
  healthy_table s ->
  healthy_table (spawn_loop fb i dets md s) /\
  limit (spawn_loop fb i dets md s) = limit s.
Proof.
  induction dets as [|det dets IH]; intros i s H; cbn [FaceTracker.spawn_loop];
    [split; [assumption | reflexivity]|].
  destruct (memN i md); [apply IH; assumption|].
  destruct (add_track_healthy fb s det H) as [H1 E1].
  destruct (IH (S i) _ H1) as [H2 E2]. split; [assumption | congruence].
Qed.

Lemma refresh_tracks_healthy (s : state) frame dets thr :
  healthy_table s ->
  healthy_table (snd (refresh_tracks s frame dets thr)) /\
  limit (snd (refresh_tracks s frame dets thr)) = limit s.
Proof.
  intros H. unfold FaceTracker.refresh_tracks.
  destruct dets as [|d dets]; [split; [assumption | reflexivity]|].
  destruct (table s) as [|kv rest] eqn:Et; [apply init_tracks_healthy|].
  rewrite <- Et in H.
  destruct (FaceTracker.match_loop Tracker tinit (cvt frame) thr 0 (d :: dets)
              s [] []) as [[s1 mt1] md1] eqn:Em.
  cbn [snd].
  destruct (match_loop_healthy _ _ _ _ _ _ _ _ _ _ H Em) as [H1 E1].
  destruct (spawn_loop_healthy (cvt frame) md1 (d :: dets) 0 s1 H1)
    as [H2 E2].
  split; [assumption | congruence].
Qed.

Lemma confidence_range (n : Z) :
  (0 <= n)%Z ->
  (1 # 2) <= Py.max (1 # 2) (1 - inject_Z n * (2 # 100)) <= 1.
Proof.
  intros Hn.
  assert (H : 0 <= inject_Z n) by (unfold Qle; cbn; lia).
  py_cases; lra.
Qed.

Lemma update_healthy (s : state) frame reported s' :
  wf s -> healthy_table s ->
  update s frame = Ok (reported, s') ->
  healthy_table s' /\ limit s' = limit s.
Proof.
  intros Hwf H Hup.
  destruct (update_unfold s frame Hwf)
    as (trs' & faces' & lost' & Hrun & Hk1 & Hk2 & Hup').
  rewrite Hup' in Hup. injection Hup as _ <-.
  cbn [FaceTracker._tracked_faces FaceTracker._max_frames_lost].
  split; [|reflexivity].
  destruct Hwf as (Hkeys & Hsorted & Hlt & Hown).
  assert (Hnd : NoDup (PyDict.keys (trackers s)))
    by (rewrite Hkeys; apply sorted_nodup; assumption).
  destruct (update_loop_exact (cvt frame) (limit s) (trackers s) Hnd
              _ _ _ _ _ _ Hrun) as [Hex _].
  rewrite Forall_forall in *. intros [k v] Hin. cbn [snd].
  assert (Hk : In k (PyDict.keys (FaceTracker.sweep lost' faces')))
    by (apply (in_map fst) in Hin; exact Hin).
  assert (Hnot : ~ In k lost').
  { intros Hl. revert Hk. apply sweep_removes; [rewrite Hk2|]; assumption. }
  apply sweep_incl in Hin.
  assert (Hk' : In k (ids s))
    by (rewrite <- Hk2; apply (in_map fst) in Hin; exact Hin).
  destruct (in_keys_get k (trackers s) ltac:(rewrite Hkeys; assumption))
    as [tr Htr].
  destruct (in_keys_get k (table s) Hk') as [tf Htf].
  destruct (Hex k tr tf (get_some_in _ _ _ Htr) Htf) as (_ & H2 & H3).
  assert (Hv : PyDict.get k faces' = Some v).
  { apply in_get_nodup; [|assumption].
    rewrite Hk2. apply sorted_nodup. assumption. }
  rewrite H2 in Hv. injection Hv as <-.
  specialize (H (k, tf) (get_some_in _ _ _ Htf)). cbn [snd] in H.
  destruct H as (Hl & _ & _ & Hn0 & _).
  destruct (tupdate tr (cvt frame)) as [tr' [success [[[bx by_] bw] bh]]].
  cbn [fst snd] in *.
  pose proof (mark_exact (limit s) k success bx by_ bw bh tf []) as [Hm _].
  destruct success; [|exfalso; apply Hnot, H3; right; left; reflexivity].
  destruct (Z.le_gt_cases (TrackedFace.frames_since_detection tf + 1)
              (limit s)) as [Hle | Hgt];
    [|exfalso; apply Hnot, H3; right; right; lia].
  rewrite (Hm eq_refl Hle). unfold FaceTracker.healthy. cbn.
  pose proof (confidence_range (TrackedFace.frames_since_detection tf + 1)
                ltac:(lia)) as [C1 C2].
  repeat split; try assumption; try lia.
Qed.

Lemma run_healthy (calls : list FaceTracker.call) :
  forall s : state,
  wf s -> healthy_table s ->
  exists reports s',
    FaceTracker.run Tracker cvt tinit tupdate s calls = Ok (reports, s') /\
    healthy_table s' /\ limit s' = limit s /\
    forall l f, In (Some l) reports -> In f l ->
                FaceTracker.healthy (limit s) f.
Proof.
  induction calls as [|c calls IH]; intros s Hwf H.
  - exists [], s. split; [reflexivity|]. split; [assumption|].
    split; [reflexivity|]. intros l f [].
  - destruct (step_later Tracker cvt tinit tupdate s c Hwf)
      as (r & s1 & Hstep & (Hwf1 & _) & Hrep).
    assert (H1 : healthy_table s1 /\ limit s1 = limit s).
    { destruct c as [frame dets | frame | frame dets thr |];
        cbn [FaceTracker.step] in Hstep.
      - destruct (FaceTracker.init_tracks Tracker cvt tinit s frame dets)
          as [rep s2] eqn:E.
        injection Hstep as _ <-.
        pose proof (init_tracks_healthy s frame dets) as Hi.
        rewrite E in Hi. exact Hi.
      - destruct (FaceTracker.update Tracker cvt tupdate s frame)
          as [[rep s2]|ex] eqn:E; [|discriminate].
        cbn in Hstep. injection Hstep as _ <-.
        apply (update_healthy s frame rep s2 Hwf H E).
      - destruct (FaceTracker.refresh_tracks Tracker cvt tinit s frame dets
                    thr) as [rep s2] eqn:E.
        injection Hstep as _ <-.
        pose proof (refresh_tracks_healthy s frame dets thr H) as Hi.
        rewrite E in Hi. exact Hi.
      - injection Hstep as _ <-. split; [constructor | reflexivity]. }
    destruct H1 as [H1 E1].
    destruct (IH s1 Hwf1 H1) as (reports & s' & Hrun & H' & E' & Hall).
    exists (r :: reports), s'. cbn [FaceTracker.run]. rewrite Hstep.
    cbn [Py.bind fst snd]. rewrite Hrun. cbn [Py.bind fst snd].
    split; [reflexivity|]. split; [assumption|]. split; [congruence|].
    intros l f [E | Hin] Hf.
    + rewrite (Hrep l E) in Hf. rewrite <- E1.
      rewrite Forall_forall in H1. unfold PyDict.values in Hf.
      apply in_map_iff in Hf as (kv & <- & Hkv). apply (H1 kv Hkv).
    + rewrite <- E1. apply (Hall l f Hin Hf).
Qed.

(** X22: every run of calls on a fresh tracker returns, and every track a
    call reports, as it is when that call returns, is not lost, has a
    confidence between 0.5 and 1, and a counter of frames since detection
    that is 0 or between 1 and [max_frames_without_detection]; the same
    holds of every track the tracker holds at the end. *)
Theorem tracks_reported_healthy ty m (calls : list FaceTracker.call) :
  exists reports s,
    FaceTracker.run Tracker cvt tinit tupdate (FaceTracker.init Tracker ty m)
      calls = Ok (reports, s) /\
    (forall l f, In (Some l) reports -> In f l -> FaceTracker.healthy m f) /\
    (forall f, In f (PyDict.values (table s)) -> FaceTracker.healthy m f).
Proof.
  destruct (run_healthy calls (FaceTracker.init Tracker ty m)
              (wf_init Tracker ty m) ltac:(constructor))
    as (reports & s & Hrun & H & E & Hall).
  exists reports, s. split; [assumption|]. split; [exact Hall|].
  intros f Hf. unfold PyDict.values in Hf.
  apply in_map_iff in Hf as (kv & <- & Hkv).
  rewrite Forall_forall in H. cbn in E. rewrite <- E. apply (H kv Hkv).
Qed.

(** *** Matching *)

Lemma NoDup_snoc {A : Type} (l : list A) (a : A) :
  NoDup l -> ~ In a l -> NoDup (l ++ [a]).
Proof.
  intros Hl Ha. induction Hl as [|x l Hx Hl IH]; cbn.
  - constructor; [intros [] | constructor].
  - constructor.
    + rewrite in_app_iff. cbn. intros [H | [H | []]]; [tauto|].
      subst. apply Ha. left. reflexivity.
    + apply IH. intros H. apply Ha. right. assumption.
Qed.

Lemma match_loop_pairs fb thr (dets : list BBox) :
  forall i (s : state) mt md s1 mt1 md1,
  NoDup mt -> NoDup md -> length mt = length md ->
  (forall j, In j md -> (j < i)%nat) ->
  (forall t, In t mt -> In t (ids s)) ->
  match_loop fb thr i dets s mt md = (s1, mt1, md1) ->
  NoDup mt1 /\ NoDup md1 /\ length mt1 = length md1 /\
  (forall j, In j md1 -> (j < i + length dets)%nat) /\
  (forall t, In t mt1 -> In t (ids s)).
Proof.
  induction dets as [|det dets IH];
    intros i s mt md s1 mt1 md1 Hmt Hmd Hlen Hlt Hin Hrun;
    cbn [FaceTracker.match_loop] in Hrun.
  - injection Hrun as _ <- <-. repeat split; auto.
    intros j Hj. specialize (Hlt j Hj). lia.
  - destruct (FaceTracker.best_track (table s) mt det thr 0 None) as [t|] eqn:Eb.
    + destruct (best_track_in mt det thr (table s) t Eb) as [Ht Hm].
      apply memZ_not_in in Hm.
      assert (Hids : ids (rebind fb s t det) = ids s)
        by (cbn [FaceTracker.rebind FaceTracker._tracked_faces];
            apply keys_modify).
      destruct (IH (S i) (rebind fb s t det) (mt ++ [t]) (md ++ [i])
                  s1 mt1 md1) as (H1 & H2 & H3 & H4 & H5); try assumption.
      * apply NoDup_snoc; assumption.
      * apply NoDup_snoc; [assumption|].
        intros Hi. specialize (Hlt i Hi). lia.
      * rewrite !length_app. cbn. lia.
      * intros j Hj. apply in_app_iff in Hj as [Hj | [<- | []]];
          [specialize (Hlt j Hj)|]; lia.
      * intros t' Ht'. rewrite Hids.
        apply in_app_iff in Ht' as [Ht' | [<- | []]]; auto.
      * repeat split; try assumption.
        -- intros j Hj. specialize (H4 j Hj). cbn [length]. lia.
        -- intros t' Ht'. rewrite <- Hids. auto.
    + destruct (IH (S i) s mt md s1 mt1 md1) as (H1 & H2 & H3 & H4 & H5);
        try assumption.
      * intros j Hj. specialize (Hlt j Hj). lia.
      * repeat split; try assumption.
        intros j Hj. specialize (H4 j Hj). cbn [length]. lia.
Qed.

Lemma combine_fst {A B : Type} (l : list A) (l' : list B) :
  length l = length l' -> map fst (combine l l') = l.
Proof.
  revert l'. induction l as [|a l IH]; intros [|b l'] H; try discriminate;
    [reflexivity|].
  cbn. rewrite IH; [reflexivity|]. cbn in H. lia.
Qed.

Lemma combine_snd {A B : Type} (l : list A) (l' : list B) :
  length l = length l' -> map snd (combine l l') = l'.
Proof.
  revert l'. induction l as [|a l IH]; intros [|b l'] H; try discriminate;
    [reflexivity|].
  cbn. rewrite IH; [reflexivity|]. cbn in H. lia.
Qed.

(** X23: the matching of [refresh_tracks] is one to one, whatever the state
    of the tracker and the threshold: no track is given two detections, no
    detection is given to two tracks, every matched track is a track of the
    table and every matched index is an index of the detection list. *)
Theorem matching_one_to_one (s : state) (frame : ndarray.t)
    (detections : list BBox) (iou_threshold : Q) :
  let pairs :=
    FaceTracker.matched_pairs Tracker cvt tinit s frame detections
      iou_threshold in
  NoDup (map fst pairs) /\ NoDup (map snd pairs) /\
  (length pairs <= length detections)%nat /\
  (length pairs <= length (table s))%nat /\
  forall t i, In (t, i) pairs ->
              In t (ids s) /\ (i < length detections)%nat.
Proof.
  cbv zeta. unfold FaceTracker.matched_pairs.
  destruct (FaceTracker.match_loop Tracker tinit (cvt frame) iou_threshold 0
              detections s [] []) as [[s1 mt1] md1] eqn:Em.
  destruct (match_loop_pairs _ _ _ _ _ _ _ _ _ _
              (NoDup_nil Z) (NoDup_nil nat) eq_refl
              ltac:(intros j []) ltac:(intros t []) Em)
    as (H1 & H2 & H3 & H4 & H5).
  rewrite (combine_fst mt1 md1 H3), (combine_snd mt1 md1 H3).
  split; [assumption|]. split; [assumption|].
  rewrite length_combine, <- H3, Nat.min_id.
  assert (Hin : forall t i, In (t, i) (combine mt1 md1) ->
                            In t (ids s) /\ (i < length detections)%nat).
  { intros t i Hti. split.
    - apply H5. apply (in_combine_l _ _ _ _ Hti).
    - apply (H4 i). apply (in_combine_r _ _ _ _ Hti). }
  repeat split; try (intros; apply (Hin t i); assumption).
  - rewrite H3.
    apply Nat.le_trans with (length (seq 0 (length detections)));
      [|rewrite length_seq; apply Nat.le_refl].
    apply NoDup_incl_length; [assumption|].
    intros j Hj. apply in_seq. specialize (H4 j Hj). lia.
  - unfold PyDict.keys in H5. rewrite <- (length_map fst (table s)).
    apply NoDup_incl_length; [assumption|]. exact H5.
Qed.

(** A track of the table is still there after the matching, as it was or
    rebound to one of the detections. *)
Lemma match_loop_values fb thr (dets : list BBox) :
  forall i (s : state) mt md s1 mt1 md1,
  wf s ->
  match_loop fb thr i dets s mt md = (s1, mt1, md1) ->
  wf s1 /\
  forall k tf,
    PyDict.get k (table s) = Some tf ->
    PyDict.get k (table s1) = Some tf \/
    exists det,
      In det dets /\
      PyDict.get k (table s1)
      = Some (TrackedFace.mk (TrackedFace.tracking_id tf) det 1 0
                (TrackedFace.is_lost tf)).
Proof.
  induction dets as [|det dets IH]; intros i s mt md s1 mt1 md1 Hwf Hrun;
    cbn [FaceTracker.match_loop] in Hrun.
  - injection Hrun as <- _ _. split; [assumption | auto].
  - destruct (FaceTracker.best_track (table s) mt det thr 0 None) as [t|] eqn:Eb.
    + destruct (best_track_in mt det thr (table s) t Eb) as [Ht _].
      destruct (rebind_spec Tracker tinit fb s t det Hwf Ht)
        as (Hwf1 & _ & _ & Hsame & Hother).
      destruct (IH _ _ _ _ _ _ _ Hwf1 Hrun) as [Hwf2 Hall].
      split; [assumption|]. intros k tf Hget.
      destruct (Z.eq_dec k t) as [-> | Hne].
      * destruct (Hall t _ (Hsame tf Hget)) as [H | (det' & Hd & H)].
        -- right. exists det. split; [left; reflexivity | exact H].
        -- right. exists det'. split; [right; assumption | exact H].
      * rewrite <- (Hother k Hne) in Hget.
        destruct (Hall k tf Hget) as [H | (det' & Hd & H)]; [left; exact H|].
        right. exists det'. split; [right; assumption | exact H].
    + destruct (IH _ _ _ _ _ _ _ Hwf Hrun) as [Hwf2 Hall].
      split; [assumption|]. intros k tf Hget.
      destruct (Hall k tf Hget) as [H | (det' & Hd & H)]; [left; exact H|].
      right. exists det'. split; [right; assumption | exact H].
Qed.

(** X24: [refresh_tracks], on any state the tracker can reach, removes no
    track: every track of the table is in the table afterwards under the
    same identity, either as it was (box, confidence and counter untouched)
    or with the box of one of the detections, a confidence of 1 and a counter
    of 0.  A track that no detection matches is left to [update] to drop. *)
Theorem refresh_tracks_keeps_tracks ty m (calls : list FaceTracker.call)
    reports (s : state) (frame : ndarray.t) (detections : list BBox)
    (iou_threshold : Q) (k : Z) (tf : TrackedFace.t)
    (Hreach : FaceTracker.run Tracker cvt tinit tupdate
                (FaceTracker.init Tracker ty m) calls = Ok (reports, s))
    (Hget : PyDict.get k (table s) = Some tf) :
  let s' := snd (refresh_tracks s frame detections iou_threshold) in
  fst (refresh_tracks s frame detections iou_threshold)
  = PyDict.values (table s') /\
  (FaceTracker.active_tracks Tracker s
   <= FaceTracker.active_tracks Tracker s')%Z /\
  (PyDict.get k (table s') = Some tf \/
   exists det,
     In det detections /\
     PyDict.get k (table s')
     = Some (TrackedFace.mk (TrackedFace.tracking_id tf) det 1 0
               (TrackedFace.is_lost tf))).
Proof.
  pose proof (reachable_wf Tracker cvt tinit tupdate ty m calls reports s
                Hreach) as Hwf.
  cbv zeta.
  destruct detections as [|d dets].
  { cbn. split; [reflexivity|]. split; [lia | left; assumption]. }
  rewrite (refresh_tracks_unfold Tracker cvt tinit s frame (d :: dets)
             iou_threshold Hwf ltac:(discriminate)).
  destruct (FaceTracker.match_loop Tracker tinit (cvt frame) iou_threshold 0
              (d :: dets) s [] []) as [[s1 mt1] md1] eqn:Em.
  cbn [fst snd].
  destruct (match_loop_values _ _ _ _ _ _ _ _ _ _ Hwf Em) as [Hwf1 Hall].
  destruct (spawn_loop_spec Tracker tinit (cvt frame) md1 (d :: dets) 0%nat
              s1 Hwf1) as ((Hwf2 & _) & Hkeep & _).
  split; [reflexivity|].
  assert (Hkept : forall k' tf',
            PyDict.get k' (table s) = Some tf' ->
            In k' (ids (spawn_loop (cvt frame) 0 (d :: dets) md1 s1))).
  { intros k' tf' Hg.
    destruct (Hall k' tf' Hg) as [H | (det & _ & H)];
      apply Hkeep in H; apply (get_in_keys _ _ _ H). }
  split.
  - unfold FaceTracker.active_tracks. apply inj_le.
    rewrite <- (length_map fst (table s)).
    rewrite <- (length_map fst
                  (table (spawn_loop (cvt frame) 0 (d :: dets) md1 s1))).
    apply NoDup_incl_length.
    + apply sorted_nodup. apply Hwf.
    + intros k' Hk'. destruct (in_keys_get k' (table s) Hk') as [tf' Hg].
      apply (Hkept k' tf' Hg).
  - destruct (Hall k tf Hget) as [H | (det & Hd & H)].
    + left. apply Hkeep. exact H.
    + right. exists det. split; [assumption | apply Hkeep; exact H].
Qed.

End TrackerLifecycle.

Lemma update_survivors_witness :
  exists reported s',
    FaceTracker.update BBox Examples.bgr Examples.drifting_update
      Examples.near_and_far Examples.black_frame = Ok (reported, s') /\
    (exists tf,
       PyDict.get 0%Z (FaceTracker._tracked_faces BBox s') = Some tf /\
       TrackedFace.bbox tf = (1, 0, 10, 10)%Z /\
       TrackedFace.confidence tf == 98 # 100) /\
    ~ In 1%Z (PyDict.keys (FaceTracker._tracked_faces BBox s')).
Proof.
  destruct (update_survivors BBox Examples.bgr Examples.drifting_init
              Examples.drifting_update KCF 30
              [FaceTracker.CallInitTracks Examples.black_frame
                 [(0, 0, 10, 10); (60, 0, 10, 10)]%Z]
              [Some (PyDict.values
                       (FaceTracker._tracked_faces BBox
                          Examples.near_and_far))]
              Examples.near_and_far Examples.black_frame 0%Z
              (0, 0, 10, 10)%Z (TrackedFace.new 0 (0, 0, 10, 10)%Z 1)
              eq_refl eq_refl eq_refl)
    as (reported & s' & Hup & _ & _ & Hkept).
  destruct (update_survivors BBox Examples.bgr Examples.drifting_init
              Examples.drifting_update KCF 30
              [FaceTracker.CallInitTracks Examples.black_frame
                 [(0, 0, 10, 10); (60, 0, 10, 10)]%Z]
              [Some (PyDict.values
                       (FaceTracker._tracked_faces BBox
                          Examples.near_and_far))]
              Examples.near_and_far Examples.black_frame 1%Z
              (60, 0, 10, 10)%Z (TrackedFace.new 1 (60, 0, 10, 10)%Z 1)
              eq_refl eq_refl eq_refl)
    as (reported2 & s2 & Hup2 & _ & _ & Hgone).
  rewrite Hup in Hup2. injection Hup2 as _ <-.
  exists reported, s'. split; [exact Hup|].
  cbn in Hkept, Hgone. destruct Hkept as [_ Hkept]. destruct Hgone as [Hgone _].
  split; [|exact Hgone].
  eexists. split; [exact Hkept|]. split; reflexivity.
Defined.

Lemma refresh_tracks_keeps_tracks_witness :
  let s' := snd (FaceTracker.refresh_tracks BBox Examples.bgr
                   Examples.drifting_init Examples.near_and_far
                   Examples.black_frame [(61, 0, 10, 10)%Z] (3 # 10)) in
  PyDict.get 0%Z (FaceTracker._tracked_faces BBox s')
  = Some (TrackedFace.new 0 (0, 0, 10, 10)%Z 1) /\
  PyDict.get 1%Z (FaceTracker._tracked_faces BBox s')
  = Some (TrackedFace.new 1 (61, 0, 10, 10)%Z 1).
Proof.
  intros s'. split.
  - destruct (refresh_tracks_keeps_tracks BBox Examples.bgr
                Examples.drifting_init Examples.drifting_update KCF 30
                [FaceTracker.CallInitTracks Examples.black_frame
                   [(0, 0, 10, 10); (60, 0, 10, 10)]%Z]
                [Some (PyDict.values
                         (FaceTracker._tracked_faces BBox
                            Examples.near_and_far))]
                Examples.near_and_far Examples.black_frame
                [(61, 0, 10, 10)%Z] (3 # 10) 0%Z
                (TrackedFace.new 0 (0, 0, 10, 10)%Z 1) eq_refl eq_refl)
      as (_ & _ & [H | (det & _ & H)]); [exact H | reflexivity].
  - reflexivity.
Defined.

Lemma init_tracks_fresh_witness :
  nth_error
    (fst (FaceTracker.init_tracks unit Examples.bgr Examples.tracker_init
            Examples.aged Examples.black_frame Examples.half_then_whole)) 1
  = Some (TrackedFace.mk 3 (0, 0, 10, 10)%Z 1 0 false).
Proof.
  destruct (init_tracks_fresh unit Examples.bgr Examples.tracker_init
              Examples.aged Examples.black_frame Examples.half_then_whole)
    as (_ & _ & H & _).
  apply (H 1%nat). reflexivity.
Defined.

(** ** Tracks in normalized coordinates *)

(** X25: [to_normalized] raises [ZeroDivisionError] exactly when the frame
    width or height it is given is 0; otherwise it returns the box divided
    by the frame size, which lies in the unit square when the box lies in
    the frame. *)
Theorem to_normalized_contract (f : TrackedFace.t)
    (frame_width frame_height : Z) :
  let '(x, y, w, h) := TrackedFace.bbox f in
  (TrackedFace.to_normalized f frame_width frame_height
   = Raise ZeroDivisionError
   <-> frame_width = 0%Z \/ frame_height = 0%Z) /\
  (frame_width <> 0%Z -> frame_height <> 0%Z ->
   TrackedFace.to_normalized f frame_width frame_height
   = Ok (inject_Z x / inject_Z frame_width,
         inject_Z y / inject_Z frame_height,
         inject_Z w / inject_Z frame_width,
         inject_Z h / inject_Z frame_height)) /\
  ((0 <= x /\ 0 <= w /\ x + w <= frame_width /\ 0 < frame_width)%Z ->
   (0 <= y /\ 0 <= h /\ y + h <= frame_height /\ 0 < frame_height)%Z ->
   0 <= inject_Z x / inject_Z frame_width /\
   0 <= inject_Z w / inject_Z frame_width /\
   inject_Z x / inject_Z frame_width + inject_Z w / inject_Z frame_width <= 1 /\
   0 <= inject_Z y / inject_Z frame_height /\
   0 <= inject_Z h / inject_Z frame_height /\
   inject_Z y / inject_Z frame_height + inject_Z h / inject_Z frame_height
   <= 1).
Proof.
  unfold TrackedFace.to_normalized.
  destruct (TrackedFace.bbox f) as [[[x y] w] h].
  assert (Hz : forall a b : Z,
            b = 0%Z -> Py.div (inject_Z a) (inject_Z b)
                       = Raise ZeroDivisionError)
    by (intros a b ->; reflexivity).
  assert (Hnz : forall a b : Z,
            b <> 0%Z -> Py.div (inject_Z a) (inject_Z b)
                        = Ok (inject_Z a / inject_Z b)).
  { intros a b Hb. apply div_ok. apply inject_Z_nonzero. assumption. }
  split; [|split].
  - destruct (Z.eq_dec frame_width 0) as [Ew | Ew].
    + rewrite (Hz x _ Ew). cbn. tauto.
    + rewrite !(Hnz _ _ Ew). cbn [Py.bind].
      destruct (Z.eq_dec frame_height 0) as [Eh | Eh].
      * rewrite (Hz y _ Eh). cbn. tauto.
      * rewrite !(Hnz _ _ Eh). cbn [Py.bind].
        split; [discriminate | tauto].
  - intros Ew Eh. rewrite !(Hnz _ _ Ew), !(Hnz _ _ Eh). reflexivity.
  - intros (X1 & X2 & X3 & X4) (Y1 & Y2 & Y3 & Y4).
    repeat split; auto using ratio_nonneg, ratio_sum_le_1.
Qed.

Lemma to_normalized_contract_witness :
  TrackedFace.to_normalized (TrackedFace.new 0 (320, 240, 64, 48)%Z 1) 640 480
  = Ok (inject_Z 320 / inject_Z 640, inject_Z 240 / inject_Z 480,
        inject_Z 64 / inject_Z 640, inject_Z 48 / inject_Z 480) /\
  TrackedFace.to_normalized (TrackedFace.new 0 (320, 240, 64, 48)%Z 1) 640 0
  = Raise ZeroDivisionError.
Proof.
  pose proof (to_normalized_contract
                (TrackedFace.new 0 (320, 240, 64, 48)%Z 1) 640 480) as H1.
  pose proof (to_normalized_contract
                (TrackedFace.new 0 (320, 240, 64, 48)%Z 1) 640 0) as H2.
  cbn [TrackedFace.bbox TrackedFace.new] in H1, H2.
  destruct H1 as (_ & H1 & _). destruct H2 as (H2 & _).
  split.
  - apply H1; discriminate.
  - apply H2. right. reflexivity.
Defined.

(** ** The stand-alone scripts *)

(** X26: [ease] of [lite.py] never overshoots: for a speed between 0 and
    0.25 (the script uses 0.06 and 0.042) and a current value and a target at
    most 2 apart, the result lies between the current value and the target;
    at the target the value stays at the target. *)
Theorem ease_between (current target speed : Q)
    (Hs : 0 <= speed <= 1 # 4)
    (Hd : Qabs (target - current) <= 2) :
  Py.min current target <= Lite.ease current target speed
  /\ Lite.ease current target speed <= Py.max current target
  /\ (target == current -> Lite.ease current target speed == current).
Proof.
  unfold Lite.ease, Py.abs. cbv zeta.
  pose proof (Qabs_nonneg (target - current)) as Ha.
  assert (Hcase : (target - current <= 0
                   /\ Qabs (target - current) == - (target - current))
                  \/ (0 <= target - current
                      /\ Qabs (target - current) == target - current)).
  { destruct (Qlt_le_dec (target - current) 0) as [H | H].
    - left. split; [lra|]. apply Qabs_neg. lra.
    - right. split; [assumption|]. apply Qabs_pos. assumption. }
  revert Ha Hd Hcase. generalize (Qabs (target - current)). intros a Ha Hd Hcase.
  assert (Hf : 0 <= speed * (2 - a) <= 1) by nra.
  repeat split.
  - py_cases; destruct Hcase as [[Hsign Eabs] | [Hsign Eabs]]; nra.
  - py_cases; destruct Hcase as [[Hsign Eabs] | [Hsign Eabs]]; nra.
  - intros Esame. destruct Hcase as [[Hsign Eabs] | [Hsign Eabs]]; nra.
Qed.

Lemma ease_between_witness :
  (1 # 4) <= Lite.ease (1 # 4) (3 # 4) (6 # 100)
  /\ Lite.ease (1 # 4) (3 # 4) (6 # 100) <= 3 # 4.
Proof.
  destruct (ease_between (1 # 4) (3 # 4) (6 # 100)) as (H1 & H2 & _).
  - split; [unfold Qle; cbn; lia | unfold Qle; cbn; lia].
  - unfold Qle; cbn; lia.
  - split; [exact H1 | exact H2].
Defined.

(** X27: [apply_crop] of [ultralight.py] never hands an empty array to
    [cv2.resize] when the frame is not empty, whatever the crop held in the
    globals: the array is a part of the frame with at least one row and one
    column, or the frame itself. *)
Theorem resize_source_never_empty (crop : Q * Q * Q * Q) (frame : ndarray.t)
    (Hframe : ndarray.is_empty frame = false) :
  let src := Lite.resize_source crop frame in
  ndarray.is_empty src = false /\
  (0 < ndarray.rows src <= ndarray.rows frame)%Z /\
  (0 < ndarray.cols src <= ndarray.cols frame)%Z.
Proof.
  unfold ndarray.is_empty in Hframe. apply orb_false_iff in Hframe as [Hr Hc].
  apply Z.leb_gt in Hr, Hc.
  destruct crop as [[[cx cy] cw] ch]. cbv zeta.
  unfold Lite.resize_source, ndarray.shape.
  rewrite !maxZ_max, !minZ_min.
  set (x1 := Z.max 0 (Py.int (cx * inject_Z (ndarray.cols frame)))).
  set (y1 := Z.max 0 (Py.int (cy * inject_Z (ndarray.rows frame)))).
  set (x2 := Z.min (ndarray.cols frame)
               (Py.int ((cx + cw) * inject_Z (ndarray.cols frame)))).
  set (y2 := Z.min (ndarray.rows frame)
               (Py.int ((cy + ch) * inject_Z (ndarray.rows frame)))).
  assert (B : (0 <= x1 /\ 0 <= y1 /\ x2 <= ndarray.cols frame
               /\ y2 <= ndarray.rows frame)%Z) by (subst x1 y1 x2 y2; lia).
  clearbody x1 y1 x2 y2. destruct B as (B1 & B2 & B3 & B4).
  destruct (Z.ltb_spec x1 x2) as [Hx | Hx]; cbn [andb];
    [destruct (Z.ltb_spec y1 y2) as [Hy | Hy]|].
  - unfold ndarray.slice, ndarray.is_empty, Py.slice_bound.
    cbn [ndarray.rows ndarray.cols].
    destruct (Z.ltb_spec y1 0), (Z.ltb_spec y2 0), (Z.ltb_spec x1 0),
      (Z.ltb_spec x2 0); lia.
  - unfold ndarray.is_empty. split; [|lia].
    apply orb_false_iff. split; apply Z.leb_gt; lia.
  - unfold ndarray.is_empty. split; [|lia].
    apply orb_false_iff. split; apply Z.leb_gt; lia.
Qed.

Lemma resize_source_never_empty_witness :
  ndarray.is_empty
    (Lite.resize_source (1 # 2, 1 # 2, 1 # 1000, 1 # 1000)
       Examples.black_frame) = false.
Proof.
  apply (resize_source_never_empty (1 # 2, 1 # 2, 1 # 1000, 1 # 1000)
           Examples.black_frame).
  reflexivity.
Defined.

(** ** The frame-rate counter *)

Lemma nth_tl (l : list Q) (i : nat) (d : Q) : nth i (tl l) d = nth (S i) l d.
Proof. destruct l; [destruct i|]; reflexivity. Qed.

(** The window after the ticks at the readings [r], for a non-empty [r]. *)
Lemma ticks_window (w : Z) (r : list Q) :
  (0 <= w)%Z -> r <> [] ->
  let c := FPSCounter.ticks (FPSCounter.mk w [] None) r in
  let k := length (FPSCounter._frame_times c) in
  FPSCounter._window_size c = w /\
  FPSCounter._last_time c = Some (nth (length r - 1) r 0) /\
  Z.of_nat k = Z.min w (Z.of_nat (length r) - 1) /\
  forall i, (i < k)%nat ->
    nth i (FPSCounter._frame_times c) 0
    = nth (length r - k + i) r 0 - nth (length r - k + i - 1) r 0.
Proof.
  intros Hw. induction r as [|x r IH] using rev_ind; intros Hne;
    [congruence|]. clear Hne.
  unfold FPSCounter.ticks. rewrite fold_left_app. cbn [fold_left].
  fold (FPSCounter.ticks (FPSCounter.mk w [] None) r).
  destruct r as [|y r'].
  { cbn. repeat split; try lia. }
  set (r := y :: r') in *.
  destruct (IH ltac:(discriminate)) as (Ew & El & Ek & Enth). clear IH.
  cbv zeta in Ew, El, Ek, Enth.
  set (c := FPSCounter.ticks (FPSCounter.mk w [] None) r) in *.
  set (ft := FPSCounter._frame_times c) in *.
  assert (Hlen : (1 <= length r)%nat) by (subst r; cbn; lia).
  unfold FPSCounter.tick. rewrite El, Ew. cbn [snd].
  cbn [FPSCounter._window_size FPSCounter._last_time FPSCounter._frame_times].
  fold ft. rewrite length_app. cbn [length].
  replace (length r + 1 - 1)%nat with (length r) by lia.
  split; [reflexivity|]. split.
  { rewrite app_nth2, Nat.sub_diag by lia. reflexivity. }
  unfold FPSCounter.deque_append.
  destruct (Z.eqb_spec w 0) as [E0 | E0].
  { split; [lia|]. intros i Hi. lia. }
  destruct (Z.ltb_spec (Z.of_nat (length ft)) w) as [Hlt | Hge].
  - rewrite length_app. cbn [length]. split; [lia|].
    assert (Ek' : length ft = (length r - 1)%nat) by lia.
    intros i Hi.
    destruct (Nat.eq_dec i (length ft)) as [-> | Hne].
    + rewrite app_nth2, Nat.sub_diag by lia. cbn [nth].
      replace (length r + 1 - (length ft + 1) + length ft)%nat
        with (length r) by lia.
      replace (length r - 1)%nat with (length r - 1)%nat by lia.
      rewrite (app_nth2 r [x]), Nat.sub_diag by lia. cbn [nth].
      rewrite (app_nth1 r [x]) by lia. reflexivity.
    + rewrite app_nth1 by lia. rewrite Enth by lia.
      replace (length r + 1 - (length ft + 1) + i)%nat
        with (length r - length ft + i)%nat by lia.
      rewrite !(app_nth1 r [x]) by lia. reflexivity.
  - assert (Ek' : Z.of_nat (length ft) = w) by lia.
    assert (Hpos : (1 <= length ft)%nat) by lia.
    assert (Htl : length (tl ft) = (length ft - 1)%nat)
      by (destruct ft; cbn; lia).
    rewrite length_app, Htl. cbn [length].
    replace (length ft - 1 + 1)%nat with (length ft) by lia.
    split; [lia|].
    intros i Hi.
    destruct (Nat.eq_dec i (length ft - 1)) as [-> | Hne].
    + rewrite app_nth2 by lia. rewrite Htl, Nat.sub_diag. cbn [nth].
      replace (length r + 1 - length ft + (length ft - 1))%nat
        with (length r) by lia.
      rewrite (app_nth2 r [x]), Nat.sub_diag by lia. cbn [nth].
      rewrite (app_nth1 r [x]) by lia. reflexivity.
    + rewrite app_nth1 by lia. rewrite nth_tl, Enth by lia.
      replace (length r + 1 - length ft + i)%nat
        with (length r - length ft + S i)%nat by lia.
      replace (length r - length ft + S i - 1)%nat
        with (length r - length ft + S i - 1)%nat by lia.
      rewrite !(app_nth1 r [x]) by lia. reflexivity.
Qed.

(** X28: after the ticks of a fresh counter at the clock readings
    [readings], the deque holds the last [k = min(window_size, n - 1)]
    frame intervals, oldest first, each the difference of two consecutive
    readings; a counter that has ticked once holds none and reports 0, and
    the frame rate reported is never negative. *)
Theorem fps_rolling_window (window_size : Z) (c0 : FPSCounter.t)
    (readings : list Q)
    (Hinit : FPSCounter.init window_size = Ok c0)
    (Hne : readings <> []) :
  let c := FPSCounter.ticks c0 readings in
  let n := length readings in
  let k := length (FPSCounter._frame_times c) in
  Z.of_nat k = Z.min window_size (Z.of_nat n - 1) /\
  (forall i, (i < k)%nat ->
     nth i (FPSCounter._frame_times c) 0
     = nth (n - k + i) readings 0 - nth (n - k + i - 1) readings 0) /\
  (n = 1%nat -> FPSCounter.fps c = 0) /\
  0 <= FPSCounter.fps c.
Proof.
  unfold FPSCounter.init in Hinit.
  destruct (Z.ltb_spec window_size 0) as [Hneg | Hw]; [discriminate|].
  injection Hinit as <-.
  destruct (ticks_window window_size readings Hw Hne) as (_ & _ & Ek & Enth).
  cbv zeta in Ek, Enth |- *.
  set (c := FPSCounter.ticks (FPSCounter.mk window_size [] None) readings) in *.
  set (ft := FPSCounter._frame_times c) in *.
  split; [exact Ek|]. split; [exact Enth|].
  unfold FPSCounter.fps. fold ft. split.
  - intros E1. rewrite E1 in Ek.
    destruct ft as [|a ft']; [reflexivity | cbn [length] in Ek; lia].
  - destruct ft as [|a ft']; [lra|].
    destruct (Qlt_le_dec 0 _) as [Hpos | Hle]; [|lra].
    unfold Qdiv. rewrite Qmult_1_l.
    apply Qlt_le_weak, Qinv_lt_0_compat. assumption.
Qed.

Lemma fps_rolling_window_witness :
  let c := FPSCounter.ticks (FPSCounter.mk 2 [] None) [0; 1; 3; 6] in
  Z.of_nat (length (FPSCounter._frame_times c)) = 2%Z /\
  nth 1 (FPSCounter._frame_times c) 0 = 6 - 3 /\
  0 <= FPSCounter.fps c.
Proof.
  destruct (fps_rolling_window 2 (FPSCounter.mk 2 [] None) [0; 1; 3; 6]
              eq_refl ltac:(discriminate)) as (Hk & Hnth & _ & Hf).
  split; [exact Hk|]. split; [|exact Hf].
  apply (Hnth 1%nat). vm_compute. lia.
Defined.

(** * Where the rounding of the floats shows

    The program's values in binary64 at inputs where they are not those of
    the exact layer.  They are why the theorems above compare through [min],
    [max] and the order, or name the program's own quotient or difference,
    and assert no equality that needs an exact sum. *)

(** [clamp] changes a region that lies inside the frame: [1.0 - 0.9] is
    below 0.1, and the width comes back as 0.09999999999999998. *)
Lemma clamp_shrinks_region_at_edge :
  let r := Examples.ends_at_edge in
  PrimFloat.leb (Binary64.CropRegion.x r + Binary64.CropRegion.width r) 1
  = true /\
  Binary64.CropRegion.width (Binary64.CropRegion.clamp r)
  = 0.09999999999999998%float /\
  PrimFloat.ltb (Binary64.CropRegion.width (Binary64.CropRegion.clamp r))
    (Binary64.CropRegion.width r) = true.
Proof. repeat split; vm_compute; reflexivity. Qed.

(** [clamp] does not hand a negative width back as it is: -0.01 comes back
    as -0.010000000000000009. *)
Lemma clamp_alters_negative_width :
  Binary64.CropRegion.width
    (Binary64.CropRegion.clamp Examples.negative_overhang)
  = (-0.010000000000000009)%float.
Proof. vm_compute. reflexivity. Qed.

(** With a width that is not a number, the bound [x + w <= 1] is lost:
    every comparison with NaN is false. *)
Lemma clamp_of_nan_width :
  let c := Binary64.CropRegion.clamp Examples.width_not_a_number in
  PrimFloat.leb (Binary64.CropRegion.x c + Binary64.CropRegion.width c) 1
  = false.
Proof. vm_compute. reflexivity. Qed.

(** [lerp] with factor 1 does not land on the target:
    [0.3 + (0.9 - 0.3) * 1.0] is 0.9000000000000001. *)
Lemma lerp_passes_target :
  Binary64.CropRegion.x
    (Binary64.CropRegion.lerp (Binary64.CropRegion.mk 0.3 0 1 1)
       (Binary64.CropRegion.mk 0.9 0 1 1) 1)
  = 0.9000000000000001%float.
Proof. vm_compute. reflexivity. Qed.

(** The dead zone: the movement from [narrow] to [slightly_wider] sums to
    0.01499999999999993 in binary64, below the dead zone 0.015, and the
    program holds the crop; the exact sum is 0.015, and the exact layer moves
    it. *)
Lemma dead_zone_holds_in_binary64 :
  Binary64.CenterStageEngine._smooth_transition
    Binary64.CenterStageConfig.default Examples.narrow Examples.slightly_wider
  = Examples.narrow /\
  CenterStageEngine._smooth_transition (CenterStageEngine.init None)
    Examples.narrow_exact Examples.slightly_wider_exact
  <> Examples.narrow_exact.
Proof.
  split; [vm_compute; reflexivity|].
  vm_compute. intros H. discriminate H.
Qed.

(** The final [clamp] of [_smooth_transition] changes what [lerp] gives:
    the left edge 0.1 of a crop of width 0.9 comes back as
    0.09999999999999998. *)
Lemma smooth_transition_clamp_moves_edge :
  Binary64.CropRegion.x
    (Binary64.CenterStageEngine._smooth_transition
       (Binary64.CenterStageConfig.mk 0.5 0.015 1 2.5 0.35 (16 / 9) ALL 60
          true)
       (Binary64.CropRegion.mk 0.1 0 0.9 0.5)
       (Binary64.CropRegion.mk 0.1 0.3 0.9 0.5))
  = 0.09999999999999998%float.
Proof. vm_compute. reflexivity. Qed.

(** The width of the bounding box is the rounded difference
    [max_x - min_x]: left side plus width, 0.20999999999999996, falls short
    of the right edge 0.21 of the second face. *)
Lemma bounding_box_width_rounds :
  exists bx by_ bw bh,
    Binary64.DetectionResult.get_bounding_box Examples.side_by_side
    = Some (bx, by_, bw, bh) /\
    PrimFloat.ltb (bx + bw) (0.06 + 0.15) = true.
Proof.
  eexists _, _, _, _. split; [vm_compute; reflexivity|].
  vm_compute. reflexivity.
Qed.

(** [to_pixels] truncates the rounded product: [0.29 * 100] is
    28.999999999999996 and gives 28, where the exact product gives 29. *)
Lemma to_pixels_truncates_rounded_product :
  Binary64.CropRegion.to_pixels
    (Binary64.CropRegion.mk 0.29 0.57 0.58 0.5) 100 100
  = Ok (28, 56, 57, 50)%Z /\
  CropRegion.to_pixels
    (CropRegion.mk (29 # 100) (57 # 100) (58 # 100) (1 # 2)) 100 100
  = (29, 57, 58, 50)%Z.
Proof. split; vm_compute; reflexivity. Qed.

(** The height of the detector frame for a frame of 624 by 468:
    [468 * (320 / 624)] is 239.99999999999997, and [int] gives 239. *)
Lemma small_height_rounds_down :
  FaceDetector.small_height_of Examples.frame_624x468 = Ok 239%Z.
Proof. vm_compute. reflexivity. Qed.

(** [ease]: from 0.3 toward 0.9 at speed 0.042, the distance left is
    0.56472, not the 0.56472000000000011 of the formula
    [diff * (1 - speed * (2 - |diff|))]. *)
Lemma ease_distance_rounds :
  let r := Binary64.Lite.ease 0.3 0.9 0.042 in
  PrimFloat.eqb (0.9 - r)
    ((0.9 - 0.3) * (1 - 0.042 * (2 - F64.abs (0.9 - 0.3))))%float
  = false.
Proof. vm_compute. reflexivity. Qed.

(** [apply_crop] of [ultralight.py]: for the crop [(0.7, 0, 0.1, 1)] on 640
    columns the right corner is [int(0.7999999999999999 * 640)], 511, and the
    part cut out is 63 columns wide, not 64. *)
Lemma corners_round_down :
  Binary64.Lite.corners (0.7, 0, 0.1, 1)%float 480 640
  = Ok (448, 0, 511, 480)%Z.
Proof. vm_compute. reflexivity. Qed.

(** The frame rate over three intervals is not 3 over the time between the
    first and the last reading: the sum of the rounded intervals is not that
    time. *)
Lemma fps_is_not_count_over_elapsed :
  let readings := [5021.283; 5021.317; 5021.35]%float in
  let frame_times := Binary64.FPSCounter.intervals 5021.25 readings in
  Binary64.FPSCounter.fps frame_times = 29.999999999890864%float /\
  PrimFloat.eqb (Binary64.FPSCounter.fps frame_times)
    (3 / (5021.35 - 5021.25))%float = false.
Proof. split; vm_compute; reflexivity. Qed.
